(** * SimpleTimer: the lifecycle state machine and tick loop of src/index.ts

    A shallow embedding of the [SimpleTimer] class.  Timer objects live in a
    heap and are named by references, because the registry [Timers], the
    handle returned to the caller and the closure of every tick loop all
    alias the same mutable object.  The host primitives are modelled by
    their contract:

    - [task.spawn f] runs [f] at once inside a new coroutine until it
      suspends or returns, then hands back the coroutine;
    - [task.wait n] suspends the running coroutine; the scheduler resumes it
      later (the [wake] step);
    - [task.cancel th] closes a suspended coroutine for good;
    - [coroutine.yield v] suspends the RUNNING coroutine (the value [v] is
      only handed to whoever resumes it); nothing in this program resumes it;
    - [ev.Fire(..)] delivers synchronously to the current subscribers, which
      are external and do not call back into the timer.

    Every effectful statement of the source appends one entry to the
    [trace] of the world, in program order.  The [number] type of the source
    is the IEEE-754 double: it is modelled by the binary64 instance of the
    standard library's [SpecFloat], with round-to-nearest-even arithmetic,
    signed zeros, infinities and NaN. *)

From stdpp Require Import gmap strings list fin_maps.
From Stdlib Require Import ZArith Lia SpecFloat.

(** ** Numbers *)

(** A [number] is a double: [prec = 53], [emax = 1024]. *)
Abbreviation number := spec_float (only parsing).

#[global] Instance number_eq_dec : EqDecision spec_float.
Proof. solve_decision. Defined.

(** An integer literal of the source, as the double nearest to it. *)
Definition num (z : Z) : number := binary_normalize 53 1024 z 0 false.

(** [x - y], [x / y], [x > y], [x <= y] and [x == y] on doubles.  A
    comparison with NaN is false. *)
Definition num_sub (x y : number) : number := SFsub 53 1024 x y.
Definition num_div (x y : number) : number := SFdiv 53 1024 x y.
Definition num_gt (x y : number) : bool := SFltb y x.
Definition num_le (x y : number) : bool := SFleb x y.
Definition num_eq (x y : number) : bool := SFeqb x y.

(** The exact value of a finite double, counted in units of [2^-1074], the
    smallest positive double: every finite double is a whole number of them.
    Infinities and NaN have none. *)
Definition num_units (x : number) : option Z :=
  match x with
  | S754_zero _ => Some 0%Z
  | S754_finite s m e =>
      if (-1074 <=? e)%Z then Some (cond_Zopp s (Z.pos m * 2 ^ (e + 1074)))%Z else None
  | S754_infinity _ | S754_nan => None
  end.

(** Is the rounded difference [x - y] the exact one? *)
Definition exact_sub (x y : number) : bool :=
  match num_units x, num_units y, num_units (num_sub x y) with
  | Some a, Some b, Some c => (c =? a - b)%Z
  | _, _, _ => false
  end.

(** [x] after [k] rounded subtractions of [T]. *)
Fixpoint remaining (x T : number) (k : nat) : number :=
  match k with
  | O => x
  | S k => remaining (num_sub x T) T k
  end.

(** Does a countdown from [x] by steps of [T] stay above zero for exactly
    [N] subtractions? *)
Definition runs_out (x T : number) (N : nat) : bool :=
  forallb (fun i => num_gt (remaining x T i) (num 0)) (seq 0 N)
  && num_le (remaining x T N) (num 0).

#[global] Arguments num : simpl never.
#[global] Arguments num_sub : simpl never.
#[global] Arguments num_div : simpl never.
#[global] Arguments num_gt : simpl never.
#[global] Arguments num_le : simpl never.
#[global] Arguments num_eq : simpl never.

(** ** Data model *)

Definition FOLDER_NAME : string := "SIMPLESIGNALS".
Definition LINK_NAME : string := "TIMER".

(** [TIMER_STATUSES]: the five values of the [TimerStatus] union. *)
Inductive TimerStatus : Set :=
  | Started
  | Completed
  | Paused
  | Running
  | Stopped.

#[global] Instance TimerStatus_eq_dec : EqDecision TimerStatus.
Proof. solve_decision. Defined.

(** A [BindableEvent] instance is either usable or has been [Destroy]ed. *)
Inductive BindableEvent : Set :=
  | Live
  | Destroyed.

#[global] Instance BindableEvent_eq_dec : EqDecision BindableEvent.
Proof. solve_decision. Defined.

(** References to timer objects and to coroutines. *)
Abbreviation ref := nat (only parsing).
Abbreviation thread := nat (only parsing).

Record TimerInstance : Set := mkTimer {
  Name : string;
  Duration : number;
  Tick : number;
  RemainingTime : number;
  AutoDestroy : bool;
  Status : TimerStatus;
  completed : BindableEvent;
  statusChanged : BindableEvent;
  onTick : BindableEvent;
  timerThread : option thread
}.

(** The argument of [CreateTimer]; [Tick] and [AutoDestroy] are optional. *)
Record timerData : Set := mkData {
  data_Name : string;
  data_Duration : number;
  data_Tick : option number;
  data_AutoDestroy : option bool
}.

(** The three events of a timer. *)
Inductive Channel : Set :=
  | ch_completed
  | ch_statusChanged
  | ch_onTick.

#[global] Instance Channel_eq_dec : EqDecision Channel.
Proof. solve_decision. Defined.

(** Where a coroutine running [run] currently is. *)
Inductive CoState : Set :=
  | Active      (* executing *)
  | InWait      (* suspended in [task.wait(timer.Tick)], line 180 *)
  | InYield     (* suspended in [coroutine.yield], line 137 *)
  | Finished    (* [run] returned *)
  | Cancelled.  (* closed by [task.cancel] *)

#[global] Instance CoState_eq_dec : EqDecision CoState.
Proof. solve_decision. Defined.

Record Coroutine : Set := mkCo {
  co_timer : ref;
  co_state : CoState
}.

(** One entry per effectful statement of the source. *)
Inductive Effect : Set :=
  | SetStatus (r : ref) (s : TimerStatus)          (* timer.Status = s *)
  | Fire (r : ref) (ch : Channel) (arg : option number) (* timer.<ch>.Fire(arg) *)
  | DestroyEvent (r : ref) (ch : Channel)          (* timer.<ch>.Destroy() *)
  | Spawn (th : thread) (r : ref)                  (* task.spawn(() => run(timer)) *)
  | Wait (th : thread) (n : number)                (* task.wait(n) *)
  | Yield (v : thread)                             (* coroutine.yield(v) *)
  | Cancel (th : thread)                           (* task.cancel(th) *)
  | Delete (name : string)                         (* Timers.delete(name) *)
  | Printed (msg : string).                        (* print(msg) *)

#[global] Instance Effect_eq_dec : EqDecision Effect.
Proof. solve_decision. Defined.

(** The process: the execution context, the module-level [Timers] map, the
    heap of timer objects, the coroutines and the trace of effects. *)
Record World : Type := mkWorld {
  IsServer : bool;
  Timers : gmap string ref;
  heap : list TimerInstance;
  pool : list Coroutine;
  trace : list Effect
}.

(** How a call ends for its caller: it returns, or the calling coroutine is
    left suspended inside it. *)
Inductive Control : Set :=
  | Returned
  | Suspended.

(** ** Field updates *)

Definition with_RemainingTime (x : number) (t : TimerInstance) : TimerInstance :=
  mkTimer (Name t) (Duration t) (Tick t) x (AutoDestroy t) (Status t)
          (completed t) (statusChanged t) (onTick t) (timerThread t).

Definition with_Status (s : TimerStatus) (t : TimerInstance) : TimerInstance :=
  mkTimer (Name t) (Duration t) (Tick t) (RemainingTime t) (AutoDestroy t) s
          (completed t) (statusChanged t) (onTick t) (timerThread t).

Definition with_timerThread (th : option thread) (t : TimerInstance) : TimerInstance :=
  mkTimer (Name t) (Duration t) (Tick t) (RemainingTime t) (AutoDestroy t) (Status t)
          (completed t) (statusChanged t) (onTick t) th.

Definition event_of (ch : Channel) (t : TimerInstance) : BindableEvent :=
  match ch with
  | ch_completed => completed t
  | ch_statusChanged => statusChanged t
  | ch_onTick => onTick t
  end.

Definition with_event (ch : Channel) (e : BindableEvent) (t : TimerInstance) : TimerInstance :=
  match ch with
  | ch_completed =>
      mkTimer (Name t) (Duration t) (Tick t) (RemainingTime t) (AutoDestroy t) (Status t)
              e (statusChanged t) (onTick t) (timerThread t)
  | ch_statusChanged =>
      mkTimer (Name t) (Duration t) (Tick t) (RemainingTime t) (AutoDestroy t) (Status t)
              (completed t) e (onTick t) (timerThread t)
  | ch_onTick =>
      mkTimer (Name t) (Duration t) (Tick t) (RemainingTime t) (AutoDestroy t) (Status t)
              (completed t) (statusChanged t) e (timerThread t)
  end.

Definition with_trace (tr : list Effect) (w : World) : World :=
  mkWorld (IsServer w) (Timers w) (heap w) (pool w) tr.

Definition with_heap (h : list TimerInstance) (w : World) : World :=
  mkWorld (IsServer w) (Timers w) h (pool w) (trace w).

Definition with_pool (p : list Coroutine) (w : World) : World :=
  mkWorld (IsServer w) (Timers w) (heap w) p (trace w).

Definition with_Timers (m : gmap string ref) (w : World) : World :=
  mkWorld (IsServer w) m (heap w) (pool w) (trace w).

(** ** Primitive statements *)

Definition emit (e : Effect) (w : World) : World :=
  with_trace (trace w ++ [e]) w.

(** Mutation of the object behind [r]; every alias sees it. *)
Definition modify (r : ref) (f : TimerInstance -> TimerInstance) (w : World) : World :=
  match heap w !! r with
  | Some t => with_heap (<[r := f t]> (heap w)) w
  | None => w
  end.

Definition setStatus (r : ref) (s : TimerStatus) (w : World) : World :=
  emit (SetStatus r s) (modify r (with_Status s) w).

Definition setRemainingTime (r : ref) (x : number) (w : World) : World :=
  modify r (with_RemainingTime x) w.

Definition setTimerThread (r : ref) (th : option thread) (w : World) : World :=
  modify r (with_timerThread th) w.

Definition fire (r : ref) (ch : Channel) (arg : option number) (w : World) : World :=
  emit (Fire r ch arg) w.

Definition destroyEvent (r : ref) (ch : Channel) (w : World) : World :=
  emit (DestroyEvent r ch) (modify r (with_event ch Destroyed) w).

Definition setCoState (th : thread) (s : CoState) (w : World) : World :=
  match pool w !! th with
  | Some c => with_pool (<[th := mkCo (co_timer c) s]> (pool w)) w
  | None => w
  end.

(** [task.cancel]: a suspended coroutine is closed; a coroutine that already
    ended stays as it is. *)
Definition task_cancel (th : thread) (w : World) : World :=
  let w := emit (Cancel th) w in
  match pool w !! th with
  | Some c =>
      match co_state c with
      | InWait | InYield => setCoState th Cancelled w
      | _ => w
      end
  | None => w
  end.

Definition Timers_set (name : string) (r : ref) (w : World) : World :=
  with_Timers (<[name := r]> (Timers w)) w.

Definition Timers_delete (name : string) (w : World) : World :=
  emit (Delete name) (with_Timers (delete name (Timers w)) w).

Definition dquote : string := String (Ascii.ascii_of_nat 34) EmptyString.

Definition destroyed_message (name : string) : string :=
  ("Timer " +:+ dquote +:+ name +:+ dquote +:+ " has been destroyed.")%string.

Definition print (msg : string) (w : World) : World := emit (Printed msg) w.

(** JavaScript truthiness of a number: [0], [-0] and NaN are falsy. *)
Definition truthy (x : number) : bool :=
  negb (num_eq x (num 0)) && num_eq x x.

(** JavaScript [a || b] on an optional number and on an optional boolean:
    [undefined], the falsy numbers and [false] are falsy. *)
Definition or_number (a : option number) (b : number) : number :=
  match a with
  | Some x => if truthy x then x else b
  | None => b
  end.

Definition or_boolean (a : option bool) (b : bool) : bool :=
  match a with
  | Some true => true
  | _ => b
  end.

(** ** The methods of [SimpleTimer] *)

(** [CreateTimer], lines 46-82.  [error(..)] aborts the call before anything
    else happens; otherwise a fresh object is allocated, registered under its
    name and returned. *)
Definition CreateTimer (d : timerData) (w : World) : string + ref * World :=
  if negb (IsServer w) then inl "Timers have to be created on the server"
  else
    let timer :=
      {| Name := data_Name d;
         Duration := data_Duration d;
         Tick := or_number (data_Tick d) (num 1);
         RemainingTime := data_Duration d;
         AutoDestroy := or_boolean (data_AutoDestroy d) true;
         Status := Stopped;
         completed := Live;
         statusChanged := Live;
         onTick := Live;
         timerThread := None |} in
    let r := length (heap w) in
    let w := with_heap (heap w ++ [timer]) w in
    let w := Timers_set (data_Name d) r w in
    inr (r, w).

(** [Destroy], lines 128-145.  With a thread handle stored, the calling
    coroutine suspends at [coroutine.yield] (line 137) and the statements
    after it are not reached. *)
Definition Destroy (r : ref) (w : World) : World * Control :=
  match heap w !! r with
  | None => (w, Returned)
  | Some timer =>
      let w := setStatus r Stopped w in
      let w := destroyEvent r ch_completed w in
      let w := destroyEvent r ch_statusChanged w in
      match timerThread timer with
      | Some th => (emit (Yield th) w, Suspended)
      | None =>
          let w := Timers_delete (Name timer) w in
          let w := print (destroyed_message (Name timer)) w in
          (w, Returned)
      end
  end.

(** Lines 138-144: what [Destroy] would go on to do were the coroutine
    suspended at line 137 ever resumed.  No step of the program does so. *)
Definition Destroy_resumed (r : ref) (th : thread) (w : World) : World :=
  match heap w !! r with
  | None => w
  | Some timer =>
      let w := task_cancel th w in
      let w := setTimerThread r None w in
      let w := Timers_delete (Name timer) w in
      print (destroyed_message (Name timer)) w
  end.

(** [run], lines 187-198: the code after the loop. *)
Definition run_exit (th : thread) (r : ref) (w : World) : World :=
  match heap w !! r with
  | None => setCoState th Finished w
  | Some timer =>
      if num_le (RemainingTime timer) (num 0) && bool_decide (Status timer = Running) then
        let w := setStatus r Completed w in
        let w := fire r ch_completed None w in
        let w := fire r ch_statusChanged None w in
        let w := fire r ch_onTick (Some (RemainingTime timer)) w in
        if AutoDestroy timer then
          match Destroy r w with
          | (w, Returned) => setCoState th Finished w
          | (w, Suspended) => setCoState th InYield w
          end
        else setCoState th Finished w
      else setCoState th Finished w
  end.

(** [run], line 179-180: the loop test, then either the suspension in
    [task.wait] or the exit of the loop. *)
Definition run_test (th : thread) (r : ref) (w : World) : World :=
  match heap w !! r with
  | None => setCoState th Finished w
  | Some timer =>
      if num_gt (RemainingTime timer) (num 0) && bool_decide (Status timer = Running) then
        setCoState th InWait (emit (Wait th (Tick timer)) w)
      else run_exit th r w
  end.

(** [run], lines 181-185: the rest of the loop body once [task.wait] is over. *)
Definition run_body (th : thread) (r : ref) (w : World) : World :=
  match heap w !! r with
  | None => setCoState th Finished w
  | Some timer =>
      let w := fire r ch_onTick (Some (RemainingTime timer)) w in
      let w := setRemainingTime r (num_sub (RemainingTime timer) (Tick timer)) w in
      if bool_decide (Status timer <> Running) then run_exit th r w
      else run_test th r w
  end.

(** [run] from its first line. *)
Definition run (th : thread) (r : ref) (w : World) : World := run_test th r w.

(** [task.spawn(() => this.run(timer))]: the new coroutine runs at once,
    up to its first suspension or its end. *)
Definition task_spawn_run (r : ref) (w : World) : thread * World :=
  let th := length (pool w) in
  let w := with_pool (pool w ++ [mkCo r Active]) w in
  let w := emit (Spawn th r) w in
  (th, run th r w).

(** [Start], lines 85-90. *)
Definition Start (r : ref) (w : World) : World :=
  match heap w !! r with
  | None => w
  | Some timer =>
      if bool_decide (Status timer = Running) then w
      else
        let w := setStatus r Running w in
        let '(th, w) := task_spawn_run r w in
        let w := setTimerThread r (Some th) w in
        fire r ch_statusChanged None w
  end.

(** [Pause], lines 93-103. *)
Definition Pause (r : ref) (w : World) : World :=
  match heap w !! r with
  | None => w
  | Some timer =>
      if bool_decide (Status timer <> Running) then w
      else
        let w := setStatus r Paused w in
        let w := fire r ch_statusChanged None w in
        match timerThread timer with
        | Some th =>
            let w := task_cancel th w in
            setTimerThread r None w
        | None => w
        end
  end.

(** [Resume], lines 106-111. *)
Definition Resume (r : ref) (w : World) : World :=
  match heap w !! r with
  | None => w
  | Some timer =>
      if bool_decide (Status timer <> Paused) then w
      else
        let w := setStatus r Running w in
        let '(th, w) := task_spawn_run r w in
        let w := setTimerThread r (Some th) w in
        fire r ch_statusChanged None w
  end.

(** [Stop], lines 114-125. *)
Definition Stop (r : ref) (w : World) : World :=
  match heap w !! r with
  | None => w
  | Some timer =>
      if bool_decide (Status timer = Stopped) then w
      else
        let w := setStatus r Stopped w in
        let w := setRemainingTime r (Duration timer) w in
        let w := fire r ch_statusChanged None w in
        match timerThread timer with
        | Some th =>
            let w := task_cancel th w in
            setTimerThread r None w
        | None => w
        end
  end.

(** [Copy], lines 147-175: a fresh object, not put in [Timers]. *)
Definition Copy (r : ref) (w : World) : option (ref * World) :=
  match heap w !! r with
  | None => None
  | Some timer =>
      let copiedTimer :=
        {| Name := (Name timer +:+ "_copy")%string;
           Duration := Duration timer;
           Tick := Tick timer;
           RemainingTime := RemainingTime timer;
           AutoDestroy := AutoDestroy timer;
           Status := Status timer;
           completed := Live;
           statusChanged := Live;
           onTick := Live;
           timerThread := None |} in
      Some (length (heap w), with_heap (heap w ++ [copiedTimer]) w)
  end.

(** The scheduler resumes a coroutine whose [task.wait] is over.  Coroutines
    in any other state are never resumed. *)
Definition wake (th : thread) (w : World) : World :=
  match pool w !! th with
  | Some c =>
      match co_state c with
      | InWait => run_body th (co_timer c) (setCoState th Active w)
      | _ => w
      end
  | None => w
  end.

(** ** Whole-program steps *)

(** What the environment can do: call a method on the singleton or on a
    handle, or let the scheduler resume a waiting tick loop. *)
Inductive Call : Set :=
  | CallCreateTimer (d : timerData)
  | CallCopy (r : ref)
  | CallStart (r : ref)
  | CallPause (r : ref)
  | CallResume (r : ref)
  | CallStop (r : ref)
  | CallDestroy (r : ref)
  | Wake (th : thread).

Definition step (c : Call) (w : World) : World :=
  match c with
  | CallCreateTimer d =>
      match CreateTimer d w with
      | inl _ => w
      | inr (_, w') => w'
      end
  | CallCopy r =>
      match Copy r w with
      | None => w
      | Some (_, w') => w'
      end
  | CallStart r => Start r w
  | CallPause r => Pause r w
  | CallResume r => Resume r w
  | CallStop r => Stop r w
  | CallDestroy r => fst (Destroy r w)
  | Wake th => wake th w
  end.

Definition steps (cs : list Call) (w : World) : World :=
  foldl (fun w c => step c w) w cs.

(** [n] consecutive resumptions of the same coroutine. *)
Fixpoint wakes (n : nat) (th : thread) (w : World) : World :=
  match n with
  | O => w
  | S n => wakes n th (wake th w)
  end.

(** The state of a process before any timer exists. *)
Definition init (server : bool) : World :=
  mkWorld server ∅ [] [] [].

(** ** Reading a trace *)

Definition lookup_timer (name : string) (w : World) : option ref := Timers w !! name.

Definition is_fire (r : ref) (ch : Channel) (e : Effect) : bool :=
  match e with
  | Fire r' ch' _ => bool_decide (r' = r) && bool_decide (ch' = ch)
  | _ => false
  end.

Definition is_wait (th : thread) (e : Effect) : bool :=
  match e with
  | Wait th' _ => bool_decide (th' = th)
  | _ => false
  end.

Fixpoint count (p : Effect -> bool) (tr : list Effect) : nat :=
  match tr with
  | [] => 0
  | e :: tr => (if p e then 1 else 0) + count p tr
  end.

Definition count_fires (r : ref) (ch : Channel) (tr : list Effect) : nat :=
  count (is_fire r ch) tr.

Definition count_waits (th : thread) (tr : list Effect) : nat :=
  count (is_wait th) tr.

(** The effects a run from [w] to [w'] has added to the trace. *)
Definition added (w w' : World) : list Effect :=
  drop (length (trace w)) (trace w').

(** The payloads published on [onTick] of timer [r], in order. *)
Fixpoint ticks_of (r : ref) (tr : list Effect) : list number :=
  match tr with
  | [] => []
  | Fire r' ch_onTick (Some x) :: tr =>
      if bool_decide (r' = r) then x :: ticks_of r tr else ticks_of r tr
  | _ :: tr => ticks_of r tr
  end.

(** ** Scenario of section 8: T1 *)

Definition T1 : timerData := mkData "T1" (num 3) (Some (num 1)) (Some false).

Definition after_create (d : timerData) (w : World) : World := step (CallCreateTimer d) w.

(** A timer whose tick does not divide its duration. *)
Definition T5 : timerData := mkData "T5" (num 5) (Some (num 2)) None.

(** The timers these data produce in an empty process. *)
Definition timer_T1 : TimerInstance :=
  mkTimer "T1" (num 3) (num 1) (num 3) true Stopped Live Live Live None.
Definition timer_T5 : TimerInstance :=
  mkTimer "T5" (num 5) (num 2) (num 5) true Stopped Live Live Live None.

(** T1 created, and T1 created and started. *)
Definition world_T1 : World := after_create T1 (init true).
Definition world_T1_started : World := Start 0 world_T1.
Definition world_T5 : World := after_create T5 (init true).

(** ** Well-formedness and the predicates used by the statements *)

(** Every registered reference is an allocated timer, filed under its own
    [Name]. *)
Definition registry_wf (w : World) : Prop :=
  forall n r, Timers w !! n = Some r -> exists t, heap w !! r = Some t /\ Name t = n.

(** Every coroutine runs the loop of an allocated timer. *)
Definition pool_wf (w : World) : Prop :=
  Forall (fun c => co_timer c < length (heap w)) (pool w).

(** No name leads to [r]. *)
Definition unreachable (r : ref) (w : World) : Prop :=
  forall n, lookup_timer n w <> Some r.

(** No coroutine runs the loop of timer [c]. *)
Definition no_loop (c : ref) (w : World) : Prop :=
  Forall (fun co => co_timer co <> c) (pool w).

(** [ceil_div D T] is the least integer not below [D / T], for [T > 0]. *)
Definition ceil_div (D T : Z) : Z := (- ((- D) / T))%Z.

(** The effects of [k] rounds of the loop body that stay in the loop,
    starting with [x] time units left. *)
Fixpoint loop_effects (th : thread) (r : ref) (T x : number) (k : nat) : list Effect :=
  match k with
  | O => []
  | S k => Fire r ch_onTick (Some x) :: Wait th T :: loop_effects th r T (num_sub x T) k
  end.

(** The effects of [Destroy] on timer [r] whose stored thread is [v]. *)
Definition destroy_effects (r : ref) (name : string) (v : option thread) : list Effect :=
  SetStatus r Stopped :: DestroyEvent r ch_completed :: DestroyEvent r ch_statusChanged ::
  match v with
  | Some th => [Yield th]
  | None => [Delete name; Printed (destroyed_message name)]
  end.

(** Does the first occurrence of [a] come strictly before every occurrence
    of [b] in the trace?  (False when [a] does not occur.) *)
Fixpoint precedes (a b : Effect) (tr : list Effect) : bool :=
  match tr with
  | [] => false
  | e :: tr =>
      if bool_decide (e = b) then false
      else if bool_decide (e = a) then true
      else precedes a b tr
  end.

Definition is_create_named (n : string) (c : Call) : bool :=
  match c with
  | CallCreateTimer d => bool_decide (data_Name d = n)
  | _ => false
  end.

(** Calls that take timer [c] out of [Running] from outside. *)
Definition leaves_running (c : ref) (call : Call) : bool :=
  match call with
  | CallPause r | CallStop r | CallDestroy r => bool_decide (r = c)
  | _ => false
  end.

(** [r0] is an allocated timer that no name leads to. *)
Definition gone (r0 : ref) (w : World) : Prop :=
  r0 < length (heap w) /\ unreachable r0 w.

(** The two well-formedness conditions, with a lower bound on the heap. *)
Definition wf (w : World) : Prop := registry_wf w /\ pool_wf w.

Definition wf_from (n0 : nat) (w : World) : Prop :=
  wf w /\ n0 <= length (heap w).

(** Coroutine [th0] has been closed. *)
Definition closed (th0 : thread) (w : World) : Prop :=
  exists r, pool w !! th0 = Some (mkCo r Cancelled).

(** Timer [c] is the object [X], has published [k] times on [ch] and no
    coroutine runs its loop. *)
Definition idle (c : ref) (X : TimerInstance) (ch : Channel) (k : nat) (w : World) : Prop :=
  heap w !! c = Some X /\ count_fires c ch (trace w) = k /\ no_loop c w.

(** Since [w0], a [Destroy] of a timer that carries the name [n] has gone
    through [statusChanged.Destroy()] (line 133) and on to
    [Timers.delete(n)] (line 143). *)
Definition unregistered_by_Destroy (n : string) (w0 w : World) : Prop :=
  exists r' t' pre post,
    heap w !! r' = Some t' /\ Name t' = n /\
    added w0 w = pre ++ DestroyEvent r' ch_statusChanged :: Delete n :: post.

(** Relative to [w0]: the name [n] still leads to [r], unless a timer of
    that name has been destroyed since. *)
Definition kept (n : string) (r : ref) (w0 w : World) : Prop :=
  (exists l, trace w = trace w0 ++ l) /\
  (lookup_timer n w = Some r \/ unregistered_by_Destroy n w0 w).

(** ** Further predicates *)

(** A coroutine that will not run again: it returned, was closed, or sits
    in [coroutine.yield]. *)
Definition ended (s : CoState) : bool :=
  match s with
  | Finished | Cancelled | InYield => true
  | Active | InWait => false
  end.

Definition has_ended (th : thread) (w : World) : Prop :=
  exists c, pool w !! th = Some c /\ ended (co_state c) = true.

(** Is the call a method call on timer [r'], or the resumption of a loop
    of [r']? *)
Definition aims_at (w : World) (r' : ref) (call : Call) : bool :=
  match call with
  | CallStart r | CallPause r | CallResume r | CallStop r | CallDestroy r =>
      bool_decide (r = r')
  | Wake th =>
      match pool w !! th with
      | Some c => bool_decide (co_timer c = r')
      | None => false
      end
  | CallCreateTimer _ | CallCopy _ => false
  end.

(** The fields of a timer that no method assigns. *)
Definition same_config (t t' : TimerInstance) : Prop :=
  Name t' = Name t /\ Duration t' = Duration t /\ Tick t' = Tick t /\
  AutoDestroy t' = AutoDestroy t.

Definition keeps_config (r : ref) (t : TimerInstance) (w : World) : Prop :=
  exists t', heap w !! r = Some t' /\ same_config t t'.

(** Timer [r'] is the object [t']. *)
Definition holds (r' : ref) (t' : TimerInstance) (w : World) : Prop :=
  heap w !! r' = Some t'.

(** Every timer has [AutoDestroy] set. *)
Definition all_autoDestroy (w : World) : Prop :=
  forall r t, heap w !! r = Some t -> AutoDestroy t = true.

(** The calls that allocate a timer object. *)
Definition allocates (c : Call) : bool :=
  match c with
  | CallCreateTimer _ | CallCopy _ => true
  | _ => false
  end.

(** The effects of the resumption in which the loop runs out of time, with
    [x] time units left before it. *)
Definition final_effects (r : ref) (T x : number) : list Effect :=
  [ Fire r ch_onTick (Some x); SetStatus r Completed; Fire r ch_completed None;
    Fire r ch_statusChanged None; Fire r ch_onTick (Some (num_sub x T)) ].

(** The payloads [x, x - T, ..., x - T - ... - T] ([n] subtractions), each
    difference rounded as the loop computes it. *)
Definition countdown (x T : number) (n : nat) : list number :=
  map (remaining x T) (seq 0 (S n)).

(** The statuses a timer can be found in between two calls. *)
Definition at_rest (s : TimerStatus) : bool :=
  match s with
  | Stopped | Running | Paused => true
  | Completed | Started => false
  end.

(** Every timer has [AutoDestroy] set and a status of rest. *)
Definition all_at_rest (w : World) : Prop :=
  forall r t, heap w !! r = Some t -> AutoDestroy t = true /\ at_rest (Status t) = true.

(** Every waiting loop belongs to a [Running] timer that holds its handle,
    and every handle a timer holds is a coroutine of that timer. *)
Definition loops_owned (w : World) : Prop :=
  (forall th c, pool w !! th = Some c -> co_state c = InWait ->
     exists t, heap w !! co_timer c = Some t /\ Status t = Running /\
               timerThread t = Some th) /\
  (forall r t v, heap w !! r = Some t -> timerThread t = Some v ->
     exists c, pool w !! v = Some c /\ co_timer c = r).

Definition is_destroy (c : Call) : bool :=
  match c with
  | CallDestroy _ => true
  | _ => false
  end.

(** Coroutine [v] runs the loop of timer [r0]. *)
Definition thread_of (v : thread) (r0 : ref) (w : World) : Prop :=
  exists s, pool w !! v = Some (mkCo r0 s).


(** * Properties *)

(** ** Comparisons and exact values of numbers *)

Lemma num_le_gt x : num_le x (num 0) = true -> num_gt x (num 0) = false.
Proof. destruct x as [[]|[]| |[] m e]; cbv; congruence. Qed.

Lemma num_gt_le x : num_gt x (num 0) = true -> num_le x (num 0) = false.
Proof. destruct x as [[]|[]| |[] m e]; cbv; congruence. Qed.

Lemma num_units_sign x u :
  num_units x = Some u ->
  num_gt x (num 0) = (0 <? u)%Z /\ num_le x (num 0) = (u <=? 0)%Z.
Proof.
  destruct x as [s|s| |s m e]; cbn [num_units]; try discriminate.
  - intros [= <-]. by destruct s.
  - destruct (-1074 <=? e)%Z eqn:He; [|discriminate]. intros [= <-].
    apply Z.leb_le in He.
    assert (Hp : (0 < Z.pos m * 2 ^ (e + 1074))%Z)
      by (apply Z.mul_pos_pos; [lia | apply Z.pow_pos_nonneg; lia]).
    destruct s; cbn [cond_Zopp]; split.
    + transitivity false; [done | symmetry; apply Z.ltb_ge; lia].
    + transitivity true; [done | symmetry; apply Z.leb_le; lia].
    + transitivity true; [done | symmetry; apply Z.ltb_lt; lia].
    + transitivity false; [done | symmetry; apply Z.leb_gt; lia].
Qed.

Lemma remaining_succ x T k : remaining x T (S k) = num_sub (remaining x T k) T.
Proof. revert x. induction k as [|k IH]; intros x; [done|]. cbn [remaining]. by rewrite <- IH. Qed.

Lemma runs_out_spec x T N :
  runs_out x T N = true <->
  (forall i, i < N -> num_gt (remaining x T i) (num 0) = true) /\
  num_le (remaining x T N) (num 0) = true.
Proof.
  unfold runs_out. rewrite andb_true_iff, forallb_forall.
  split; intros [H1 H2]; (split; [|done]).
  - intros i Hi. apply H1, in_seq. lia.
  - intros i Hi. apply in_seq in Hi. apply H1. lia.
Qed.

(** With exact subtractions the countdown is the arithmetic one. *)
Lemma exact_remaining x T ux uT N :
  num_units x = Some ux ->
  num_units T = Some uT ->
  (forall k, k < N -> exact_sub (remaining x T k) T = true) ->
  forall i, i <= N -> num_units (remaining x T i) = Some (ux - Z.of_nat i * uT)%Z.
Proof.
  intros Hx HT Hex. induction i as [|i IH]; intros Hi.
  - cbn [remaining]. rewrite Hx. f_equal. lia.
  - specialize (IH ltac:(lia)). specialize (Hex i ltac:(lia)).
    rewrite remaining_succ. unfold exact_sub in Hex. rewrite IH, HT in Hex.
    destruct (num_units (num_sub (remaining x T i) T)) as [c|]; [|discriminate].
    apply Z.eqb_eq in Hex. f_equal. lia.
Qed.

Lemma ceil_div_spec D T :
  (0 < T)%Z -> ((ceil_div D T - 1) * T < D <= ceil_div D T * T)%Z.
Proof.
  intros HT. unfold ceil_div.
  pose proof (Z.div_mod (- D) T ltac:(lia)) as Hdm.
  pose proof (Z.mod_pos_bound (- D) T HT) as Hm. nia.
Qed.

(** With exact subtractions a countdown from [D > 0] by [T > 0] takes
    [ceil(D/T)] of them. *)
Lemma exact_runs_out x T ux uT :
  num_units x = Some ux ->
  num_units T = Some uT ->
  (0 < ux)%Z ->
  (0 < uT)%Z ->
  (forall k, k < Z.to_nat (ceil_div ux uT) -> exact_sub (remaining x T k) T = true) ->
  runs_out x T (Z.to_nat (ceil_div ux uT)) = true /\ 0 < Z.to_nat (ceil_div ux uT).
Proof.
  intros Hx HT Hx0 HT0 Hex.
  pose proof (ceil_div_spec ux uT HT0) as Hc.
  set (N := Z.to_nat (ceil_div ux uT)) in *.
  assert (HN : Z.of_nat N = ceil_div ux uT) by (subst N; nia).
  pose proof (exact_remaining x T ux uT N Hx HT Hex) as Hu.
  split; [|nia]. apply runs_out_spec. split.
  - intros i Hi. destruct (num_units_sign _ _ (Hu i ltac:(lia))) as [-> _].
    apply Z.ltb_lt. nia.
  - destruct (num_units_sign _ _ (Hu N ltac:(lia))) as [_ ->].
    apply Z.leb_le. nia.
Qed.

(** ** Basic facts about the primitive statements *)

Lemma modify_Some r f w t :
  heap w !! r = Some t ->
  modify r f w = with_heap (<[r := f t]> (heap w)) w.
Proof. intros H. unfold modify. by rewrite H. Qed.

Lemma lookup_modify_eq r f w t :
  heap w !! r = Some t -> heap (modify r f w) !! r = Some (f t).
Proof.
  intros H. rewrite (modify_Some _ _ _ _ H). cbn.
  apply list_lookup_insert_eq. by eapply lookup_lt_Some.
Qed.

Lemma lookup_modify_ne r r' f w :
  r <> r' -> heap (modify r f w) !! r' = heap w !! r'.
Proof.
  intros H. unfold modify. destruct (heap w !! r); [|done]. cbn.
  by apply list_lookup_insert_ne.
Qed.

Lemma length_heap_modify r f w : length (heap (modify r f w)) = length (heap w).
Proof. unfold modify. destruct (heap w !! r); [|done]. cbn. apply length_insert. Qed.

Lemma lookup_setCoState_eq th s w c :
  pool w !! th = Some c -> pool (setCoState th s w) !! th = Some (mkCo (co_timer c) s).
Proof.
  intros H. unfold setCoState. rewrite H. cbn.
  apply list_lookup_insert_eq. by eapply lookup_lt_Some.
Qed.

Lemma lookup_setCoState_ne th th' s w :
  th <> th' -> pool (setCoState th s w) !! th' = pool w !! th'.
Proof.
  intros H. unfold setCoState. destruct (pool w !! th); [|done]. cbn.
  by apply list_lookup_insert_ne.
Qed.

Lemma heap_setCoState th s w : heap (setCoState th s w) = heap w.
Proof. unfold setCoState. by destruct (pool w !! th). Qed.

Lemma trace_setCoState th s w : trace (setCoState th s w) = trace w.
Proof. unfold setCoState. by destruct (pool w !! th). Qed.

Lemma Timers_setCoState th s w : Timers (setCoState th s w) = Timers w.
Proof. unfold setCoState. by destruct (pool w !! th). Qed.

Lemma trace_modify r f w : trace (modify r f w) = trace w.
Proof. unfold modify. by destruct (heap w !! r). Qed.

Lemma pool_modify r f w : pool (modify r f w) = pool w.
Proof. unfold modify. by destruct (heap w !! r). Qed.

Lemma Timers_modify r f w : Timers (modify r f w) = Timers w.
Proof. unfold modify. by destruct (heap w !! r). Qed.

Lemma heap_task_cancel th w : heap (task_cancel th w) = heap w.
Proof.
  unfold task_cancel. cbn. destruct (pool w !! th) as [c|]; [|done].
  destruct (co_state c); rewrite ?heap_setCoState; done.
Qed.

Lemma trace_task_cancel th w : trace (task_cancel th w) = trace w ++ [Cancel th].
Proof.
  unfold task_cancel. cbn. destruct (pool w !! th) as [c|]; [|done].
  destruct (co_state c); rewrite ?trace_setCoState; done.
Qed.

Lemma Timers_task_cancel th w : Timers (task_cancel th w) = Timers w.
Proof.
  unfold task_cancel. cbn. destruct (pool w !! th) as [c|]; [|done].
  destruct (co_state c); rewrite ?Timers_setCoState; done.
Qed.

Lemma task_cancel_InWait th w r :
  pool w !! th = Some (mkCo r InWait) ->
  pool (task_cancel th w) !! th = Some (mkCo r Cancelled).
Proof.
  intros H. unfold task_cancel. cbn. rewrite H. cbn.
  by rewrite (lookup_setCoState_eq th Cancelled (emit (Cancel th) w) _ H).
Qed.

Lemma added_app w w' l : trace w' = trace w ++ l -> added w w' = l.
Proof. intros H. unfold added. rewrite H. apply drop_app_length. Qed.

Lemma count_app p l1 l2 : count p (l1 ++ l2) = count p l1 + count p l2.
Proof. induction l1 as [|e l1 IH]; cbn; [done|]. rewrite IH. lia. Qed.

Lemma ticks_of_app r l1 l2 : ticks_of r (l1 ++ l2) = ticks_of r l1 ++ ticks_of r l2.
Proof.
  induction l1 as [|e l1 IH]; cbn; [done|].
  destruct e as [| r' [] [x|] | | | | | | |]; try done.
  case_bool_decide; cbn; by rewrite IH.
Qed.

(** ** Preservation through the methods, once and for all

    A property of worlds that every primitive statement preserves (for the
    timers [okR] and coroutines [okT] it may be applied to) is preserved by
    every method.  [Timers.delete] occurs in one place only, line 143 of
    [Destroy], after [statusChanged.Destroy()] and with the name of the timer
    being destroyed: it is enough that the property survives the two
    together. *)
Section Preservation.
Variable P : World -> Prop.
Variable okR : ref -> Prop.
Variable okT : thread -> Prop.

Hypothesis P_setStatus : forall r s w, okR r -> P w -> P (setStatus r s w).
Hypothesis P_setRemainingTime : forall r x w, okR r -> P w -> P (setRemainingTime r x w).
Hypothesis P_setTimerThread : forall r v w, okR r -> P w -> P (setTimerThread r v w).
Hypothesis P_fire : forall r ch a w, okR r -> P w -> P (fire r ch a w).
Hypothesis P_destroyEvent : forall r ch w, okR r -> P w -> P (destroyEvent r ch w).
Hypothesis P_setCoState : forall th s w, okT th -> P w -> P (setCoState th s w).
Hypothesis P_task_cancel : forall th w, P w -> P (task_cancel th w).
Hypothesis P_unregister :
  forall r t w, okR r -> heap w !! r = Some t -> P w ->
    P (Timers_delete (Name t) (destroyEvent r ch_statusChanged w)).
Hypothesis P_emit_other :
  forall e w, (forall r ch a, e <> Fire r ch a) -> P w -> P (emit e w).
Hypothesis P_new_coroutine :
  forall r w, okR r -> P w -> P (with_pool (pool w ++ [mkCo r Active]) w).
Hypothesis P_fresh : forall w, P w -> okT (length (pool w)).

Lemma pres_Destroy r w : okR r -> P w -> P (Destroy r w).1.
Proof using All.
  intros Hr Hw. unfold Destroy. destruct (heap w !! r) as [t|] eqn:Hh; [|done].
  set (w1 := destroyEvent r ch_completed (setStatus r Stopped w)).
  assert (Hw1 : P w1) by (subst w1; auto).
  assert (Hh1 : heap w1 !! r = Some (with_event ch_completed Destroyed (with_Status Stopped t))).
  { subst w1. unfold destroyEvent, setStatus. cbn [heap emit with_trace].
    apply lookup_modify_eq. cbn [heap emit with_trace]. by apply lookup_modify_eq. }
  clearbody w1.
  destruct (timerThread t); cbn [fst]; unfold print.
  - apply P_emit_other; [done|]. by apply P_destroyEvent.
  - apply P_emit_other; [done|]. by apply (P_unregister r _ w1 Hr Hh1).
Qed.

Lemma pres_run_exit th r w : okR r -> okT th -> P w -> P (run_exit th r w).
Proof using All.
  intros Hr Hth Hw. unfold run_exit. destruct (heap w !! r) as [t|]; [|by apply P_setCoState].
  destruct (_ && _); [|by apply P_setCoState].
  set (w' := fire _ _ _ _).
  assert (Hw' : P w') by (subst w'; auto).
  destruct (AutoDestroy t); [|by apply P_setCoState].
  pose proof (pres_Destroy r w' Hr Hw') as HD.
  destruct (Destroy r w') as [w'' []]; by apply P_setCoState.
Qed.

Lemma pres_run_test th r w : okR r -> okT th -> P w -> P (run_test th r w).
Proof using All.
  intros Hr Hth Hw. unfold run_test. destruct (heap w !! r) as [t|]; [|by apply P_setCoState].
  destruct (_ && _); [|by apply pres_run_exit].
  apply P_setCoState; [done|]. by apply P_emit_other.
Qed.

Lemma pres_run_body th r w : okR r -> okT th -> P w -> P (run_body th r w).
Proof using All.
  intros Hr Hth Hw. unfold run_body. destruct (heap w !! r) as [t|]; [|by apply P_setCoState].
  destruct (bool_decide _); [apply pres_run_exit | apply pres_run_test]; auto.
Qed.

Lemma pres_task_spawn_run r w : okR r -> P w -> P (task_spawn_run r w).2.
Proof using All.
  intros Hr Hw. unfold task_spawn_run, run. cbn.
  apply pres_run_test; [done| |].
  - by apply P_fresh.
  - apply P_emit_other; [done|]. by apply P_new_coroutine.
Qed.

Lemma pres_Start r w : okR r -> P w -> P (Start r w).
Proof using All.
  intros Hr Hw. unfold Start. destruct (heap w !! r) as [t|]; [|done].
  destruct (bool_decide _); [done|].
  pose proof (pres_task_spawn_run r (setStatus r Running w) Hr (P_setStatus _ _ _ Hr Hw)) as HS.
  destruct (task_spawn_run _ _) as [th w']. auto.
Qed.

Lemma pres_Resume r w : okR r -> P w -> P (Resume r w).
Proof using All.
  intros Hr Hw. unfold Resume. destruct (heap w !! r) as [t|]; [|done].
  destruct (bool_decide _); [done|].
  pose proof (pres_task_spawn_run r (setStatus r Running w) Hr (P_setStatus _ _ _ Hr Hw)) as HS.
  destruct (task_spawn_run _ _) as [th w']. auto.
Qed.

Lemma pres_Pause r w : okR r -> P w -> P (Pause r w).
Proof using All.
  intros Hr Hw. unfold Pause. destruct (heap w !! r) as [t|]; [|done].
  destruct (bool_decide _); [done|].
  destruct (timerThread t); auto 7.
Qed.

Lemma pres_Stop r w : okR r -> P w -> P (Stop r w).
Proof using All.
  intros Hr Hw. unfold Stop. destruct (heap w !! r) as [t|]; [|done].
  destruct (bool_decide _); [done|].
  destruct (timerThread t); auto 8.
Qed.

Lemma pres_wake th w :
  okT th -> (forall c, pool w !! th = Some c -> okR (co_timer c)) -> P w -> P (wake th w).
Proof using All.
  intros Hth Hr Hw. unfold wake. destruct (pool w !! th) as [c|]; [|done].
  destruct (co_state c); try done.
  apply pres_run_body; auto.
Qed.
End Preservation.

(** The same for a property that [Timers.delete] preserves whatever the
    name. *)
Section Preservation_any_name.
Variable P : World -> Prop.
Variable okR : ref -> Prop.
Variable okT : thread -> Prop.

Hypothesis P_setStatus : forall r s w, okR r -> P w -> P (setStatus r s w).
Hypothesis P_setRemainingTime : forall r x w, okR r -> P w -> P (setRemainingTime r x w).
Hypothesis P_setTimerThread : forall r v w, okR r -> P w -> P (setTimerThread r v w).
Hypothesis P_fire : forall r ch a w, okR r -> P w -> P (fire r ch a w).
Hypothesis P_destroyEvent : forall r ch w, okR r -> P w -> P (destroyEvent r ch w).
Hypothesis P_setCoState : forall th s w, okT th -> P w -> P (setCoState th s w).
Hypothesis P_task_cancel : forall th w, P w -> P (task_cancel th w).
Hypothesis P_Timers_delete : forall n w, P w -> P (Timers_delete n w).
Hypothesis P_emit_other :
  forall e w, (forall r ch a, e <> Fire r ch a) -> P w -> P (emit e w).
Hypothesis P_new_coroutine :
  forall r w, okR r -> P w -> P (with_pool (pool w ++ [mkCo r Active]) w).
Hypothesis P_fresh : forall w, P w -> okT (length (pool w)).

Local Lemma P_unregister r t w :
  okR r -> heap w !! r = Some t -> P w ->
  P (Timers_delete (Name t) (destroyEvent r ch_statusChanged w)).
Proof using P_destroyEvent P_Timers_delete. intros Hr _ Hw. by apply P_Timers_delete, P_destroyEvent. Qed.

Lemma P_Destroy r w : okR r -> P w -> P (Destroy r w).1.
Proof using All. apply (pres_Destroy P okR okT); auto using P_unregister. Qed.

Lemma P_run_exit th r w : okR r -> okT th -> P w -> P (run_exit th r w).
Proof using All. apply (pres_run_exit P okR okT); auto using P_unregister. Qed.

Lemma P_run_test th r w : okR r -> okT th -> P w -> P (run_test th r w).
Proof using All. apply (pres_run_test P okR okT); auto using P_unregister. Qed.

Lemma P_run_body th r w : okR r -> okT th -> P w -> P (run_body th r w).
Proof using All. apply (pres_run_body P okR okT); auto using P_unregister. Qed.

Lemma P_task_spawn_run r w : okR r -> P w -> P (task_spawn_run r w).2.
Proof using All. apply (pres_task_spawn_run P okR okT); auto using P_unregister. Qed.

Lemma P_Start r w : okR r -> P w -> P (Start r w).
Proof using All. apply (pres_Start P okR okT); auto using P_unregister. Qed.

Lemma P_Resume r w : okR r -> P w -> P (Resume r w).
Proof using All. apply (pres_Resume P okR okT); auto using P_unregister. Qed.

Lemma P_Pause r w : okR r -> P w -> P (Pause r w).
Proof using All. apply (pres_Pause P okR okT); auto. Qed.

Lemma P_Stop r w : okR r -> P w -> P (Stop r w).
Proof using All. apply (pres_Stop P okR okT); auto. Qed.

Lemma P_wake th w :
  okT th -> (forall c, pool w !! th = Some c -> okR (co_timer c)) -> P w -> P (wake th w).
Proof using All. apply (pres_wake P okR okT); auto using P_unregister. Qed.
End Preservation_any_name.

Lemma pool_task_cancel_length th w : length (pool (task_cancel th w)) = length (pool w).
Proof.
  unfold task_cancel, setCoState. cbn. destruct (pool w !! th) as [c|]; [|done].
  destruct (co_state c); cbn; rewrite ?length_insert; done.
Qed.

Lemma length_pool_setCoState th s w : length (pool (setCoState th s w)) = length (pool w).
Proof. unfold setCoState. destruct (pool w !! th); cbn; rewrite ?length_insert; done. Qed.

(** Reduce the components of a world built by primitive statements. *)
Ltac wsimpl :=
  unfold setStatus, setRemainingTime, setTimerThread, fire, destroyEvent, print,
         Timers_delete, Timers_set, lookup_timer in *;
  repeat (progress cbn [heap pool trace Timers IsServer emit with_trace with_heap with_pool
                        with_Timers fst snd] in *
          || rewrite ?heap_task_cancel, ?heap_setCoState, ?trace_setCoState, ?Timers_setCoState,
                     ?trace_modify, ?pool_modify, ?Timers_modify, ?trace_task_cancel,
                     ?Timers_task_cancel, ?length_heap_modify, ?pool_task_cancel_length,
                     ?length_pool_setCoState in * ).

Ltac by_preservation P okR okT :=
  first [ eapply (P_Destroy P okR okT) | eapply (P_Start P okR okT)
        | eapply (P_Pause P okR okT) | eapply (P_Resume P okR okT)
        | eapply (P_Stop P okR okT) | eapply (P_wake P okR okT) ].

(** ** After its removal, a timer is never registered again *)

Lemma gone_Timers_delete r0 n w : gone r0 w -> gone r0 (Timers_delete n w).
Proof.
  intros [Hlt Hu]. split; wsimpl; [done|]. intros n'. unfold unreachable in Hu. wsimpl.
  destruct (decide (n = n')) as [->|Hne].
  - by rewrite lookup_delete_eq.
  - rewrite lookup_delete_ne by done. apply Hu.
Qed.

Lemma gone_step r0 c w : gone r0 w -> gone r0 (step c w).
Proof.
  intros Hg.
  destruct c as [d|r|r|r|r|r|r|th]; cbn [step].
  3-8: by_preservation (gone r0) (fun _ : ref => True) (fun _ : thread => True);
      try done; try apply gone_Timers_delete;
      intros; unfold gone, unreachable in *; wsimpl; done.
  - unfold CreateTimer. destruct (IsServer w); cbn; [|done].
    destruct Hg as [Hlt Hu]. split; wsimpl.
    + rewrite length_app. lia.
    + intros n. unfold unreachable in Hu. wsimpl.
      destruct (decide (data_Name d = n)) as [->|Hne].
      * rewrite lookup_insert_eq. intros [= ?]. lia.
      * rewrite lookup_insert_ne by done. apply Hu.
  - unfold Copy. destruct (heap w !! r) as [t|]; [|done].
    destruct Hg as [Hlt Hu]. split; wsimpl; [rewrite length_app; lia | done].
Qed.

Lemma gone_steps r0 cs w : gone r0 w -> gone r0 (steps cs w).
Proof.
  revert w. induction cs as [|c cs IH]; intros w Hg; [done|].
  cbn. apply IH. by apply gone_step.
Qed.

(** ** A closed coroutine stays closed *)

Lemma closed_lt th0 w : closed th0 w -> th0 < length (pool w).
Proof. intros [r H]. by eapply lookup_lt_Some. Qed.

Lemma closed_same_pool th0 w w' : pool w' = pool w -> closed th0 w -> closed th0 w'.
Proof. unfold closed. by intros ->. Qed.

Lemma closed_setCoState th0 th s w :
  th <> th0 -> closed th0 w -> closed th0 (setCoState th s w).
Proof. intros Hne [r H]. exists r. by rewrite lookup_setCoState_ne. Qed.

Lemma closed_task_cancel th0 th w : closed th0 w -> closed th0 (task_cancel th w).
Proof.
  intros [r H]. exists r. unfold task_cancel.
  change (pool (emit (Cancel th) w)) with (pool w).
  destruct (decide (th = th0)) as [->|Hne].
  - rewrite H. cbn. done.
  - destruct (pool w !! th) as [c|]; [|done].
    destruct (co_state c); try done; by rewrite lookup_setCoState_ne.
Qed.

Lemma closed_wake_noop th0 w : closed th0 w -> wake th0 w = w.
Proof. intros [r H]. unfold wake. by rewrite H. Qed.

Lemma closed_new_coroutine th0 r w :
  closed th0 w -> closed th0 (with_pool (pool w ++ [mkCo r Active]) w).
Proof.
  intros Hc. pose proof (closed_lt _ _ Hc) as Hlt. destruct Hc as [r' H].
  exists r'. cbn. by rewrite lookup_app_l.
Qed.

Lemma closed_fresh th0 w : closed th0 w -> length (pool w) <> th0.
Proof. intros Hc. apply closed_lt in Hc. lia. Qed.

Ltac closed_prims th0 :=
  try done; try apply closed_task_cancel; try apply closed_setCoState;
  try apply closed_fresh; try (intros; by apply closed_new_coroutine);
  try (intros; (eapply closed_same_pool; [|eassumption]); wsimpl; done).

Lemma closed_step th0 c w : closed th0 w -> closed th0 (step c w).
Proof.
  intros Hc.
  destruct c as [d|r|r|r|r|r|r|th]; cbn [step].
  3-7: by_preservation (closed th0) (fun _ : ref => True) (fun th : thread => th <> th0);
       closed_prims th0.
  - unfold CreateTimer. destruct (IsServer w); cbn; done.
  - unfold Copy. destruct (heap w !! r) as [t|]; done.
  - destruct (decide (th = th0)) as [->|Hne]; [by rewrite closed_wake_noop|].
    eapply (P_wake (closed th0) (fun _ : ref => True) (fun th : thread => th <> th0));
      closed_prims th0.
Qed.

Lemma closed_steps th0 cs w : closed th0 w -> closed th0 (steps cs w).
Proof.
  revert w. induction cs as [|c cs IH]; intros w Hg; [done|].
  cbn. apply IH. by apply closed_step.
Qed.

(** ** Well-formedness is an invariant *)

Lemma wf_from_same n0 w w' :
  heap w' = heap w -> Timers w' = Timers w -> pool w' = pool w ->
  wf_from n0 w -> wf_from n0 w'.
Proof.
  unfold wf_from, wf, registry_wf, pool_wf. intros -> -> ->. done.
Qed.

Lemma wf_from_modify n0 r f w :
  (forall t, Name (f t) = Name t) -> wf_from n0 w -> wf_from n0 (modify r f w).
Proof.
  intros Hf [[Hr Hp] Hn]. unfold wf_from, wf, registry_wf, pool_wf in *.
  rewrite pool_modify, Timers_modify, length_heap_modify. repeat split; [|done..].
  intros n r' Hl. destruct (Hr n r' Hl) as (t & Ht & HN).
  destruct (decide (r = r')) as [->|Hne].
  - exists (f t). split; [by apply lookup_modify_eq | by rewrite Hf].
  - exists t. by rewrite lookup_modify_ne.
Qed.

Lemma wf_from_setCoState n0 th s w : wf_from n0 w -> wf_from n0 (setCoState th s w).
Proof.
  intros [[Hr Hp] Hn]. unfold wf_from, wf, registry_wf, pool_wf in *.
  rewrite heap_setCoState, Timers_setCoState. repeat split; [done| |done].
  unfold setCoState. destruct (pool w !! th) as [c|] eqn:Hc; [|done]. cbn.
  apply Forall_insert; [done|]. cbn. by eapply (Forall_lookup_1 _ _ _ _ Hp).
Qed.

Lemma wf_from_task_cancel n0 th w : wf_from n0 w -> wf_from n0 (task_cancel th w).
Proof.
  intros Hw. unfold task_cancel.
  change (pool (emit (Cancel th) w)) with (pool w).
  assert (He : wf_from n0 (emit (Cancel th) w)) by (by eapply wf_from_same; [| | |exact Hw]).
  destruct (pool w !! th) as [c|]; [|done].
  destruct (co_state c); try done; by apply wf_from_setCoState.
Qed.

Lemma wf_from_Timers_delete n0 n w : wf_from n0 w -> wf_from n0 (Timers_delete n w).
Proof.
  intros [[Hr Hp] Hn]. unfold wf_from, wf, registry_wf, pool_wf in *. wsimpl.
  repeat split; [|done..]. intros n' r' Hl.
  apply lookup_delete_Some in Hl as [_ Hl]. by apply Hr.
Qed.

Lemma wf_from_new_coroutine n0 r w :
  r < n0 -> wf_from n0 w -> wf_from n0 (with_pool (pool w ++ [mkCo r Active]) w).
Proof.
  intros Hlt [[Hr Hp] Hn]. unfold wf_from, wf, registry_wf, pool_wf in *. cbn.
  repeat split; [done| |done]. apply Forall_app. split; [done|].
  apply Forall_singleton. cbn. lia.
Qed.

Lemma Name_with_event ch e t : Name (with_event ch e t) = Name t.
Proof. by destruct ch. Qed.

Lemma wf_from_emit n0 e w : wf_from n0 w -> wf_from n0 (emit e w).
Proof. intros Hw. by eapply wf_from_same; [| | |exact Hw]. Qed.

Ltac wf_prims :=
  try done; try apply wf_from_task_cancel; try (intros; by apply wf_from_setCoState);
  try apply wf_from_Timers_delete; try (intros; by apply wf_from_new_coroutine);
  try (intros; unfold setStatus, setRemainingTime, setTimerThread, destroyEvent, fire;
       repeat first [ apply wf_from_emit
                    | apply wf_from_modify; [intros; first [done|apply Name_with_event]|] ];
       done).

Lemma Start_unallocated r w : heap w !! r = None -> Start r w = w.
Proof. intros H. unfold Start. by rewrite H. Qed.
Lemma Pause_unallocated r w : heap w !! r = None -> Pause r w = w.
Proof. intros H. unfold Pause. by rewrite H. Qed.
Lemma Resume_unallocated r w : heap w !! r = None -> Resume r w = w.
Proof. intros H. unfold Resume. by rewrite H. Qed.
Lemma Stop_unallocated r w : heap w !! r = None -> Stop r w = w.
Proof. intros H. unfold Stop. by rewrite H. Qed.
Lemma Destroy_unallocated r w : heap w !! r = None -> Destroy r w = (w, Returned).
Proof. intros H. unfold Destroy. by rewrite H. Qed.

Lemma wf_create d w r w' : wf w -> CreateTimer d w = inr (r, w') -> wf w'.
Proof.
  intros [Hr Hp]. unfold CreateTimer. destruct (IsServer w); cbn; [|done].
  intros [= <- <-]. unfold wf, registry_wf, pool_wf in *. wsimpl. split.
  - intros n r' Hl. destruct (decide (data_Name d = n)) as [<-|Hne].
    + rewrite lookup_insert_eq in Hl. injection Hl as <-.
      eexists. split; [apply list_lookup_middle; done|done].
    + rewrite lookup_insert_ne in Hl by done.
      destruct (Hr n r' Hl) as (t & Ht & HN). exists t. split; [|done].
      rewrite lookup_app_l; [done|]. by eapply lookup_lt_Some.
  - eapply Forall_impl; [exact Hp|]. cbn. intros c Hc. rewrite length_app. lia.
Qed.

Lemma wf_copy r0 w c w' : wf w -> Copy r0 w = Some (c, w') -> wf w'.
Proof.
  intros [Hr Hp]. unfold Copy. destruct (heap w !! r0) as [t0|]; [|done].
  intros [= <- <-]. unfold wf, registry_wf, pool_wf in *. wsimpl. split.
  - intros n r' Hl. destruct (Hr n r' Hl) as (t & Ht & HN). exists t. split; [|done].
    rewrite lookup_app_l; [done|]. by eapply lookup_lt_Some.
  - eapply Forall_impl; [exact Hp|]. cbn. intros c Hc. rewrite length_app. lia.
Qed.

Lemma wf_step c w : wf w -> wf (step c w).
Proof.
  intros Hw.
  assert (Hf : wf_from (length (heap w)) w) by (split; [done|lia]).
  destruct c as [d|r|r|r|r|r|r|th]; cbn [step].
  3-7: destruct (heap w !! r) as [t|] eqn:Ht;
       [ apply lookup_lt_Some in Ht
       | by rewrite ?Start_unallocated, ?Pause_unallocated, ?Resume_unallocated,
              ?Stop_unallocated, ?Destroy_unallocated ].
  3-7: match goal with
       | |- wf ?x => cut (wf_from (length (heap w)) x); [by intros [? _]|]
       end;
       by_preservation (wf_from (length (heap w))) (fun r : ref => r < length (heap w))
                       (fun _ : thread => True); wf_prims.
  - destruct (CreateTimer d w) as [|[r w']] eqn:E; [done|]. by eapply wf_create.
  - destruct (Copy r w) as [[c w']|] eqn:E; [|done]. by eapply wf_copy.
  - cut (wf_from (length (heap w)) (wake th w)); [by intros [? _]|].
    eapply (P_wake (wf_from (length (heap w))) (fun r : ref => r < length (heap w))
                   (fun _ : thread => True)); wf_prims.
    intros c Hc. destruct Hw as [_ Hp]. by eapply (Forall_lookup_1 _ _ _ _ Hp).
Qed.

Lemma wf_steps cs w : wf w -> wf (steps cs w).
Proof.
  revert w. induction cs as [|c cs IH]; intros w Hg; [done|].
  cbn. apply IH. by apply wf_step.
Qed.

Lemma wf_init b : wf (init b).
Proof.
  split.
  - intros n r H. cbn in H. by rewrite lookup_empty in H.
  - constructor.
Qed.

Lemma length_heap_step c w : length (heap w) <= length (heap (step c w)).
Proof.
  destruct c as [d|r|r|r|r|r|r|th]; cbn [step].
  3-8: by_preservation (fun w' => length (heap w) <= length (heap w'))
                       (fun _ : ref => True) (fun _ : thread => True);
       try done; intros; wsimpl; done.
  - unfold CreateTimer. destruct (IsServer w); cbn; [|done]. rewrite length_app. lia.
  - unfold Copy. destruct (heap w !! r); cbn; [|done]. rewrite length_app. lia.
Qed.

Lemma length_heap_steps cs w : length (heap w) <= length (heap (steps cs w)).
Proof.
  revert w. induction cs as [|c cs IH]; intros w; [done|].
  cbn. etrans; [apply (length_heap_step c)|apply IH].
Qed.

(** ** A registry entry stays until its name is re-created or destroyed *)

Lemma kept_refl n r w : lookup_timer n w = Some r -> kept n r w w.
Proof. intros H. split; [exists []; by rewrite app_nil_r | by left]. Qed.

(** A step that adds [l'] to the trace and keeps the registry and the names
    of the timers. *)
Lemma kept_grow n r w0 w w' l' :
  trace w' = trace w ++ l' ->
  lookup_timer n w' = lookup_timer n w ->
  (forall r' t', heap w !! r' = Some t' ->
     exists t'', heap w' !! r' = Some t'' /\ Name t'' = Name t') ->
  kept n r w0 w -> kept n r w0 w'.
Proof.
  intros Ht HT Hn [[l Hl] Hk]. split.
  - exists (l ++ l'). by rewrite Ht, Hl, <- app_assoc.
  - destruct Hk as [Hk|(r' & t' & pre & post & Hh & HN & Ha)].
    + left. by rewrite HT.
    + right. destruct (Hn r' t' Hh) as (t'' & Hh'' & HN'').
      exists r', t'', pre, (post ++ l'). split; [done|]. split; [congruence|].
      rewrite (added_app w0 w l Hl) in Ha. erewrite (added_app w0 w').
      2: { by rewrite Ht, Hl, <- app_assoc. }
      rewrite Ha, <- app_assoc. done.
Qed.

Lemma names_modify r f w :
  (forall t, Name (f t) = Name t) ->
  forall r' t', heap w !! r' = Some t' ->
    exists t'', heap (modify r f w) !! r' = Some t'' /\ Name t'' = Name t'.
Proof.
  intros Hf r' t' Hh. destruct (decide (r = r')) as [->|Hne].
  - exists (f t'). split; [by apply lookup_modify_eq | apply Hf].
  - exists t'. by rewrite lookup_modify_ne.
Qed.

Lemma kept_emit n r w0 e w : kept n r w0 w -> kept n r w0 (emit e w).
Proof. apply (kept_grow n r w0 w (emit e w) [e]); [done..|]. intros r' t' H. by exists t'. Qed.

Lemma kept_modify n r w0 r1 f w :
  (forall t, Name (f t) = Name t) -> kept n r w0 w -> kept n r w0 (modify r1 f w).
Proof.
  intros Hf. apply (kept_grow n r w0 w (modify r1 f w) []).
  - by rewrite trace_modify, app_nil_r.
  - unfold lookup_timer. by rewrite Timers_modify.
  - by apply names_modify.
Qed.

Lemma kept_same_parts n r w0 w w' :
  trace w' = trace w -> Timers w' = Timers w -> heap w' = heap w ->
  kept n r w0 w -> kept n r w0 w'.
Proof.
  intros Ht HT Hh.
  apply (kept_grow n r w0 w w' []); [by rewrite Ht, app_nil_r | by unfold lookup_timer; rewrite HT |].
  intros r' t' H. exists t'. by rewrite Hh.
Qed.

Lemma kept_task_cancel n r w0 th w : kept n r w0 w -> kept n r w0 (task_cancel th w).
Proof.
  apply (kept_grow n r w0 w (task_cancel th w) [Cancel th]).
  - apply trace_task_cancel.
  - unfold lookup_timer. by rewrite Timers_task_cancel.
  - intros r' t' H. exists t'. by rewrite heap_task_cancel.
Qed.

(** Lines 133 and 143 of [Destroy]: the entry of [n] goes only when the
    timer being destroyed carries that name. *)
Lemma kept_unregister n r w0 r1 t w :
  heap w !! r1 = Some t ->
  kept n r w0 w ->
  kept n r w0 (Timers_delete (Name t) (destroyEvent r1 ch_statusChanged w)).
Proof.
  intros Hh1 Hk.
  set (w2 := Timers_delete (Name t) (destroyEvent r1 ch_statusChanged w)).
  assert (Ht2 : trace w2 = trace w ++ [DestroyEvent r1 ch_statusChanged; Delete (Name t)]).
  { subst w2. wsimpl. by rewrite <- app_assoc. }
  assert (Hh2 : heap w2 !! r1 = Some (with_event ch_statusChanged Destroyed t)).
  { subst w2. unfold Timers_delete, destroyEvent. cbn [heap emit with_trace with_Timers].
    by apply lookup_modify_eq. }
  assert (Hn2 : forall r' t', heap w !! r' = Some t' ->
            exists t'', heap w2 !! r' = Some t'' /\ Name t'' = Name t').
  { subst w2. unfold Timers_delete, destroyEvent. cbn [heap emit with_trace with_Timers].
    by apply names_modify. }
  assert (HT2 : Timers w2 = delete (Name t) (Timers w)) by (subst w2; by wsimpl).
  clearbody w2. destruct Hk as [[l Hl] Hk]. split.
  { eexists. by rewrite Ht2, Hl, <- app_assoc. }
  assert (Ha2 : added w0 w2 = l ++ [DestroyEvent r1 ch_statusChanged; Delete (Name t)]).
  { apply added_app. by rewrite Ht2, Hl, <- app_assoc. }
  destruct (decide (Name t = n)) as [HN|HN].
  - right. exists r1, (with_event ch_statusChanged Destroyed t), l, [].
    split; [done|]. split; [done|]. by rewrite Ha2, HN.
  - destruct Hk as [Hk|(r' & t' & pre & post & Hh & HN' & Ha)].
    + left. unfold lookup_timer in *. rewrite HT2. by rewrite lookup_delete_ne.
    + right. destruct (Hn2 r' t' Hh) as (t'' & Hh'' & HN'').
      eexists r', t'', pre, _. split; [done|]. split; [congruence|].
      rewrite (added_app w0 w l Hl) in Ha. rewrite Ha2, Ha, <- app_assoc. done.
Qed.

Ltac kept_prims :=
  try done; try apply kept_task_cancel;
  try (intros; by apply kept_unregister);
  try (intros; unfold setStatus, setRemainingTime, setTimerThread, destroyEvent, fire;
       repeat first [ apply kept_emit
                    | apply kept_modify; [intros; first [done|apply Name_with_event]|] ];
       done);
  try (intros; (eapply kept_same_parts; [| | |eassumption]); wsimpl;
       rewrite ?heap_setCoState; done).

Lemma kept_step n r w0 c w :
  is_create_named n c = false -> kept n r w0 w -> kept n r w0 (step c w).
Proof.
  intros Hc Hk.
  destruct c as [d|r1|r1|r1|r1|r1|r1|th]; cbn [step].
  3-8: first [ eapply (pres_Destroy (kept n r w0) (fun _ : ref => True) (fun _ : thread => True))
             | eapply (pres_Start (kept n r w0) (fun _ : ref => True) (fun _ : thread => True))
             | eapply (pres_Pause (kept n r w0) (fun _ : ref => True) (fun _ : thread => True))
             | eapply (pres_Resume (kept n r w0) (fun _ : ref => True) (fun _ : thread => True))
             | eapply (pres_Stop (kept n r w0) (fun _ : ref => True) (fun _ : thread => True))
             | eapply (pres_wake (kept n r w0) (fun _ : ref => True) (fun _ : thread => True)) ];
       kept_prims.
  - unfold CreateTimer. destruct (IsServer w); cbn; [|done].
    cbn in Hc. apply bool_decide_eq_false in Hc.
    eapply (kept_grow n r w0 w _ []); [by rewrite app_nil_r| | |exact Hk].
    + unfold lookup_timer. cbn. by rewrite lookup_insert_ne.
    + intros r' t' H. exists t'. cbn. split; [|done].
      rewrite lookup_app_l; [done|]. by eapply lookup_lt_Some.
  - unfold Copy. destruct (heap w !! r1) as [t|]; [|done].
    eapply (kept_grow n r w0 w _ []); [by rewrite app_nil_r|done| |exact Hk].
    intros r' t' H. exists t'. cbn. split; [|done].
    rewrite lookup_app_l; [done|]. by eapply lookup_lt_Some.
Qed.

Lemma kept_steps n r w0 cs w :
  forallb (fun c => negb (is_create_named n c)) cs = true ->
  kept n r w0 w -> kept n r w0 (steps cs w).
Proof.
  revert w. induction cs as [|c cs IH]; intros w Hcs Hk; [done|].
  cbn in Hcs. apply andb_true_iff in Hcs as [Hc Hcs].
  cbn. apply IH; [done|]. apply kept_step; [|done]. by destruct (is_create_named n c).
Qed.

(** ** A timer without a tick loop stays silent *)

Lemma idle_emit c X ch k e w :
  is_fire c ch e = false -> idle c X ch k w -> idle c X ch k (emit e w).
Proof.
  intros He (Hh & Hc & Hn). unfold idle, count_fires, no_loop in *. wsimpl.
  rewrite count_app. cbn. rewrite He. repeat split; [done|lia|done].
Qed.

Lemma idle_modify c X ch k r f w :
  r <> c -> idle c X ch k w -> idle c X ch k (modify r f w).
Proof.
  intros Hne (Hh & Hc & Hn). unfold idle, no_loop in *.
  rewrite lookup_modify_ne, trace_modify, pool_modify by done. done.
Qed.

Lemma idle_setCoState c X ch k th s w :
  idle c X ch k w -> idle c X ch k (setCoState th s w).
Proof.
  intros (Hh & Hc & Hn). unfold idle, no_loop in *.
  rewrite heap_setCoState, trace_setCoState. repeat split; [done..|].
  unfold setCoState. destruct (pool w !! th) as [co|] eqn:Hco; [|done]. cbn.
  apply Forall_insert; [done|]. cbn. by eapply (Forall_lookup_1 _ _ _ _ Hn).
Qed.

Lemma idle_task_cancel c X ch k th w :
  idle c X ch k w -> idle c X ch k (task_cancel th w).
Proof.
  intros Hi. unfold task_cancel.
  change (pool (emit (Cancel th) w)) with (pool w).
  assert (He : idle c X ch k (emit (Cancel th) w)) by (by apply idle_emit).
  destruct (pool w !! th) as [co|]; [|done].
  destruct (co_state co); try done; by apply idle_setCoState.
Qed.

Lemma idle_Timers_delete c X ch k n w :
  idle c X ch k w -> idle c X ch k (Timers_delete n w).
Proof. intros Hi. unfold Timers_delete. by apply idle_emit. Qed.

Lemma idle_new_coroutine c X ch k r w :
  r <> c -> idle c X ch k w -> idle c X ch k (with_pool (pool w ++ [mkCo r Active]) w).
Proof.
  intros Hne (Hh & Hc & Hn). unfold idle, no_loop in *. cbn. repeat split; [done..|].
  apply Forall_app. split; [done|]. by apply Forall_singleton.
Qed.

Lemma is_fire_other c ch r ch' a : r <> c -> is_fire c ch (Fire r ch' a) = false.
Proof. intros H. cbn. by rewrite bool_decide_eq_false_2. Qed.

Lemma is_fire_not_fire c ch e : (forall r ch' a, e <> Fire r ch' a) -> is_fire c ch e = false.
Proof. intros H. destruct e; try done. by destruct (H r ch0 arg). Qed.

Ltac idle_prims :=
  try done; try apply idle_task_cancel; try apply idle_Timers_delete;
  try (intros; by apply idle_setCoState); try (intros; by apply idle_new_coroutine);
  try (intros; unfold setStatus, setRemainingTime, setTimerThread, destroyEvent, fire;
       repeat first [ apply idle_emit; [first [done | by apply is_fire_other
                                              | by apply is_fire_not_fire]|]
                    | apply idle_modify; [done|] ];
       done).

Lemma idle_step c X ch k call w :
  Status X = Running -> leaves_running c call = false ->
  idle c X ch k w -> idle c X ch k (step call w).
Proof.
  intros HX Hcall Hi.
  destruct call as [d|r|r|r|r|r|r|th]; cbn [step].
  - unfold CreateTimer. destruct (IsServer w); cbn; [|done].
    destruct Hi as (Hh & Hc & Hn). unfold idle, no_loop. wsimpl. repeat split; [|done..].
    rewrite lookup_app_l; [done|]. by eapply lookup_lt_Some.
  - unfold Copy. destruct (heap w !! r) as [t|]; [|done].
    destruct Hi as (Hh & Hc & Hn). unfold idle, no_loop. wsimpl. repeat split; [|done..].
    rewrite lookup_app_l; [done|]. by eapply lookup_lt_Some.
  - destruct (decide (r = c)) as [->|Hne].
    + destruct Hi as (Hh & Hc & Hn). unfold Start. rewrite Hh.
      rewrite bool_decide_eq_true_2 by done. done.
    + by_preservation (idle c X ch k) (fun r : ref => r <> c) (fun _ : thread => True);
        idle_prims.
  - cbn in Hcall. apply bool_decide_eq_false in Hcall.
    by_preservation (idle c X ch k) (fun r : ref => r <> c) (fun _ : thread => True);
      idle_prims.
  - destruct (decide (r = c)) as [->|Hne].
    + destruct Hi as (Hh & Hc & Hn). unfold Resume. rewrite Hh.
      rewrite bool_decide_eq_true_2; [done|]. by rewrite HX.
    + by_preservation (idle c X ch k) (fun r : ref => r <> c) (fun _ : thread => True);
        idle_prims.
  - cbn in Hcall. apply bool_decide_eq_false in Hcall.
    by_preservation (idle c X ch k) (fun r : ref => r <> c) (fun _ : thread => True);
      idle_prims.
  - cbn in Hcall. apply bool_decide_eq_false in Hcall.
    by_preservation (idle c X ch k) (fun r : ref => r <> c) (fun _ : thread => True);
      idle_prims.
  - eapply (P_wake (idle c X ch k) (fun r : ref => r <> c) (fun _ : thread => True));
      idle_prims.
    intros co Hco. destruct Hi as (_ & _ & Hn). by eapply (Forall_lookup_1 _ _ _ _ Hn).
Qed.

Lemma idle_steps c X ch k cs w :
  Status X = Running ->
  forallb (fun call => negb (leaves_running c call)) cs = true ->
  idle c X ch k w -> idle c X ch k (steps cs w).
Proof.
  intros HX. revert w. induction cs as [|call cs IH]; intros w Hcs Hi; [done|].
  cbn in Hcs. apply andb_true_iff in Hcs as [Hc Hcs].
  cbn. apply IH; [done|]. apply idle_step; [done| |done]. by destruct (leaves_running c call).
Qed.

(** ** The tick loop, one resumption at a time *)

Ltac eval_step Hh Hp :=
  first [ rewrite Hh | rewrite Hp
        | rewrite list_lookup_insert_eq
            by (rewrite ?length_insert, ?length_app; cbn;
                first [ by eapply lookup_lt_Some | lia ])
        | rewrite list_insert_insert_eq
        | rewrite bool_decide_eq_true_2 by (cbn; first [done | lia])
        | rewrite bool_decide_eq_false_2 by (cbn; first [done | congruence | lia]) ].

Ltac eval_world Hh Hp :=
  unfold setStatus, setRemainingTime, setTimerThread, fire, destroyEvent, print,
         Timers_delete, Timers_set, modify, emit, setCoState, task_cancel;
  cbn; repeat (eval_step Hh Hp; cbn).

(** The first half of a resumption: [onTick] is fired and one tick is taken
    off; the status decides whether the loop test is evaluated again. *)
Lemma wake_body th r w t :
  pool w !! th = Some (mkCo r InWait) ->
  heap w !! r = Some t ->
  exists w1,
    wake th w = (if bool_decide (Status t <> Running) then run_exit th r w1
                 else run_test th r w1) /\
    heap w1 !! r = Some (with_RemainingTime (num_sub (RemainingTime t) (Tick t)) t) /\
    pool w1 !! th = Some (mkCo r Active) /\
    trace w1 = trace w ++ [Fire r ch_onTick (Some (RemainingTime t))] /\
    Timers w1 = Timers w.
Proof.
  intros Hp Hh. unfold wake. rewrite Hp. cbn [co_state co_timer].
  unfold run_body. rewrite heap_setCoState, Hh.
  eexists. split; [reflexivity|].
  split; [by eval_world Hh Hp|]. split; [by eval_world Hh Hp|].
  split; [by eval_world Hh Hp|].
  unfold setRemainingTime, fire. rewrite Timers_modify. cbn. apply Timers_setCoState.
Qed.

Lemma wake_continue th r w t :
  pool w !! th = Some (mkCo r InWait) ->
  heap w !! r = Some t ->
  Status t = Running ->
  num_gt (num_sub (RemainingTime t) (Tick t)) (num 0) = true ->
  heap (wake th w) !! r = Some (with_RemainingTime (num_sub (RemainingTime t) (Tick t)) t)
  /\ pool (wake th w) !! th = Some (mkCo r InWait)
  /\ trace (wake th w) =
       trace w ++ [Fire r ch_onTick (Some (RemainingTime t)); Wait th (Tick t)].
Proof.
  intros Hp Hh Hs Hx.
  destruct (wake_body th r w t Hp Hh) as (w1 & -> & Hh1 & Hp1 & Ht1 & _).
  rewrite bool_decide_eq_false_2 by (rewrite Hs; tauto).
  unfold run_test. rewrite Hh1. cbn [RemainingTime Status Tick with_RemainingTime].
  rewrite Hx, bool_decide_eq_true_2 by done. cbn [andb].
  rewrite heap_setCoState, trace_setCoState. cbn [heap trace emit with_trace].
  split; [done|]. split.
  - by apply (lookup_setCoState_eq th InWait (emit _ w1) (mkCo r Active)).
  - by rewrite Ht1, <- app_assoc.
Qed.

(** What [Destroy] leaves behind. *)
Lemma Destroy_spec r w t :
  heap w !! r = Some t ->
  trace (Destroy r w).1 = trace w ++ destroy_effects r (Name t) (timerThread t)
  /\ pool (Destroy r w).1 = pool w
  /\ heap (Destroy r w).1 !! r =
       Some (mkTimer (Name t) (Duration t) (Tick t) (RemainingTime t) (AutoDestroy t) Stopped
                     Destroyed Destroyed (onTick t) (timerThread t))
  /\ (Destroy r w).2 = match timerThread t with Some _ => Suspended | None => Returned end.
Proof.
  intros Hh. unfold Destroy. rewrite Hh.
  destruct (timerThread t) as [v|] eqn:Hv; eval_world Hh Hh; unfold destroy_effects;
    rewrite <- !app_assoc, ?Hv; done.
Qed.

(** The code after the loop, when the time has run out. *)
Lemma run_exit_spec th r w t c :
  pool w !! th = Some c ->
  heap w !! r = Some t ->
  Status t = Running ->
  num_le (RemainingTime t) (num 0) = true ->
  trace (run_exit th r w) =
    trace w ++ [SetStatus r Completed; Fire r ch_completed None;
                Fire r ch_statusChanged None; Fire r ch_onTick (Some (RemainingTime t))]
            ++ (if AutoDestroy t then destroy_effects r (Name t) (timerThread t) else [])
  /\ (exists t', heap (run_exit th r w) !! r = Some t' /\
        Status t' = (if AutoDestroy t then Stopped else Completed) /\
        RemainingTime t' = RemainingTime t)
  /\ (exists s, pool (run_exit th r w) !! th = Some (mkCo (co_timer c) s) /\ s <> InWait).
Proof.
  intros Hp Hh Hs Hx. unfold run_exit. rewrite Hh.
  rewrite Hx, bool_decide_eq_true_2 by done. cbn [andb].
  set (w' := fire r ch_onTick _ _).
  assert (Hh' : heap w' !! r = Some (with_Status Completed t))
    by (subst w'; eval_world Hh Hp; done).
  assert (Hp' : pool w' = pool w) by (subst w'; eval_world Hh Hp; done).
  assert (Ht' : trace w' = trace w ++ [SetStatus r Completed; Fire r ch_completed None;
                 Fire r ch_statusChanged None; Fire r ch_onTick (Some (RemainingTime t))])
    by (subst w'; eval_world Hh Hp; by rewrite <- !app_assoc).
  clearbody w'.
  destruct (AutoDestroy t) eqn:HA.
  - destruct (Destroy_spec r w' _ Hh') as (HDt & HDp & HDh & HDk).
    destruct (Destroy r w') as [w'' k]. cbn [fst snd] in *.
    rewrite <- Hp' in Hp. rewrite <- HDp in Hp.
    assert (Hfin : forall s, s <> InWait ->
      trace (setCoState th s w'') =
        trace w ++ [SetStatus r Completed; Fire r ch_completed None;
                    Fire r ch_statusChanged None; Fire r ch_onTick (Some (RemainingTime t))]
                ++ destroy_effects r (Name t) (timerThread t)
      /\ (exists t', heap (setCoState th s w'') !! r = Some t' /\ Status t' = Stopped /\
            RemainingTime t' = RemainingTime t)
      /\ (exists s', pool (setCoState th s w'') !! th = Some (mkCo (co_timer c) s') /\
            s' <> InWait)).
    { intros s Hne. rewrite trace_setCoState, heap_setCoState, HDt, Ht', HDh.
      rewrite <- app_assoc. split; [done|]. split; [by eexists|].
      exists s. split; [by apply lookup_setCoState_eq|done]. }
    destruct k; apply Hfin; done.
  - rewrite trace_setCoState, heap_setCoState, Ht', Hh', app_nil_r.
    split; [done|]. split; [by eexists|].
    exists Finished. rewrite <- Hp' in Hp. split; [by apply lookup_setCoState_eq|done].
Qed.

(** The code after the loop, when the completion test fails: the status is
    no longer [Running], or the remaining time is not [<= 0] (it is still
    positive, or it is NaN).  [run] just returns. *)
Lemma run_exit_skip th r w t :
  heap w !! r = Some t ->
  num_le (RemainingTime t) (num 0) && bool_decide (Status t = Running) = false ->
  run_exit th r w = setCoState th Finished w.
Proof. intros Hh Hx. unfold run_exit. by rewrite Hh, Hx. Qed.

(** The state in which the loop leaves the timer when the time runs out. *)
Lemma wake_finish th r w t :
  pool w !! th = Some (mkCo r InWait) ->
  heap w !! r = Some t ->
  Status t = Running ->
  num_le (num_sub (RemainingTime t) (Tick t)) (num 0) = true ->
  trace (wake th w) =
    trace w ++ [Fire r ch_onTick (Some (RemainingTime t));
                SetStatus r Completed; Fire r ch_completed None;
                Fire r ch_statusChanged None;
                Fire r ch_onTick (Some (num_sub (RemainingTime t) (Tick t)))]
            ++ (if AutoDestroy t then destroy_effects r (Name t) (timerThread t) else [])
  /\ (exists t', heap (wake th w) !! r = Some t' /\
        Status t' = (if AutoDestroy t then Stopped else Completed) /\
        RemainingTime t' = num_sub (RemainingTime t) (Tick t))
  /\ (exists s, pool (wake th w) !! th = Some (mkCo r s) /\ s <> InWait).
Proof.
  intros Hp Hh Hs Hx.
  destruct (wake_body th r w t Hp Hh) as (w1 & -> & Hh1 & Hp1 & Ht1 & _).
  rewrite bool_decide_eq_false_2 by (rewrite Hs; tauto).
  unfold run_test. rewrite Hh1. cbn [RemainingTime Status Tick with_RemainingTime].
  rewrite (num_le_gt _ Hx). cbn [andb].
  destruct (run_exit_spec th r w1 _ _ Hp1 Hh1 Hs Hx) as (H1 & H2 & H3).
  rewrite H1, Ht1, <- app_assoc. done.
Qed.

(** A resumption after which the remaining time is neither positive nor
    [<= 0], that is NaN: the loop ends without completing and the timer stays
    [Running]. *)
Lemma wake_stall th r w t :
  pool w !! th = Some (mkCo r InWait) ->
  heap w !! r = Some t ->
  Status t = Running ->
  num_gt (num_sub (RemainingTime t) (Tick t)) (num 0) = false ->
  num_le (num_sub (RemainingTime t) (Tick t)) (num 0) = false ->
  heap (wake th w) !! r = Some (with_RemainingTime (num_sub (RemainingTime t) (Tick t)) t)
  /\ pool (wake th w) !! th = Some (mkCo r Finished)
  /\ trace (wake th w) = trace w ++ [Fire r ch_onTick (Some (RemainingTime t))].
Proof.
  intros Hp Hh Hs Hx Hy.
  destruct (wake_body th r w t Hp Hh) as (w1 & -> & Hh1 & Hp1 & Ht1 & _).
  rewrite bool_decide_eq_false_2 by (rewrite Hs; tauto).
  unfold run_test. rewrite Hh1. cbn [RemainingTime Status Tick with_RemainingTime].
  rewrite Hx. cbn [andb].
  rewrite (run_exit_skip th r w1 _ Hh1) by (cbn; by rewrite Hy).
  rewrite heap_setCoState, trace_setCoState. split; [done|]. split; [|done].
  by apply (lookup_setCoState_eq th Finished w1 (mkCo r Active)).
Qed.

(** The world in which [Start] and [Resume] run the first segment of the
    new loop. *)
Lemma Start_body r w t :
  heap w !! r = Some t ->
  Status t <> Running ->
  exists w1,
    Start r w =
      fire r ch_statusChanged None
        (setTimerThread r (Some (length (pool w))) (run_test (length (pool w)) r w1)) /\
    heap w1 !! r = Some (with_Status Running t) /\
    pool w1 !! length (pool w) = Some (mkCo r Active) /\
    length (pool w1) = S (length (pool w)) /\
    (forall v, v < length (pool w) -> pool w1 !! v = pool w !! v) /\
    trace w1 = trace w ++ [SetStatus r Running; Spawn (length (pool w)) r] /\
    Timers w1 = Timers w.
Proof.
  intros Hh Hs. unfold Start, task_spawn_run, run. rewrite Hh.
  rewrite bool_decide_eq_false_2 by done.
  assert (Hpool : pool (setStatus r Running w) = pool w) by apply pool_modify.
  rewrite Hpool. eexists. split; [reflexivity|].
  split; [by eval_world Hh Hh|].
  split; [eval_world Hh Hh; by apply list_lookup_middle|].
  split; [eval_world Hh Hh; rewrite length_app; cbn; lia|].
  split; [intros v Hv; eval_world Hh Hh; by rewrite lookup_app_l|].
  split; [eval_world Hh Hh; by rewrite <- !app_assoc|].
  unfold setStatus. cbn. apply Timers_modify.
Qed.

Lemma Start_spawns r w t :
  heap w !! r = Some t ->
  Status t <> Running ->
  num_gt (RemainingTime t) (num 0) = true ->
  heap (Start r w) !! r =
    Some (with_timerThread (Some (length (pool w))) (with_Status Running t))
  /\ pool (Start r w) !! length (pool w) = Some (mkCo r InWait)
  /\ trace (Start r w) =
       trace w ++ [SetStatus r Running; Spawn (length (pool w)) r;
                   Wait (length (pool w)) (Tick t); Fire r ch_statusChanged None].
Proof.
  intros Hh Hs Hx.
  destruct (Start_body r w t Hh Hs) as (w1 & -> & Hh1 & Hp1 & _ & _ & Ht1 & _).
  unfold run_test. rewrite Hh1. cbn [RemainingTime Status Tick with_Status].
  rewrite Hx, bool_decide_eq_true_2 by done. cbn [andb].
  unfold setTimerThread, fire.
  cbn [heap pool trace emit with_trace].
  rewrite trace_modify, pool_modify, trace_setCoState.
  rewrite (lookup_modify_eq r _ _ (with_Status Running t))
    by (by rewrite heap_setCoState).
  rewrite (lookup_setCoState_eq _ InWait _ (mkCo r Active)) by done.
  cbn. rewrite Ht1, <- !app_assoc. done.
Qed.

Lemma wakes_snoc k th w : wakes (S k) th w = wake th (wakes k th w).
Proof. revert w. induction k as [|k IH]; intros w; [done|]. cbn. by rewrite <- IH. Qed.

Lemma with_RemainingTime_same t : with_RemainingTime (RemainingTime t) t = t.
Proof. by destruct t. Qed.

(** [k] rounds that stay inside the loop. *)
Lemma wakes_loop th r k : forall w t,
  pool w !! th = Some (mkCo r InWait) ->
  heap w !! r = Some t ->
  Status t = Running ->
  (forall i, 1 <= i <= k -> num_gt (remaining (RemainingTime t) (Tick t) i) (num 0) = true) ->
  heap (wakes k th w) !! r =
    Some (with_RemainingTime (remaining (RemainingTime t) (Tick t) k) t)
  /\ pool (wakes k th w) !! th = Some (mkCo r InWait)
  /\ trace (wakes k th w) = trace w ++ loop_effects th r (Tick t) (RemainingTime t) k.
Proof.
  induction k as [|k IH]; intros w t Hp Hh Hs Hx.
  - cbn. by rewrite app_nil_r, with_RemainingTime_same.
  - assert (Hx1 : num_gt (num_sub (RemainingTime t) (Tick t)) (num 0) = true)
      by (apply (Hx 1); lia).
    destruct (wake_continue th r w t Hp Hh Hs Hx1) as (Hh' & Hp' & Ht').
    cbn [wakes].
    destruct (IH (wake th w) _ Hp' Hh' Hs) as (H1 & H6 & H7).
    { intros i Hi. apply (Hx (S i)). lia. }
    split; [exact H1|]. split; [done|].
    rewrite H7, Ht', <- app_assoc. done.
Qed.

Lemma is_fire_same r ch a : is_fire r ch (Fire r ch a) = true.
Proof. cbn. by rewrite !bool_decide_eq_true_2. Qed.

Lemma is_fire_other_channel r ch ch' a : ch' <> ch -> is_fire r ch (Fire r ch' a) = false.
Proof. intros H. cbn. rewrite (bool_decide_eq_false_2 (ch' = ch)) by done. apply andb_false_r. Qed.

Lemma is_wait_same th n : is_wait th (Wait th n) = true.
Proof. cbn. by rewrite bool_decide_eq_true_2. Qed.

(** Count through a concrete list of effects. *)
Ltac count_simpl :=
  unfold count_fires, count_waits;
  repeat first [ rewrite count_app
               | progress cbn [count app]
               | rewrite is_fire_same
               | rewrite is_wait_same
               | rewrite is_fire_other_channel by done
               | progress cbn [is_fire is_wait] ].

Lemma count_loop_effects_waits th r T x k : count_waits th (loop_effects th r T x k) = k.
Proof.
  revert x. induction k as [|k IH]; intros x; [done|].
  cbn [loop_effects]. count_simpl.
  fold (count_waits th (loop_effects th r T (num_sub x T) k)).
  rewrite IH. lia.
Qed.

Lemma count_loop_effects_ticks th r T x k :
  count_fires r ch_onTick (loop_effects th r T x k) = k.
Proof.
  revert x. induction k as [|k IH]; intros x; [done|].
  cbn [loop_effects]. count_simpl.
  fold (count_fires r ch_onTick (loop_effects th r T (num_sub x T) k)).
  rewrite IH. lia.
Qed.

Lemma count_loop_effects_completed th r T x k :
  count_fires r ch_completed (loop_effects th r T x k) = 0.
Proof.
  revert x. induction k as [|k IH]; intros x; [done|].
  cbn [loop_effects]. count_simpl.
  fold (count_fires r ch_completed (loop_effects th r T (num_sub x T) k)).
  rewrite IH. lia.
Qed.

Lemma ticks_of_loop_effects th r T x k :
  ticks_of r (loop_effects th r T x k) = map (remaining x T) (seq 0 k).
Proof.
  revert x. induction k as [|k IH]; intros x; [done|].
  cbn. rewrite bool_decide_eq_true_2 by done. f_equal.
  by rewrite IH, <- seq_shift, map_map.
Qed.

Lemma loop_effects_no_status th r T x k s :
  ~ In (SetStatus r s) (loop_effects th r T x k).
Proof.
  revert x. induction k as [|k IH]; intros x; cbn; [tauto|].
  intros [H|[H|H]]; [done|done|]. by apply IH in H.
Qed.

(** ** A waiting loop runs out *)

(** From a waiting loop whose countdown takes [S n] subtractions: the
    resumptions [1 .. n] stay in the loop, resumption [S n] is the final
    one. *)
Lemma loop_runs_out th r w t n :
  pool w !! th = Some (mkCo r InWait) ->
  heap w !! r = Some t ->
  Status t = Running ->
  runs_out (RemainingTime t) (Tick t) (S n) = true ->
  (forall k, k <= n ->
     heap (wakes k th w) !! r =
       Some (with_RemainingTime (remaining (RemainingTime t) (Tick t) k) t) /\
     pool (wakes k th w) !! th = Some (mkCo r InWait) /\
     trace (wakes k th w) = trace w ++ loop_effects th r (Tick t) (RemainingTime t) k) /\
  trace (wakes (S n) th w) =
    trace w ++ loop_effects th r (Tick t) (RemainingTime t) n
            ++ final_effects r (Tick t) (remaining (RemainingTime t) (Tick t) n)
            ++ (if AutoDestroy t then destroy_effects r (Name t) (timerThread t) else []).
Proof.
  intros Hp Hh Hs Hrun. apply runs_out_spec in Hrun as [Hpos Hend].
  assert (Hloop : forall k, k <= n ->
     heap (wakes k th w) !! r =
       Some (with_RemainingTime (remaining (RemainingTime t) (Tick t) k) t) /\
     pool (wakes k th w) !! th = Some (mkCo r InWait) /\
     trace (wakes k th w) = trace w ++ loop_effects th r (Tick t) (RemainingTime t) k).
  { intros k Hk. apply wakes_loop; try done. intros i Hi. apply Hpos. lia. }
  split; [exact Hloop|].
  destruct (Hloop n ltac:(lia)) as (H1 & H6 & H7).
  rewrite wakes_snoc. rewrite remaining_succ in Hend.
  destruct (wake_finish th r _ _ H6 H1 Hs Hend) as (Hfin & _).
  rewrite Hfin, H7. unfold final_effects.
  cbn [RemainingTime Tick AutoDestroy Name timerThread with_RemainingTime].
  by rewrite <- !app_assoc.
Qed.

Lemma ticks_of_run_out th r T x n rest :
  ticks_of r rest = [] ->
  ticks_of r (loop_effects th r T x n ++ final_effects r T (remaining x T n) ++ rest)
  = countdown x T (S n).
Proof.
  intros Hr. rewrite !ticks_of_app, ticks_of_loop_effects, Hr. unfold final_effects, countdown.
  cbn [ticks_of app]. rewrite !bool_decide_eq_true_2 by done. rewrite app_nil_r.
  replace (S (S n)) with (n + 2) by lia. rewrite seq_app, map_app. cbn [seq map Nat.add].
  by rewrite remaining_succ.
Qed.

Lemma ticks_of_destroy_part r (b : bool) name v :
  ticks_of r (if b then destroy_effects r name v else []) = [].
Proof. destruct b; [|done]. by destruct v. Qed.

Lemma count_destroy_part (p : Effect -> bool) r (b : bool) name v :
  (forall e, In e (destroy_effects r name v) -> p e = false) ->
  count p (if b then destroy_effects r name v else []) = 0.
Proof.
  intros H. destruct b; [|done].
  induction (destroy_effects r name v) as [|e l IH]; [done|].
  cbn [count]. rewrite (H e) by (by left). apply IH. intros e' He'. apply H. by right.
Qed.

Lemma destroy_effects_no_fire r ch r' name v e :
  In e (destroy_effects r' name v) -> is_fire r ch e = false.
Proof.
  unfold destroy_effects. destruct v; cbn;
    intros H; repeat (destruct H as [<-|H]; [done|]); done.
Qed.

Lemma destroy_effects_no_wait th r' name v e :
  In e (destroy_effects r' name v) -> is_wait th e = false.
Proof.
  unfold destroy_effects. destruct v; cbn;
    intros H; repeat (destruct H as [<-|H]; [done|]); done.
Qed.

Lemma count_completed_run_out th r T x n (b : bool) name v :
  count_fires r ch_completed
    (loop_effects th r T x n ++ final_effects r T (remaining x T n)
       ++ (if b then destroy_effects r name v else [])) = 1.
Proof.
  unfold final_effects. count_simpl.
  fold (count_fires r ch_completed (loop_effects th r T x n)).
  rewrite count_loop_effects_completed.
  rewrite count_destroy_part by (intros e; apply destroy_effects_no_fire). lia.
Qed.

Lemma count_ticks_run_out th r T x n (b : bool) name v :
  count_fires r ch_onTick
    (loop_effects th r T x n ++ final_effects r T (remaining x T n)
       ++ (if b then destroy_effects r name v else [])) = S (S n).
Proof.
  unfold final_effects. count_simpl.
  fold (count_fires r ch_onTick (loop_effects th r T x n)).
  rewrite count_loop_effects_ticks.
  rewrite count_destroy_part by (intros e; apply destroy_effects_no_fire). lia.
Qed.

Lemma count_waits_run_out th r T x n (b : bool) name v :
  count_waits th
    (loop_effects th r T x n ++ final_effects r T (remaining x T n)
       ++ (if b then destroy_effects r name v else [])) = n.
Proof.
  unfold final_effects. count_simpl.
  fold (count_waits th (loop_effects th r T x n)).
  rewrite count_loop_effects_waits.
  rewrite count_destroy_part by (intros e; apply destroy_effects_no_wait). lia.
Qed.

(** A timer with time left that is started and then only resumed. *)
Lemma Start_runs_out r w t n :
  heap w !! r = Some t ->
  Status t <> Running ->
  runs_out (RemainingTime t) (Tick t) (S n) = true ->
  let th := length (pool w) in
  let started := [SetStatus r Running; Spawn th r; Wait th (Tick t);
                  Fire r ch_statusChanged None] in
  (forall k, k <= n ->
     heap (wakes k th (Start r w)) !! r =
       Some (with_RemainingTime (remaining (RemainingTime t) (Tick t) k)
               (with_timerThread (Some th) (with_Status Running t))) /\
     pool (wakes k th (Start r w)) !! th = Some (mkCo r InWait) /\
     added w (wakes k th (Start r w)) =
       started ++ loop_effects th r (Tick t) (RemainingTime t) k) /\
  added w (wakes (S n) th (Start r w)) =
    started ++ loop_effects th r (Tick t) (RemainingTime t) n
            ++ final_effects r (Tick t) (remaining (RemainingTime t) (Tick t) n)
            ++ (if AutoDestroy t then destroy_effects r (Name t) (Some th) else []).
Proof.
  intros Hh Hs Hrun th started.
  assert (Hx : num_gt (RemainingTime t) (num 0) = true).
  { apply runs_out_spec in Hrun as [Hpos _]. apply (Hpos 0). lia. }
  destruct (Start_spawns r w t Hh Hs Hx) as (Hh1 & Hp1 & Ht1).
  fold th in Hh1, Hp1, Ht1.
  destruct (loop_runs_out th r (Start r w) _ n Hp1 Hh1 eq_refl Hrun) as [Hloop Hfin].
  cbn [RemainingTime Tick AutoDestroy Name timerThread with_timerThread with_Status]
    in Hloop, Hfin.
  split.
  - intros k Hk. destruct (Hloop k Hk) as (H1 & H2 & H3).
    split; [done|]. split; [done|]. apply added_app. by rewrite H3, Ht1, <- app_assoc.
  - apply added_app. by rewrite Hfin, Ht1, <- app_assoc.
Qed.

(** ** Countdown *)

(** C4 (as amended): a timer at rest ([Stopped], remaining time equal to
    its duration [D > 0], tick [T > 0]) that is started and then only resumed
    by the scheduler, and for which each of the subtractions
    [D - T], [D - T - T], ... of the countdown is exact in double
    arithmetic, stays [Running] and publishes no completion during the first
    [ceil(D/T) - 1] resumptions; at resumption number [ceil(D/T)] it sets
    [Completed].  By then the loop has suspended exactly [ceil(D/T)] times,
    [onTick] has been fired exactly [ceil(D/T) + 1] times with the payloads
    [D, D-T, D-2T, ...] down to the terminal one, and [completed] has been
    fired exactly once.  ([uD] and [uT] are the exact values of [D] and [T]
    in units of [2^-1074], so [ceil_div uD uT] is [ceil(D/T)].) *)
Theorem C4_countdown (w : World) (r : ref) (t : TimerInstance) (uD uT : Z) :
  heap w !! r = Some t ->
  Status t = Stopped ->
  RemainingTime t = Duration t ->
  num_units (Duration t) = Some uD ->
  num_units (Tick t) = Some uT ->
  (0 < uD)%Z ->
  (0 < uT)%Z ->
  let D := Duration t in
  let T := Tick t in
  let th := length (pool w) in
  let N := Z.to_nat (ceil_div uD uT) in
  (forall k, k < N -> exact_sub (remaining D T k) T = true) ->
  (forall k, k < N ->
     (exists tk, heap (wakes k th (Start r w)) !! r = Some tk /\ Status tk = Running) /\
     pool (wakes k th (Start r w)) !! th = Some (mkCo r InWait) /\
     count_fires r ch_completed (added w (wakes k th (Start r w))) = 0 /\
     ~ In (SetStatus r Completed) (added w (wakes k th (Start r w)))) /\
  In (SetStatus r Completed) (added w (wakes N th (Start r w))) /\
  count_waits th (added w (wakes N th (Start r w))) = N /\
  ticks_of r (added w (wakes N th (Start r w))) = map (remaining D T) (seq 0 (S N)) /\
  (forall i, i <= N -> num_units (remaining D T i) = Some (uD - Z.of_nat i * uT)%Z) /\
  count_fires r ch_onTick (added w (wakes N th (Start r w))) = S N /\
  count_fires r ch_completed (added w (wakes N th (Start r w))) = 1.
Proof.
  intros Hh Hs HR HuD HuT HD0 HT0 D T th N Hex.
  destruct (exact_runs_out D T uD uT HuD HuT HD0 HT0 Hex) as [Hrun HN]. fold N in Hrun, HN.
  pose proof (exact_remaining D T uD uT N HuD HuT Hex) as Hunits.
  destruct N as [|n] eqn:EN; [lia|].
  destruct (Start_runs_out r w t n Hh) as [Hloop Hfin];
    [by rewrite Hs | by rewrite HR |].
  rewrite HR in Hloop, Hfin. fold D T th in Hloop, Hfin.
  split.
  { intros k Hk. destruct (Hloop k ltac:(lia)) as (H1 & H2 & H3).
    rewrite H3. split; [by eexists|]. split; [done|]. split.
    - count_simpl. fold (count_fires r ch_completed (loop_effects th r T D k)).
      rewrite count_loop_effects_completed. lia.
    - intros Hin. apply in_app_or in Hin as [Hin|Hin].
      + cbn in Hin. repeat (destruct Hin as [Hin|Hin]; [discriminate Hin|]). exact Hin.
      + by apply loop_effects_no_status in Hin. }
  rewrite Hfin.
  change (?a :: ?b :: ?c :: ?e :: ?l) with ([a; b; c; e] ++ l).
  split; [|split; [|split; [|split; [exact Hunits|split]]]].
  - apply in_or_app. right. apply in_or_app. right. cbn. tauto.
  - unfold count_waits. rewrite count_app.
    fold (count_waits th (loop_effects th r T D n ++ final_effects r T (remaining D T n)
            ++ (if AutoDestroy t then destroy_effects r (Name t) (Some th) else []))).
    rewrite count_waits_run_out. count_simpl. done.
  - rewrite ticks_of_app. cbn [ticks_of app].
    apply ticks_of_run_out, ticks_of_destroy_part.
  - unfold count_fires. rewrite count_app.
    fold (count_fires r ch_onTick (loop_effects th r T D n
            ++ final_effects r T (remaining D T n)
            ++ (if AutoDestroy t then destroy_effects r (Name t) (Some th) else []))).
    rewrite count_ticks_run_out. count_simpl. done.
  - unfold count_fires. rewrite count_app.
    fold (count_fires r ch_completed (loop_effects th r T D n
            ++ final_effects r T (remaining D T n)
            ++ (if AutoDestroy t then destroy_effects r (Name t) (Some th) else []))).
    rewrite count_completed_run_out. count_simpl. done.
Qed.

Lemma C4_countdown_witness :
  let w := world_T5 in
  heap w !! 0 = Some timer_T5 /\
  ceil_div (5 * 2 ^ 1074) (2 * 2 ^ 1074) = 3%Z /\
  (forall k, k < 3 -> exact_sub (remaining (num 5) (num 2) k) (num 2) = true) /\
  ticks_of 0 (added w (wakes 3 0 (Start 0 w))) = [num 5; num 3; num 1; num (-1)] /\
  count_waits 0 (added w (wakes 3 0 (Start 0 w))) = 3 /\
  count_fires 0 ch_completed (added w (wakes 3 0 (Start 0 w))) = 1.
Proof.
  intros w.
  assert (Hex : forall k, k < 3 -> exact_sub (remaining (num 5) (num 2) k) (num 2) = true).
  { intros k Hk. destruct k as [|[|[|k]]]; [vm_compute; reflexivity..|lia]. }
  split; [reflexivity|]. split; [vm_compute; reflexivity|]. split; [exact Hex|].
  pose proof (C4_countdown w 0 timer_T5 (5 * 2 ^ 1074) (2 * 2 ^ 1074)) as H.
  destruct H as (_ & _ & Hw & Ht & _ & _ & Hc);
    [ reflexivity | reflexivity | reflexivity | vm_compute; reflexivity
    | vm_compute; reflexivity | lia | lia | exact Hex |].
  split; [exact Ht|]. split; [exact Hw | exact Hc].
Defined.

(** C4 as stated fails for [D = 1], [T = 0.1]: [ceil(D/T)] is 10, but the
    ten rounded subtractions leave a positive remainder, so after ten
    resumptions the timer is still [Running] and its loop waits again; the
    eleventh resumption completes it, after 11 suspensions and 12 [onTick]
    events. *)
Lemma C4_counterexample :
  let tenth := num_div (num 1) (num 10) in
  let w := after_create (mkData "T" (num 1) (Some tenth) None) (init true) in
  heap w !! 0 = Some (mkTimer "T" (num 1) tenth (num 1) true Stopped Live Live Live None) /\
  (exists uD uT, num_units (num 1) = Some uD /\ num_units tenth = Some uT /\
                 (0 < uD)%Z /\ (0 < uT)%Z /\ ceil_div uD uT = 10%Z) /\
  num_gt (remaining (num 1) tenth 10) (num 0) = true /\
  exact_sub (num 1) tenth = false /\
  pool (wakes 10 0 (Start 0 w)) !! 0 = Some (mkCo 0 InWait) /\
  count_fires 0 ch_completed (added w (wakes 10 0 (Start 0 w))) = 0 /\
  count_waits 0 (added w (wakes 11 0 (Start 0 w))) = 11 /\
  count_fires 0 ch_onTick (added w (wakes 11 0 (Start 0 w))) = 12 /\
  count_fires 0 ch_completed (added w (wakes 11 0 (Start 0 w))) = 1.
Proof.
  intros tenth w. split; [reflexivity|]. split.
  - eexists _, _. split; [reflexivity|]. split; [reflexivity|]. vm_compute. done.
  - vm_compute. repeat split; reflexivity.
Qed.

(** ** Completion *)

(** The same exit when the loop never iterates: [Start] with no time left. *)
Lemma Start_exhausted r w t :
  heap w !! r = Some t ->
  Status t <> Running ->
  num_le (RemainingTime t) (num 0) = true ->
  added w (Start r w) =
    [SetStatus r Running; Spawn (length (pool w)) r;
     SetStatus r Completed; Fire r ch_completed None; Fire r ch_statusChanged None;
     Fire r ch_onTick (Some (RemainingTime t))]
    ++ (if AutoDestroy t then destroy_effects r (Name t) (timerThread t) else [])
    ++ [Fire r ch_statusChanged None].
Proof.
  intros Hh Hs Hx. apply added_app.
  destruct (Start_body r w t Hh Hs) as (w1 & -> & Hh1 & Hp1 & _ & _ & Ht1 & _).
  unfold run_test. rewrite Hh1. cbn [RemainingTime Status with_Status].
  rewrite (num_le_gt _ Hx). cbn [andb].
  destruct (run_exit_spec _ r w1 _ _ Hp1 Hh1 eq_refl Hx) as (H1 & _ & _).
  unfold setTimerThread, fire. cbn [trace emit with_trace]. rewrite trace_modify.
  rewrite H1, Ht1. cbn [Name AutoDestroy timerThread with_Status RemainingTime].
  by rewrite <- !app_assoc.
Qed.

(** C5: when a resumption of the tick loop uses up the remaining time while
    the timer is still [Running], the loop fires its regular [onTick], sets
    [Completed], then fires [completed], [statusChanged] and a last [onTick]
    whose payload is the remaining time as it is (zero or negative, not
    clamped), in this order; the effects of [Destroy] follow only after that,
    and only when [AutoDestroy] is set. *)
Theorem C5_completion_order (w : World) (th : thread) (r : ref) (t : TimerInstance) :
  pool w !! th = Some (mkCo r InWait) ->
  heap w !! r = Some t ->
  Status t = Running ->
  num_le (num_sub (RemainingTime t) (Tick t)) (num 0) = true ->
  added w (wake th w) =
    [Fire r ch_onTick (Some (RemainingTime t));
     SetStatus r Completed;
     Fire r ch_completed None;
     Fire r ch_statusChanged None;
     Fire r ch_onTick (Some (num_sub (RemainingTime t) (Tick t)))]
    ++ (if AutoDestroy t then destroy_effects r (Name t) (timerThread t) else []).
Proof.
  intros Hp Hh Hs Hx. apply added_app.
  by destruct (wake_finish th r w t Hp Hh Hs Hx) as (-> & _).
Qed.

Lemma C5_completion_order_witness :
  let w := wakes 2 0 (Start 0 world_T5) in
  let t := mkTimer "T5" (num 5) (num 2) (num 1) true Running Live Live Live (Some 0) in
  pool w !! 0 = Some (mkCo 0 InWait) /\
  heap w !! 0 = Some t /\
  num_le (num_sub (num 1) (num 2)) (num 0) = true /\
  num_sub (num 1) (num 2) = num (-1) /\
  added w (wake 0 w) =
    [Fire 0 ch_onTick (Some (num 1)); SetStatus 0 Completed; Fire 0 ch_completed None;
     Fire 0 ch_statusChanged None; Fire 0 ch_onTick (Some (num_sub (num 1) (num 2)));
     SetStatus 0 Stopped; DestroyEvent 0 ch_completed; DestroyEvent 0 ch_statusChanged;
     Yield 0].
Proof.
  intros w t.
  split; [reflexivity|]. split; [vm_compute; reflexivity|]. split; [reflexivity|].
  split; [reflexivity|].
  apply (C5_completion_order w 0 0 t);
    [reflexivity | vm_compute; reflexivity | reflexivity | reflexivity].
Defined.

(** ** Stop *)

(** C6: on a timer whose status is not [Stopped], [Stop] sets [Stopped],
    resets [RemainingTime] to [Duration] whatever the progress was, and fires
    [statusChanged]; on a [Stopped] timer it changes nothing and fires
    nothing. *)
Theorem C6_Stop (w : World) (r : ref) (t : TimerInstance) :
  heap w !! r = Some t ->
  (Status t <> Stopped ->
     heap (Stop r w) !! r =
       Some (mkTimer (Name t) (Duration t) (Tick t) (Duration t) (AutoDestroy t) Stopped
                     (completed t) (statusChanged t) (onTick t) None)
     /\ added w (Stop r w) =
          SetStatus r Stopped :: Fire r ch_statusChanged None ::
          match timerThread t with Some th => [Cancel th] | None => [] end)
  /\ (Status t = Stopped -> Stop r w = w).
Proof.
  intros Hh. split.
  - intros Hs. unfold Stop. rewrite Hh. rewrite bool_decide_eq_false_2 by done.
    set (w1 := fire r ch_statusChanged None _).
    assert (Hh1 : heap w1 !! r =
                  Some (with_RemainingTime (Duration t) (with_Status Stopped t)))
      by (subst w1; eval_world Hh Hh; done).
    assert (Ht1 : trace w1 = trace w ++ [SetStatus r Stopped; Fire r ch_statusChanged None])
      by (subst w1; eval_world Hh Hh; by rewrite <- !app_assoc).
    clearbody w1.
    destruct (timerThread t) as [th|] eqn:Hth.
    + unfold setTimerThread. split.
      * erewrite lookup_modify_eq by (rewrite heap_task_cancel; exact Hh1). done.
      * apply added_app. rewrite trace_modify, trace_task_cancel, Ht1, <- app_assoc. done.
    + split.
      * rewrite Hh1. unfold with_RemainingTime, with_Status. cbn. by rewrite Hth.
      * apply added_app. by rewrite Ht1.
  - intros Hs. unfold Stop. rewrite Hh. by rewrite bool_decide_eq_true_2.
Qed.

Lemma C6_Stop_witness :
  let w := wakes 1 0 world_T1_started in
  heap w !! 0 =
    Some (mkTimer "T1" (num 3) (num 1) (num 2) true Running Live Live Live (Some 0)) /\
  (heap (Stop 0 w) !! 0 =
     Some (mkTimer "T1" (num 3) (num 1) (num 3) true Stopped Live Live Live None) /\
   added w (Stop 0 w) = [SetStatus 0 Stopped; Fire 0 ch_statusChanged None; Cancel 0]) /\
  heap world_T1 !! 0 = Some timer_T1 /\
  Stop 0 world_T1 = world_T1.
Proof.
  intros w. split; [vm_compute; reflexivity|]. split.
  - apply (C6_Stop w 0
             (mkTimer "T1" (num 3) (num 1) (num 2) true Running Live Live Live (Some 0)));
      [vm_compute; reflexivity | cbn; discriminate].
  - split; [reflexivity|].
    apply (C6_Stop world_T1 0 timer_T1); reflexivity.
Defined.

(** ** Creation and the registry *)

Lemma CreateTimer_server d w :
  IsServer w = true ->
  exists w', CreateTimer d w = inr (length (heap w), w')
    /\ heap w' = heap w ++ [mkTimer (data_Name d) (data_Duration d)
                                    (or_number (data_Tick d) (num 1)) (data_Duration d)
                                    true Stopped Live Live Live None]
    /\ Timers w' = <[data_Name d := length (heap w)]> (Timers w)
    /\ pool w' = pool w /\ trace w' = trace w /\ IsServer w' = true.
Proof.
  intros Hs. unfold CreateTimer. rewrite Hs. cbn. eexists. split; [done|].
  cbn. repeat split; try done. by destruct (data_AutoDestroy d) as [[]|].
Qed.

(** Whatever [AutoDestroy] the caller passes, the stored flag is [true]. *)
Lemma or_boolean_true a : or_boolean a true = true.
Proof. by destruct a as [[]|]. Qed.

(** C8: two successive [CreateTimer] calls with the same name both succeed
    on the server; afterwards the name leads to the second timer and no name
    leads to the first, which still exists as an object. *)
Theorem C8_last_write_wins (w : World) (d1 d2 : timerData) :
  wf w ->
  IsServer w = true ->
  data_Name d1 = data_Name d2 ->
  exists r1 w1 r2 w2,
    CreateTimer d1 w = inr (r1, w1) /\
    CreateTimer d2 w1 = inr (r2, w2) /\
    r1 <> r2 /\
    lookup_timer (data_Name d1) w1 = Some r1 /\
    lookup_timer (data_Name d2) w2 = Some r2 /\
    unreachable r1 w2 /\
    (exists t1, heap w2 !! r1 = Some t1 /\ Name t1 = data_Name d1) /\
    trace w2 = trace w.
Proof.
  intros [Hr Hp] Hs Hn.
  destruct (CreateTimer_server d1 w Hs) as (w1 & E1 & Hh1 & HT1 & Hp1 & Ht1 & Hs1).
  destruct (CreateTimer_server d2 w1 Hs1) as (w2 & E2 & Hh2 & HT2 & Hp2 & Ht2 & Hs2).
  exists (length (heap w)), w1, (length (heap w1)), w2.
  assert (Hlen : length (heap w1) = S (length (heap w))).
  { rewrite Hh1, length_app. cbn. lia. }
  repeat split; try done.
  - lia.
  - unfold lookup_timer. rewrite HT1. apply lookup_insert_eq.
  - unfold lookup_timer. rewrite HT2. apply lookup_insert_eq.
  - intros n. unfold lookup_timer. rewrite HT2, HT1, <- Hn.
    destruct (decide (data_Name d1 = n)) as [<-|Hne].
    + rewrite lookup_insert_eq. intros [= ?]. lia.
    + rewrite !lookup_insert_ne by done. intros Hl.
      destruct (Hr n _ Hl) as (t & Ht & _). apply lookup_lt_Some in Ht. lia.
  - eexists. split.
    + rewrite Hh2, Hh1. rewrite lookup_app_l by (rewrite length_app; cbn; lia).
      apply list_lookup_middle. done.
    + done.
  - by rewrite Ht2.
Qed.

Lemma C8_last_write_wins_witness :
  wf world_T1 /\ IsServer world_T1 = true /\ data_Name T1 = data_Name T1 /\
  exists r1 w1 r2 w2,
    CreateTimer T1 world_T1 = inr (r1, w1) /\
    CreateTimer T1 w1 = inr (r2, w2) /\
    r1 <> r2 /\
    lookup_timer "T1" w1 = Some r1 /\
    lookup_timer "T1" w2 = Some r2 /\
    unreachable r1 w2 /\
    (exists t1, heap w2 !! r1 = Some t1 /\ Name t1 = "T1") /\
    trace w2 = trace world_T1.
Proof.
  assert (Hwf : wf world_T1) by (apply (wf_steps [CallCreateTimer T1]), wf_init).
  split; [exact Hwf|]. split; [reflexivity|]. split; [reflexivity|].
  apply (C8_last_write_wins world_T1 T1 T1 Hwf); reflexivity.
Defined.

(** C9: outside the server [CreateTimer] raises its error and has changed
    nothing: the registry, the heap and everything else are as before. *)
Theorem C9_create_off_server (w : World) (d : timerData) :
  IsServer w = false ->
  CreateTimer d w = inl "Timers have to be created on the server" /\
  step (CallCreateTimer d) w = w /\
  Timers (step (CallCreateTimer d) w) = Timers w /\
  heap (step (CallCreateTimer d) w) = heap w.
Proof.
  intros Hs. unfold step, CreateTimer. rewrite Hs. cbn. done.
Qed.

Lemma C9_create_off_server_witness :
  IsServer (init false) = false /\
  CreateTimer T1 (init false) = inl "Timers have to be created on the server" /\
  lookup_timer "T1" (step (CallCreateTimer T1) (init false)) = None.
Proof.
  split; [reflexivity|].
  destruct (C9_create_off_server (init false) T1) as (H1 & H2 & _); [reflexivity|].
  split; [exact H1|]. rewrite H2. reflexivity.
Defined.

(** ** AutoDestroy *)

Lemma CreateTimer_AutoDestroy d w r w' :
  CreateTimer d w = inr (r, w') ->
  exists t, heap w' !! r = Some t /\ AutoDestroy t = true.
Proof.
  unfold CreateTimer. destruct (IsServer w); cbn; [|done]. intros [= <- <-].
  eexists. split; [cbn; by apply list_lookup_middle|]. cbn. apply or_boolean_true.
Qed.

(** C1: evaluation of the T1 scenario.  [AutoDestroy: false] is stored as
    [true]; at the third resumption the loop sets [Completed] and goes on
    into [Destroy], which sets [Stopped] and destroys [completed] and
    [statusChanged].  ([Destroy] then suspends at [coroutine.yield], so the
    registry entry is still there.) *)
Theorem C1_autoDestroy_false_runs_Destroy :
  heap world_T1 !! 0 = Some timer_T1 /\
  AutoDestroy timer_T1 = true /\
  added world_T1 (wakes 3 0 world_T1_started) =
    [ SetStatus 0 Running; Spawn 0 0; Wait 0 (num 1); Fire 0 ch_statusChanged None;
      Fire 0 ch_onTick (Some (num 3)); Wait 0 (num 1);
      Fire 0 ch_onTick (Some (num 2)); Wait 0 (num 1);
      Fire 0 ch_onTick (Some (num 1));
      SetStatus 0 Completed; Fire 0 ch_completed None; Fire 0 ch_statusChanged None;
      Fire 0 ch_onTick (Some (num 0)) ]
    ++ destroy_effects 0 "T1" (Some 0) /\
  heap (wakes 3 0 world_T1_started) !! 0 =
    Some (mkTimer "T1" (num 3) (num 1) (num 0) true Stopped Destroyed Destroyed Live
                  (Some 0)) /\
  pool (wakes 3 0 world_T1_started) !! 0 = Some (mkCo 0 InYield) /\
  lookup_timer "T1" (wakes 3 0 world_T1_started) = Some 0.
Proof. vm_compute. repeat split; reflexivity. Qed.

(** ** Destroy *)

(** [Destroy] never touches [onTick]. *)
Lemma Destroy_keeps_onTick r w t :
  heap w !! r = Some t ->
  exists t', heap (Destroy r w).1 !! r = Some t' /\ onTick t' = onTick t /\
             completed t' = Destroyed /\ statusChanged t' = Destroyed /\
             Status t' = Stopped.
Proof.
  intros Hh. destruct (Destroy_spec r w t Hh) as (_ & _ & H & _).
  eexists. split; [exact H|]. done.
Qed.

(** C2: evaluation of [Destroy] on T1.  Before any [Start], [Destroy]
    returns and unregisters the timer, but [onTick] is still live, and a
    [Start] after it spawns a loop that fires [onTick].  After [Start],
    [Destroy] suspends its caller at [coroutine.yield]: no [task.cancel], no
    [Timers.delete], the loop is still waiting and fires [onTick] at its next
    resumption. *)
Theorem C2_Destroy_on_T1 :
  (Destroy 0 world_T1).2 = Returned /\
  lookup_timer "T1" (Destroy 0 world_T1).1 = None /\
  heap (Destroy 0 world_T1).1 !! 0 =
    Some (mkTimer "T1" (num 3) (num 1) (num 3) true Stopped Destroyed Destroyed Live None) /\
  added (Destroy 0 world_T1).1 (wake 0 (Start 0 (Destroy 0 world_T1).1)) =
    [ SetStatus 0 Running; Spawn 0 0; Wait 0 (num 1); Fire 0 ch_statusChanged None;
      Fire 0 ch_onTick (Some (num 3)); Wait 0 (num 1) ] /\
  (Destroy 0 world_T1_started).2 = Suspended /\
  added world_T1_started (Destroy 0 world_T1_started).1 =
    [ SetStatus 0 Stopped; DestroyEvent 0 ch_completed; DestroyEvent 0 ch_statusChanged;
      Yield 0 ] /\
  lookup_timer "T1" (Destroy 0 world_T1_started).1 = Some 0 /\
  pool (Destroy 0 world_T1_started).1 !! 0 = Some (mkCo 0 InWait) /\
  heap (Destroy 0 world_T1_started).1 !! 0 =
    Some (mkTimer "T1" (num 3) (num 1) (num 3) true Stopped Destroyed Destroyed Live
                  (Some 0)) /\
  added (Destroy 0 world_T1_started).1 (wake 0 (Destroy 0 world_T1_started).1) =
    [ Fire 0 ch_onTick (Some (num 3)) ].
Proof. vm_compute. repeat split; reflexivity. Qed.

(** ** Leaving Running *)

Lemma Pause_running r w t th :
  heap w !! r = Some t ->
  Status t = Running ->
  timerThread t = Some th ->
  pool w !! th = Some (mkCo r InWait) ->
  trace (Pause r w) = trace w ++ [SetStatus r Paused; Fire r ch_statusChanged None; Cancel th]
  /\ pool (Pause r w) !! th = Some (mkCo r Cancelled)
  /\ heap (Pause r w) !! r = Some (with_timerThread None (with_Status Paused t)).
Proof.
  intros Hh Hs Hth Hp. unfold Pause. rewrite Hh, Hth.
  rewrite bool_decide_eq_false_2 by (intros H; by apply H).
  set (w1 := fire r ch_statusChanged None _).
  assert (Hh1 : heap w1 !! r = Some (with_Status Paused t))
    by (subst w1; eval_world Hh Hp; done).
  assert (Hp1 : pool w1 !! th = Some (mkCo r InWait))
    by (subst w1; eval_world Hh Hp; done).
  assert (Ht1 : trace w1 = trace w ++ [SetStatus r Paused; Fire r ch_statusChanged None])
    by (subst w1; eval_world Hh Hp; by rewrite <- !app_assoc).
  clearbody w1. unfold setTimerThread.
  rewrite trace_modify, pool_modify, trace_task_cancel, Ht1, <- app_assoc.
  split; [done|]. split; [by apply task_cancel_InWait|].
  erewrite lookup_modify_eq by (rewrite heap_task_cancel; exact Hh1). done.
Qed.

Lemma Stop_running r w t th :
  heap w !! r = Some t ->
  Status t = Running ->
  timerThread t = Some th ->
  pool w !! th = Some (mkCo r InWait) ->
  trace (Stop r w) = trace w ++ [SetStatus r Stopped; Fire r ch_statusChanged None; Cancel th]
  /\ pool (Stop r w) !! th = Some (mkCo r Cancelled).
Proof.
  intros Hh Hs Hth Hp. unfold Stop. rewrite Hh, Hth.
  rewrite bool_decide_eq_false_2 by (rewrite Hs; discriminate).
  set (w1 := fire r ch_statusChanged None _).
  assert (Hp1 : pool w1 !! th = Some (mkCo r InWait))
    by (subst w1; eval_world Hh Hp; done).
  assert (Ht1 : trace w1 = trace w ++ [SetStatus r Stopped; Fire r ch_statusChanged None])
    by (subst w1; eval_world Hh Hp; by rewrite <- !app_assoc).
  clearbody w1. unfold setTimerThread.
  rewrite trace_modify, pool_modify, trace_task_cancel, Ht1, <- app_assoc.
  split; [done|]. by apply task_cancel_InWait.
Qed.

(** C3 (as amended): on a [Running] timer whose loop is waiting, [Pause] and
    [Stop] set the new status, fire [statusChanged] and then cancel the loop,
    all before they return; from then on the loop is closed, so whatever is
    called later, resuming it does nothing: it fires no [onTick] and no
    [completed] any more. *)
Theorem C3_Pause_Stop_cancel (w : World) (r : ref) (t : TimerInstance) (th : thread) :
  heap w !! r = Some t ->
  Status t = Running ->
  timerThread t = Some th ->
  pool w !! th = Some (mkCo r InWait) ->
  added w (Pause r w) = [SetStatus r Paused; Fire r ch_statusChanged None; Cancel th] /\
  added w (Stop r w) = [SetStatus r Stopped; Fire r ch_statusChanged None; Cancel th] /\
  (forall cs, closed th (steps cs (Pause r w)) /\
              wake th (steps cs (Pause r w)) = steps cs (Pause r w)) /\
  (forall cs, closed th (steps cs (Stop r w)) /\
              wake th (steps cs (Stop r w)) = steps cs (Stop r w)).
Proof.
  intros Hh Hs Hth Hp.
  destruct (Pause_running r w t th Hh Hs Hth Hp) as (HtP & HpP & _).
  destruct (Stop_running r w t th Hh Hs Hth Hp) as (HtS & HpS).
  split; [by apply added_app|]. split; [by apply added_app|].
  split; intros cs.
  - assert (Hc : closed th (steps cs (Pause r w))) by (apply closed_steps; by exists r).
    split; [done|]. by apply closed_wake_noop.
  - assert (Hc : closed th (steps cs (Stop r w))) by (apply closed_steps; by exists r).
    split; [done|]. by apply closed_wake_noop.
Qed.

Lemma C3_Pause_Stop_cancel_witness :
  heap world_T1_started !! 0 =
    Some (mkTimer "T1" (num 3) (num 1) (num 3) true Running Live Live Live (Some 0)) /\
  pool world_T1_started !! 0 = Some (mkCo 0 InWait) /\
  added world_T1_started (Pause 0 world_T1_started) =
    [SetStatus 0 Paused; Fire 0 ch_statusChanged None; Cancel 0] /\
  wake 0 (steps [CallResume 0; Wake 1] (Pause 0 world_T1_started)) =
    steps [CallResume 0; Wake 1] (Pause 0 world_T1_started).
Proof.
  split; [reflexivity|]. split; [reflexivity|].
  destruct (C3_Pause_Stop_cancel world_T1_started 0
              (mkTimer "T1" (num 3) (num 1) (num 3) true Running Live Live Live (Some 0)) 0)
    as (H1 & _ & H3 & _); [reflexivity | reflexivity | reflexivity | reflexivity |].
  split; [exact H1|]. apply (H3 [CallResume 0; Wake 1]).
Defined.

(** C3 as stated fails.  On T1 started, [Pause] and [Stop] fire
    [statusChanged] before [task.cancel], not after; and [Destroy] executes
    no [task.cancel] at all: the loop is still waiting afterwards and fires
    [onTick] when resumed. *)
Lemma C3_counterexample :
  added world_T1_started (Pause 0 world_T1_started) =
    [SetStatus 0 Paused; Fire 0 ch_statusChanged None; Cancel 0] /\
  precedes (Cancel 0) (Fire 0 ch_statusChanged None)
           (added world_T1_started (Pause 0 world_T1_started)) = false /\
  precedes (Cancel 0) (Fire 0 ch_statusChanged None)
           (added world_T1_started (Stop 0 world_T1_started)) = false /\
  ~ In (Cancel 0) (added world_T1_started (Destroy 0 world_T1_started).1) /\
  pool (Destroy 0 world_T1_started).1 !! 0 = Some (mkCo 0 InWait) /\
  added (Destroy 0 world_T1_started).1 (wake 0 (Destroy 0 world_T1_started).1) =
    [Fire 0 ch_onTick (Some (num 3))].
Proof.
  vm_compute. repeat split; try reflexivity.
  intros H. repeat (destruct H as [H|H]; [discriminate H|]). exact H.
Qed.

(** ** Lifetime of a registry entry *)

(** Once [Destroy] has returned, no name leads to the timer. *)
Lemma Destroy_returned_gone r w w' :
  wf w ->
  r < length (heap w) ->
  Destroy r w = (w', Returned) ->
  gone r w'.
Proof.
  intros [Hr _] Hlt. unfold Destroy.
  destruct (heap w !! r) as [t|] eqn:Hh; [|apply lookup_ge_None in Hh; lia].
  destruct (timerThread t); [done|]. intros [= <-].
  split; wsimpl; [done|].
  intros n. unfold unreachable. wsimpl.
  destruct (decide (Name t = n)) as [<-|Hne]; [by rewrite lookup_delete_eq|].
  rewrite lookup_delete_ne by done. intros Hl.
  destruct (Hr n r Hl) as (t' & Ht' & HN). congruence.
Qed.

(** C7 (as amended): when [CreateTimer] returns, the name leads to the new
    timer, and through any later calls and resumptions among which no
    [CreateTimer] uses the same name it keeps doing so, unless a [Destroy]
    of a timer carrying that name has since executed its
    [statusChanged.Destroy()] and gone on to [Timers.delete] of the name:
    nothing else removes the entry.  Once a [Destroy] of the timer has
    returned, no name leads to it, whatever is created, destroyed or run
    afterwards. *)
Theorem C7_registry_lifetime (w : World) (d : timerData) (r : ref) (w1 : World) :
  wf w ->
  CreateTimer d w = inr (r, w1) ->
  lookup_timer (data_Name d) w1 = Some r /\
  (forall cs,
     forallb (fun c => negb (is_create_named (data_Name d) c)) cs = true ->
     lookup_timer (data_Name d) (steps cs w1) = Some r \/
     unregistered_by_Destroy (data_Name d) w1 (steps cs w1)) /\
  (forall cs w3,
     Destroy r (steps cs w1) = (w3, Returned) ->
     forall cs' n, lookup_timer n (steps cs' w3) <> Some r).
Proof.
  intros Hwf Hc.
  assert (Hwf1 : wf w1) by (by eapply wf_create).
  assert (Hl : lookup_timer (data_Name d) w1 = Some r /\ r < length (heap w1)).
  { unfold CreateTimer in Hc. destruct (IsServer w); cbn in Hc; [|done].
    injection Hc as <- <-. unfold lookup_timer. cbn.
    rewrite lookup_insert_eq, length_app. cbn. split; [done|lia]. }
  destruct Hl as [Hl Hlt]. split; [done|]. split.
  - intros cs Hcs.
    by destruct (kept_steps (data_Name d) r w1 cs w1 Hcs (kept_refl _ _ _ Hl)) as [_ Hk].
  - intros cs w3 HD cs' n.
    assert (Hg : gone r w3).
    { eapply Destroy_returned_gone; [by apply wf_steps| |exact HD].
      pose proof (length_heap_steps cs w1). lia. }
    by destruct (gone_steps r cs' w3 Hg) as [_ Hu].
Qed.

Lemma C7_registry_lifetime_witness :
  let cs := [CallCreateTimer T5; CallStart 0; Wake 0; CallPause 0; CallDestroy 1] in
  wf (init true) /\
  CreateTimer T1 (init true) = inr (0, world_T1) /\
  (lookup_timer "T1" (steps cs world_T1) = Some 0 \/
   unregistered_by_Destroy "T1" world_T1 (steps cs world_T1)) /\
  lookup_timer "T1" (steps cs world_T1) = Some 0 /\
  lookup_timer "T5" (steps cs world_T1) = None /\
  lookup_timer "T1" (steps [CallCreateTimer T1; CallStart 0]
                           (Destroy 0 (steps [CallCreateTimer T5] world_T1)).1) <> Some 0.
Proof.
  intros cs. split; [apply wf_init|]. split; [reflexivity|].
  destruct (C7_registry_lifetime (init true) T1 0 world_T1 (wf_init true)) as (_ & H2 & H3);
    [reflexivity|].
  split; [apply (H2 cs); reflexivity|]. split; [reflexivity|]. split; [reflexivity|].
  apply (H3 [CallCreateTimer T5] (Destroy 0 (steps [CallCreateTimer T5] world_T1)).1).
  reflexivity.
Defined.

(** C7 as stated fails: after a second [CreateTimer] with the same name the
    first timer, never destroyed, is no longer reachable by its name; and a
    [Destroy] of that first timer then deletes the entry of the second one,
    which was never destroyed either. *)
Lemma C7_counterexample :
  lookup_timer "T1" (steps [CallCreateTimer T1; CallCreateTimer T1] (init true)) = Some 1 /\
  heap (steps [CallCreateTimer T1; CallCreateTimer T1] (init true)) !! 0 = Some timer_T1 /\
  trace (steps [CallCreateTimer T1; CallCreateTimer T1] (init true)) = [] /\
  lookup_timer "T1"
    (steps [CallCreateTimer T1; CallCreateTimer T1; CallDestroy 0] (init true)) = None /\
  heap (steps [CallCreateTimer T1; CallCreateTimer T1; CallDestroy 0] (init true)) !! 1
    = Some timer_T1.
Proof. vm_compute. repeat split; reflexivity. Qed.

(** ** Copy *)

(** C10 (as amended): the copy of a [Running] timer is a new object that is
    [Running], holds no thread, is not in the registry and has no tick loop.
    [Start] on it returns at once without any effect, and as long as neither
    [Pause], [Stop] nor [Destroy] is applied to the copy, nothing that is
    called or resumed makes it fire [onTick]. *)
Theorem C10_copy_of_running (w : World) (r : ref) (t : TimerInstance) :
  wf w ->
  heap w !! r = Some t ->
  Status t = Running ->
  exists c w',
    Copy r w = Some (c, w') /\
    heap w' !! c =
      Some (mkTimer (Name t +:+ "_copy") (Duration t) (Tick t) (RemainingTime t)
                    (AutoDestroy t) Running Live Live Live None) /\
    heap w !! c = None /\
    Timers w' = Timers w /\
    unreachable c w' /\
    no_loop c w' /\
    Start c w' = w' /\
    (forall cs,
       forallb (fun call => negb (leaves_running c call)) cs = true ->
       count_fires c ch_onTick (trace (steps cs w')) = count_fires c ch_onTick (trace w')).
Proof.
  intros [Hr Hp] Hh Hs. unfold Copy. rewrite Hh.
  eexists _, _. split; [reflexivity|].
  set (X := mkTimer _ _ _ _ _ _ _ _ _ _).
  assert (HX : (heap w ++ [X]) !! length (heap w) = Some X) by (by apply list_lookup_middle).
  assert (Hn : no_loop (length (heap w)) (with_heap (heap w ++ [X]) w)).
  { unfold no_loop. cbn. eapply Forall_impl; [exact Hp|]. cbn. intros co Hco. lia. }
  cbn [heap with_heap Timers].
  split; [by rewrite HX; subst X; rewrite Hs|].
  split; [by apply lookup_ge_None|].
  split; [done|]. split.
  { intros n Hl. unfold lookup_timer in Hl. cbn in Hl.
    destruct (Hr n _ Hl) as (t' & Ht' & _). apply lookup_lt_Some in Ht'. lia. }
  split; [done|]. split.
  { unfold Start. cbn [heap with_heap]. rewrite HX.
    rewrite bool_decide_eq_true_2; [done|]. subst X. by cbn. }
  intros cs Hcs.
  assert (Hi : idle (length (heap w)) X ch_onTick
                    (count_fires (length (heap w)) ch_onTick (trace w))
                    (with_heap (heap w ++ [X]) w)).
  { by repeat split. }
  assert (HXs : Status X = Running) by (subst X; by cbn).
  by destruct (idle_steps _ X _ _ cs _ HXs Hcs Hi) as (_ & Hk & _).
Qed.

Lemma C10_copy_of_running_witness :
  wf world_T1_started /\
  heap world_T1_started !! 0 =
    Some (mkTimer "T1" (num 3) (num 1) (num 3) true Running Live Live Live (Some 0)) /\
  exists c w',
    Copy 0 world_T1_started = Some (c, w') /\
    heap w' !! c = Some (mkTimer "T1_copy" (num 3) (num 1) (num 3) true Running Live Live Live None) /\
    Start c w' = w' /\
    count_fires c ch_onTick (trace (steps [CallStart c; CallResume c; Wake 0; Wake 0] w')) =
      count_fires c ch_onTick (trace w').
Proof.
  assert (Hwf : wf world_T1_started)
    by (apply (wf_steps [CallCreateTimer T1; CallStart 0]), wf_init).
  split; [exact Hwf|]. split; [reflexivity|].
  destruct (C10_copy_of_running world_T1_started 0
              (mkTimer "T1" (num 3) (num 1) (num 3) true Running Live Live Live (Some 0)) Hwf)
    as (c & w' & HC & HX & _ & _ & _ & _ & HS & Hq); [reflexivity | reflexivity |].
  exists c, w'. split; [exact HC|]. split; [exact HX|]. split; [exact HS|].
  apply (Hq [CallStart c; CallResume c; Wake 0; Wake 0]).
  reflexivity.
Defined.

(** C10 as stated fails: with neither [Stop] nor [Pause], a [Destroy] on the
    copy sets [Stopped], after which [Start] spawns a loop and the copy
    fires [onTick]. *)
Lemma C10_counterexample :
  exists w', Copy 0 world_T1_started = Some (1, w') /\
    added w' (steps [CallDestroy 1; CallStart 1; Wake 1] w') =
      [ SetStatus 1 Stopped; DestroyEvent 1 ch_completed; DestroyEvent 1 ch_statusChanged;
        Delete "T1_copy"; Printed (destroyed_message "T1_copy");
        SetStatus 1 Running; Spawn 1 1; Wait 1 (num 1); Fire 1 ch_statusChanged None;
        Fire 1 ch_onTick (Some (num 3)); Wait 1 (num 1) ] /\
    count_fires 1 ch_onTick (added w' (steps [CallDestroy 1; CallStart 1; Wake 1] w')) = 1.
Proof. eexists. split; [reflexivity|]. vm_compute. split; reflexivity. Qed.

(** * Further properties of the methods *)

(** ** Reachable states *)

(** X1: in every state the process can reach from its start, each registered
    name leads to an allocated timer whose [Name] is that very key, and each
    coroutine runs the loop of an allocated timer. *)
Theorem X1_reachable_wf (server : bool) (cs : list Call) :
  wf (steps cs (init server)).
Proof. apply wf_steps, wf_init. Qed.

(** ** Timers do not interfere *)

Lemma holds_modify r' t' r f w : r <> r' -> holds r' t' w -> holds r' t' (modify r f w).
Proof. intros Hne H. unfold holds. by rewrite lookup_modify_ne. Qed.

Lemma holds_same_heap r' t' w w' : heap w' = heap w -> holds r' t' w -> holds r' t' w'.
Proof. unfold holds. by intros ->. Qed.

Ltac holds_prims :=
  try done;
  try (intros; unfold setStatus, setRemainingTime, setTimerThread, destroyEvent, fire,
               Timers_delete;
       repeat first [ apply holds_modify; [done|]
                    | (eapply holds_same_heap; [|eassumption]);
                      first [ reflexivity | apply heap_setCoState | apply heap_task_cancel ]
                    | match goal with
                      | |- holds _ _ (emit _ ?w) =>
                          apply (holds_same_heap _ _ w); [reflexivity|]
                      end ];
       done).

Lemma step_keeps_others w r' t' call :
  heap w !! r' = Some t' ->
  aims_at w r' call = false ->
  heap (step call w) !! r' = Some t'.
Proof.
  intros Hh Ha. change (holds r' t' (step call w)). change (holds r' t' w) in Hh.
  destruct call as [d|r|r|r|r|r|r|th]; cbn [step].
  3-7: cbn in Ha; apply bool_decide_eq_false in Ha;
       by_preservation (holds r' t') (fun r : ref => r <> r') (fun _ : thread => True);
       holds_prims.
  - unfold CreateTimer. destruct (IsServer w); cbn; [|done].
    unfold holds in *. cbn. rewrite lookup_app_l; [done|]. by eapply lookup_lt_Some.
  - unfold Copy. destruct (heap w !! r) as [t|]; [|done].
    unfold holds in *. cbn. rewrite lookup_app_l; [done|]. by eapply lookup_lt_Some.
  - eapply (P_wake (holds r' t') (fun r : ref => r <> r') (fun _ : thread => True));
      holds_prims.
    intros c Hc. cbn in Ha. rewrite Hc in Ha. by apply bool_decide_eq_false in Ha.
Qed.

(** X3: a call on one timer, or the resumption of one timer's loop, leaves
    every other timer object exactly as it was; so do [CreateTimer] and
    [Copy]. *)
Theorem X3_timers_isolated (w : World) (r' : ref) (t' : TimerInstance) (call : Call) :
  heap w !! r' = Some t' ->
  aims_at w r' call = false ->
  heap (step call w) !! r' = Some t'.
Proof. apply step_keeps_others. Qed.

Lemma X3_timers_isolated_witness :
  let w := Start 0 (steps [CallCreateTimer T1; CallCreateTimer T5] (init true)) in
  heap w !! 1 = Some timer_T5 /\
  aims_at w 1 (Wake 0) = false /\
  heap (step (Wake 0) w) !! 1 = Some timer_T5.
Proof.
  intros w. split; [reflexivity|]. split; [reflexivity|].
  apply (X3_timers_isolated w 1 timer_T5 (Wake 0)); reflexivity.
Defined.

(** ** What no method writes *)

Lemma same_config_refl t : same_config t t.
Proof. by repeat split. Qed.

Lemma keeps_config_same_heap r t w w' :
  heap w' = heap w -> keeps_config r t w -> keeps_config r t w'.
Proof. unfold keeps_config. by intros ->. Qed.

Lemma keeps_config_modify r t r0 f w :
  (forall x, same_config x (f x)) -> keeps_config r t w -> keeps_config r t (modify r0 f w).
Proof.
  intros Hf (t' & Ht' & Hc). destruct (decide (r0 = r)) as [->|Hne].
  - exists (f t'). split; [by apply lookup_modify_eq|].
    destruct (Hf t') as (H1 & H2 & H3 & H4), Hc as (G1 & G2 & G3 & G4).
    repeat split; congruence.
  - exists t'. split; [by rewrite lookup_modify_ne|done].
Qed.

Lemma same_config_with_event ch e x : same_config x (with_event ch e x).
Proof. by destruct ch. Qed.

Ltac config_prims :=
  try done;
  try (intros; unfold setStatus, setRemainingTime, setTimerThread, destroyEvent, fire,
               Timers_delete;
       repeat first [ apply keeps_config_modify;
                        [intros; first [by repeat split | apply same_config_with_event]|]
                    | (eapply keeps_config_same_heap; [|eassumption]);
                      first [ reflexivity | apply heap_setCoState | apply heap_task_cancel ]
                    | match goal with
                      | |- keeps_config _ _ (emit _ ?w) =>
                          apply (keeps_config_same_heap _ _ w); [reflexivity|]
                      end ];
       done).

Lemma keeps_config_step r0 t0 c w : keeps_config r0 t0 w -> keeps_config r0 t0 (step c w).
Proof.
  intros Hk.
  destruct c as [d|r|r|r|r|r|r|th]; cbn [step].
  3-8: by_preservation (keeps_config r0 t0) (fun _ : ref => True) (fun _ : thread => True);
       config_prims.
  - unfold CreateTimer. destruct (IsServer w); cbn; [|done].
    destruct Hk as (t' & Ht' & Hc). exists t'. split; [|done]. cbn.
    rewrite lookup_app_l; [done|]. by eapply lookup_lt_Some.
  - unfold Copy. destruct (heap w !! r) as [t|]; [|done].
    destruct Hk as (t' & Ht' & Hc). exists t'. split; [|done]. cbn.
    rewrite lookup_app_l; [done|]. by eapply lookup_lt_Some.
Qed.

(** X4: no sequence of calls and resumptions changes the [Name], [Duration],
    [Tick] or [AutoDestroy] of an existing timer, and no timer object ever
    disappears from the heap. *)
Theorem X4_config_immutable (cs : list Call) (w : World) (r : ref) (t : TimerInstance) :
  heap w !! r = Some t ->
  exists t', heap (steps cs w) !! r = Some t' /\
    Name t' = Name t /\ Duration t' = Duration t /\ Tick t' = Tick t /\
    AutoDestroy t' = AutoDestroy t.
Proof.
  intros Hh.
  assert (Hk : keeps_config r t w) by (exists t; split; [done|apply same_config_refl]).
  clear Hh. revert w Hk. induction cs as [|c cs IH]; intros w Hk; [exact Hk|].
  cbn [steps foldl]. apply IH. by apply keeps_config_step.
Qed.

Lemma X4_config_immutable_witness :
  heap world_T5 !! 0 = Some timer_T5 /\
  exists t',
    heap (steps [CallStart 0; Wake 0; CallPause 0; CallStop 0; CallDestroy 0] world_T5) !! 0
      = Some t' /\
    Name t' = "T5" /\ Duration t' = num 5 /\ Tick t' = num 2 /\ AutoDestroy t' = true.
Proof.
  split; [reflexivity|].
  apply (X4_config_immutable [CallStart 0; Wake 0; CallPause 0; CallStop 0; CallDestroy 0]
           world_T5 0 timer_T5).
  reflexivity.
Defined.

(** ** AutoDestroy is always set *)

Lemma same_length_step c w :
  allocates c = false -> length (heap (step c w)) = length (heap w).
Proof.
  intros Hc.
  destruct c as [d|r|r|r|r|r|r|th]; cbn [step]; try discriminate Hc.
  all: by_preservation (fun w' => length (heap w') = length (heap w))
                       (fun _ : ref => True) (fun _ : thread => True);
       try done; intros; wsimpl; done.
Qed.

Lemma all_autoDestroy_step c w :
  all_autoDestroy w -> all_autoDestroy (step c w).
Proof.
  intros Ha r t Ht.
  destruct (decide (r < length (heap w))) as [Hlt|Hge].
  - destruct (lookup_lt_is_Some_2 (heap w) r Hlt) as [t0 Ht0].
    destruct (keeps_config_step r t0 c w) as (t' & Ht' & _ & _ & _ & HA).
    { exists t0. split; [done|apply same_config_refl]. }
    rewrite Ht in Ht'. injection Ht' as <-. rewrite HA. by eapply Ha.
  - (* a timer allocated by this very step *)
    destruct (allocates c) eqn:Hc.
    2: { apply lookup_lt_Some in Ht. rewrite same_length_step in Ht by done. lia. }
    destruct c as [d|r0| | | | | | ]; try discriminate Hc; cbn [step] in Ht.
    + unfold CreateTimer in Ht. destruct (IsServer w); cbn in Ht.
      * destruct (decide (r = length (heap w))) as [->|Hne].
        -- rewrite list_lookup_middle in Ht by done. injection Ht as <-. cbn.
           apply or_boolean_true.
        -- apply lookup_lt_Some in Ht. rewrite length_app in Ht. cbn in Ht. lia.
      * apply lookup_lt_Some in Ht. lia.
    + unfold Copy in Ht. destruct (heap w !! r0) as [t0|] eqn:Ht0.
      * cbn in Ht. destruct (decide (r = length (heap w))) as [->|Hne].
        -- rewrite list_lookup_middle in Ht by done. injection Ht as <-. cbn.
           by eapply Ha.
        -- apply lookup_lt_Some in Ht. rewrite length_app in Ht. cbn in Ht. lia.
      * apply lookup_lt_Some in Ht. lia.
Qed.

(** X5: every timer the process can ever hold has [AutoDestroy] set, whatever
    was passed to [CreateTimer] and however often timers were copied. *)
Theorem X5_autoDestroy_always (server : bool) (cs : list Call) (r : ref) (t : TimerInstance) :
  heap (steps cs (init server)) !! r = Some t ->
  AutoDestroy t = true.
Proof.
  assert (H : forall w, all_autoDestroy w -> all_autoDestroy (steps cs w)).
  { induction cs as [|c cs IH]; intros w Hw; [done|].
    cbn [steps foldl]. apply IH. by apply all_autoDestroy_step. }
  apply (H (init server)). intros r' t' Hl. cbn in Hl. by rewrite lookup_nil in Hl.
Qed.

Lemma X5_autoDestroy_always_witness :
  heap (steps [CallCreateTimer T1; CallCopy 0; CallStart 1] (init true)) !! 1
    = Some (mkTimer "T1_copy" (num 3) (num 1) (num 3) true Running Live Live Live (Some 0)) /\
  AutoDestroy (mkTimer "T1_copy" (num 3) (num 1) (num 3) true Running Live Live Live (Some 0)) = true.
Proof.
  split; [reflexivity|].
  apply (X5_autoDestroy_always true [CallCreateTimer T1; CallCopy 0; CallStart 1] 1).
  reflexivity.
Defined.

(** ** Pause and Resume *)

Lemma Resume_as_Start r w t :
  heap w !! r = Some t -> Status t = Paused -> Resume r w = Start r w.
Proof.
  intros Hh Hs. unfold Resume, Start. rewrite Hh.
  rewrite (bool_decide_eq_false_2 (Status t <> Paused)) by (intros H; by apply H).
  by rewrite (bool_decide_eq_false_2 (Status t = Running)) by (by rewrite Hs).
Qed.

Lemma length_pool_Pause r w : length (pool (Pause r w)) = length (pool w).
Proof.
  unfold Pause. destruct (heap w !! r) as [t|]; [|done].
  destruct (bool_decide _); [done|]. destruct (timerThread t); wsimpl; done.
Qed.

Lemma length_pool_Stop r w : length (pool (Stop r w)) = length (pool w).
Proof.
  unfold Stop. destruct (heap w !! r) as [t|]; [|done].
  destruct (bool_decide _); [done|]. destruct (timerThread t); wsimpl; done.
Qed.

(** A countdown that starts above zero takes at least one subtraction. *)
Lemma runs_out_pos x T M :
  num_gt x (num 0) = true -> runs_out x T M = true -> exists n, M = S n.
Proof.
  intros Hx Hrun. destruct M as [|n]; [|by exists n].
  apply runs_out_spec in Hrun as [_ Hend]. cbn [remaining] in Hend.
  by rewrite (num_gt_le _ Hx) in Hend.
Qed.

(** X7: pausing a running timer and resuming it loses no time and no tick.
    [Pause] followed by [Resume] fires no [onTick] and leaves
    [RemainingTime] as it was; the loop spawned by [Resume] then publishes
    exactly the payloads the interrupted loop would have published, [x],
    [x - T], ... down to the terminal one, each difference rounded as the
    loop computes it, and completes once.  [M] is the number of
    subtractions that bring the remaining time [x] to zero or below. *)
Theorem X7_resume_continues (w : World) (r : ref) (t : TimerInstance) (th : thread) (M : nat) :
  pool w !! th = Some (mkCo r InWait) ->
  heap w !! r = Some t ->
  Status t = Running ->
  timerThread t = Some th ->
  num_gt (RemainingTime t) (num 0) = true ->
  runs_out (RemainingTime t) (Tick t) M = true ->
  let x := RemainingTime t in
  let T := Tick t in
  let w' := Resume r (Pause r w) in
  let th' := length (pool w) in
  (exists t', heap w' !! r = Some t' /\ Status t' = Running /\ RemainingTime t' = x) /\
  ticks_of r (added w w') = [] /\
  ticks_of r (added w' (wakes M th' w')) = countdown x T M /\
  ticks_of r (added w (wakes M th w)) = countdown x T M /\
  count_fires r ch_completed (added w' (wakes M th' w')) = 1.
Proof.
  intros Hp Hh Hs Hth Hx Hrun x T w' th'.
  destruct (runs_out_pos _ _ _ Hx Hrun) as [n ->].
  destruct (Pause_running r w t th Hh Hs Hth Hp) as (HtP & HpP & HhP).
  set (tP := with_timerThread None (with_Status Paused t)) in *.
  assert (HR : w' = Start r (Pause r w)) by (by apply (Resume_as_Start _ _ tP)).
  destruct (Start_spawns r (Pause r w) tP HhP) as (Hh1 & Hp1 & Ht1); [done | done |].
  rewrite length_pool_Pause in Hh1, Hp1, Ht1. fold th' in Hh1, Hp1, Ht1.
  rewrite <- HR in Hh1, Hp1, Ht1.
  set (t1 := with_timerThread (Some th') (with_Status Running tP)) in *.
  destruct (loop_runs_out th' r w' t1 n Hp1 Hh1 eq_refl Hrun) as (_ & Hrun1).
  destruct (loop_runs_out th r w t n Hp Hh Hs Hrun) as (_ & Hrun0).
  cbn [RemainingTime Tick t1 tP with_timerThread with_Status] in Hrun1.
  fold x T in Hrun1, Hrun0.
  split; [|split; [|split; [|split]]].
  - exists t1. by repeat split.
  - erewrite (added_app w w'); [|by rewrite Ht1, HtP, <- app_assoc]. done.
  - rewrite (added_app _ _ _ Hrun1). apply ticks_of_run_out, ticks_of_destroy_part.
  - rewrite (added_app _ _ _ Hrun0). apply ticks_of_run_out, ticks_of_destroy_part.
  - rewrite (added_app _ _ _ Hrun1). apply count_completed_run_out.
Qed.

Lemma X7_resume_continues_witness :
  let w := wakes 1 0 (Start 0 world_T5) in
  let t := mkTimer "T5" (num 5) (num 2) (num 3) true Running Live Live Live (Some 0) in
  pool w !! 0 = Some (mkCo 0 InWait) /\
  heap w !! 0 = Some t /\
  num_gt (num 3) (num 0) = true /\
  runs_out (num 3) (num 2) 2 = true /\
  ticks_of 0 (added (Resume 0 (Pause 0 w)) (wakes 2 1 (Resume 0 (Pause 0 w)))) =
    [num 3; num 1; num (-1)].
Proof.
  intros w t. split; [reflexivity|]. split; [vm_compute; reflexivity|].
  split; [reflexivity|]. split; [vm_compute; reflexivity|].
  destruct (X7_resume_continues w 0 t 0 2) as (_ & _ & H & _);
    [ reflexivity | vm_compute; reflexivity | reflexivity | reflexivity | reflexivity
    | vm_compute; reflexivity |].
  exact H.
Defined.

(** ** Stop, then Start *)

Lemma Stop_resets r w t :
  heap w !! r = Some t ->
  Status t <> Stopped ->
  heap (Stop r w) !! r =
    Some (mkTimer (Name t) (Duration t) (Tick t) (Duration t) (AutoDestroy t) Stopped
                  (completed t) (statusChanged t) (onTick t) None).
Proof.
  intros Hh Hs. unfold Stop. rewrite Hh. rewrite bool_decide_eq_false_2 by done.
  set (w1 := fire r ch_statusChanged None _).
  assert (Hh1 : heap w1 !! r =
                Some (with_RemainingTime (Duration t) (with_Status Stopped t)))
    by (subst w1; eval_world Hh Hh; done).
  clearbody w1.
  destruct (timerThread t) as [th|] eqn:Hth.
  - unfold setTimerThread.
    erewrite lookup_modify_eq by (rewrite heap_task_cancel; exact Hh1). done.
  - rewrite Hh1. unfold with_RemainingTime, with_Status. cbn. by rewrite Hth.
Qed.

(** X8: whatever the progress of a timer was, [Stop] followed by [Start]
    replays the whole countdown: the new loop publishes [D], [D - T], ...
    down to the terminal payload, each difference rounded as the loop
    computes it, [N + 1] ticks in all, and completes once.  [N] is the
    number of subtractions that bring the duration [D] to zero or below. *)
Theorem X8_restart_after_Stop (w : World) (r : ref) (t : TimerInstance) (N : nat) :
  heap w !! r = Some t ->
  Status t <> Stopped ->
  num_gt (Duration t) (num 0) = true ->
  runs_out (Duration t) (Tick t) N = true ->
  let D := Duration t in
  let T := Tick t in
  let w' := Start r (Stop r w) in
  let th' := length (pool w) in
  (exists t', heap w' !! r = Some t' /\ Status t' = Running /\ RemainingTime t' = D) /\
  ticks_of r (added w' (wakes N th' w')) = countdown D T N /\
  length (ticks_of r (added w' (wakes N th' w'))) = S N /\
  count_fires r ch_completed (added w' (wakes N th' w')) = 1.
Proof.
  intros Hh Hs HD Hrun D T w' th'.
  destruct (runs_out_pos _ _ _ HD Hrun) as [n ->].
  pose proof (Stop_resets r w t Hh Hs) as HhS.
  set (tS := mkTimer _ _ _ _ _ _ _ _ _ _) in HhS.
  destruct (Start_spawns r (Stop r w) tS HhS) as (Hh1 & Hp1 & Ht1); [done | done |].
  rewrite length_pool_Stop in Hh1, Hp1, Ht1. fold th' w' in Hh1, Hp1, Ht1.
  set (t1 := with_timerThread (Some th') (with_Status Running tS)) in *.
  destruct (loop_runs_out th' r w' t1 n Hp1 Hh1 eq_refl Hrun) as (_ & Hrun1).
  cbn [RemainingTime Tick t1 tS with_timerThread with_Status] in Hrun1.
  fold D T in Hrun1.
  rewrite (added_app _ _ _ Hrun1).
  assert (Hticks : ticks_of r
            (loop_effects th' r T D n ++ final_effects r T (remaining D T n)
               ++ (if AutoDestroy t1 then destroy_effects r (Name t1) (timerThread t1) else []))
            = countdown D T (S n)) by apply ticks_of_run_out, ticks_of_destroy_part.
  split; [exists t1; by repeat split|]. split; [exact Hticks|]. split.
  - rewrite Hticks. unfold countdown. by rewrite length_map, length_seq.
  - apply count_completed_run_out.
Qed.

Lemma X8_restart_after_Stop_witness :
  let w := wakes 2 0 (Start 0 world_T5) in
  let t := mkTimer "T5" (num 5) (num 2) (num 1) true Running Live Live Live (Some 0) in
  heap w !! 0 = Some t /\
  num_gt (num 5) (num 0) = true /\
  runs_out (num 5) (num 2) 3 = true /\
  ticks_of 0 (added (Start 0 (Stop 0 w)) (wakes 3 1 (Start 0 (Stop 0 w)))) =
    [num 5; num 3; num 1; num (-1)].
Proof.
  intros w t. split; [vm_compute; reflexivity|]. split; [reflexivity|].
  split; [vm_compute; reflexivity|].
  destruct (X8_restart_after_Stop w 0 t 3) as (_ & H & _);
    [vm_compute; reflexivity | cbn; discriminate | reflexivity | vm_compute; reflexivity |].
  exact H.
Defined.

(** ** Pause before the first tick *)

(** X9: a timer with time left that is started and paused before the
    scheduler resumes its loop has fired no [onTick]; it is [Paused] with
    [RemainingTime] untouched and holds no thread, and the loop that
    [Start] spawned is cancelled. *)
Theorem X9_pause_before_first_tick (w : World) (r : ref) (t : TimerInstance) :
  heap w !! r = Some t ->
  Status t <> Running ->
  num_gt (RemainingTime t) (num 0) = true ->
  let w' := Pause r (Start r w) in
  let th := length (pool w) in
  heap w' !! r =
    Some (mkTimer (Name t) (Duration t) (Tick t) (RemainingTime t) (AutoDestroy t) Paused
                  (completed t) (statusChanged t) (onTick t) None) /\
  pool w' !! th = Some (mkCo r Cancelled) /\
  added w w' =
    [ SetStatus r Running; Spawn th r; Wait th (Tick t); Fire r ch_statusChanged None;
      SetStatus r Paused; Fire r ch_statusChanged None; Cancel th ] /\
  count_fires r ch_onTick (added w w') = 0.
Proof.
  intros Hh Hs Hx w' th.
  destruct (Start_spawns r w t Hh Hs Hx) as (Hh1 & Hp1 & Ht1).
  fold th in Hh1, Hp1, Ht1.
  destruct (Pause_running r (Start r w) _ th Hh1 eq_refl eq_refl Hp1) as (HtP & HpP & HhP).
  fold w' in HtP, HpP, HhP.
  assert (Hadd : added w w' =
    [ SetStatus r Running; Spawn th r; Wait th (Tick t); Fire r ch_statusChanged None;
      SetStatus r Paused; Fire r ch_statusChanged None; Cancel th ]).
  { apply added_app. by rewrite HtP, Ht1, <- app_assoc. }
  split; [by rewrite HhP|]. split; [done|]. split; [done|].
  rewrite Hadd. count_simpl. done.
Qed.

Lemma X9_pause_before_first_tick_witness :
  heap world_T1 !! 0 = Some timer_T1 /\
  num_gt (num 3) (num 0) = true /\
  heap (Pause 0 (Start 0 world_T1)) !! 0 =
    Some (mkTimer "T1" (num 3) (num 1) (num 3) true Paused Live Live Live None) /\
  count_fires 0 ch_onTick (added world_T1 (Pause 0 (Start 0 world_T1))) = 0.
Proof.
  split; [reflexivity|]. split; [reflexivity|].
  destruct (X9_pause_before_first_tick world_T1 0 timer_T1) as (H1 & _ & _ & H4);
    [reflexivity | cbn; discriminate | reflexivity |].
  split; [exact H1 | exact H4].
Defined.

(** ** Start with no time left *)

Lemma run_exit_unregisters th r w t :
  heap w !! r = Some t ->
  Status t = Running ->
  num_le (RemainingTime t) (num 0) = true ->
  AutoDestroy t = true ->
  timerThread t = None ->
  Timers (run_exit th r w) = delete (Name t) (Timers w).
Proof.
  intros Hh Hs Hx HA Hth. unfold run_exit. rewrite Hh.
  rewrite Hx, bool_decide_eq_true_2 by done. cbn [andb]. rewrite HA.
  set (w' := fire r ch_onTick _ _).
  assert (Hh' : heap w' !! r = Some (with_Status Completed t))
    by (subst w'; eval_world Hh Hh; done).
  assert (HT' : Timers w' = Timers w) by (subst w'; wsimpl; done).
  clearbody w'. unfold Destroy. rewrite Hh'. cbn [timerThread with_Status]. rewrite Hth.
  rewrite Timers_setCoState. wsimpl. by rewrite HT'.
Qed.

(** [Start] on a timer whose remaining time is not positive: the new loop
    ends inside the call, with the completion when the remaining time is
    [<= 0] and without it when it is NaN. *)
Lemma Start_exhausted_state r w t :
  heap w !! r = Some t ->
  Status t <> Running ->
  num_gt (RemainingTime t) (num 0) = false ->
  (exists t', heap (Start r w) !! r = Some t' /\
     timerThread t' = Some (length (pool w)) /\
     Status t' = (if num_le (RemainingTime t) (num 0)
                  then (if AutoDestroy t then Stopped else Completed)
                  else Running)) /\
  (exists s, pool (Start r w) !! length (pool w) = Some (mkCo r s) /\ s <> InWait) /\
  (num_le (RemainingTime t) (num 0) = true -> AutoDestroy t = true -> timerThread t = None ->
   Timers (Start r w) = delete (Name t) (Timers w)).
Proof.
  intros Hh Hs Hx.
  destruct (Start_body r w t Hh Hs) as (w1 & -> & Hh1 & Hp1 & _ & _ & _ & HT1).
  unfold run_test. rewrite Hh1. cbn [RemainingTime Status with_Status].
  rewrite Hx. cbn [andb].
  unfold setTimerThread, fire. cbn [heap pool Timers emit with_trace].
  rewrite pool_modify, Timers_modify.
  destruct (num_le (RemainingTime t) (num 0)) eqn:Hy.
  - destruct (run_exit_spec _ r w1 _ _ Hp1 Hh1 eq_refl Hy) as (_ & (t' & Ht' & HS' & _) & Hp').
    split; [|split].
    + exists (with_timerThread (Some (length (pool w))) t').
      split; [by apply lookup_modify_eq|]. split; [done|]. exact HS'.
    + exact Hp'.
    + intros _ HA Hth. rewrite (run_exit_unregisters _ r w1 _ Hh1) by done. by rewrite HT1.
  - rewrite (run_exit_skip _ r w1 _ Hh1) by (cbn; by rewrite Hy).
    split; [|split].
    + eexists. split; [apply lookup_modify_eq; rewrite heap_setCoState; exact Hh1|]. done.
    + eexists. split; [by apply (lookup_setCoState_eq _ Finished w1 (mkCo r Active))|done].
    + intros [=].
Qed.

(** X10: [Start] on a timer that has no time left (a duration of zero or
    less, or a countdown already used up) completes inside the call: the
    loop never suspends, [completed], [statusChanged] and one [onTick] with
    the remaining time are fired, [Destroy] follows when [AutoDestroy] is
    set, and only then does [Start] fire its own [statusChanged].
    Afterwards the timer is [Stopped] (or [Completed] without
    [AutoDestroy]) and holds the handle of the finished loop; a timer that
    held no thread before has been removed from the registry. *)
Theorem X10_Start_without_time (w : World) (r : ref) (t : TimerInstance) :
  heap w !! r = Some t ->
  Status t <> Running ->
  num_le (RemainingTime t) (num 0) = true ->
  let th := length (pool w) in
  added w (Start r w) =
    [ SetStatus r Running; Spawn th r;
      SetStatus r Completed; Fire r ch_completed None; Fire r ch_statusChanged None;
      Fire r ch_onTick (Some (RemainingTime t)) ]
    ++ (if AutoDestroy t then destroy_effects r (Name t) (timerThread t) else [])
    ++ [Fire r ch_statusChanged None] /\
  count_waits th (added w (Start r w)) = 0 /\
  (exists t', heap (Start r w) !! r = Some t' /\ timerThread t' = Some th /\
     Status t' = (if AutoDestroy t then Stopped else Completed)) /\
  (exists s, pool (Start r w) !! th = Some (mkCo r s) /\ s <> InWait) /\
  (AutoDestroy t = true -> timerThread t = None ->
   lookup_timer (Name t) (Start r w) = None).
Proof.
  intros Hh Hs Hx th.
  pose proof (Start_exhausted r w t Hh Hs Hx) as Hadd. fold th in Hadd.
  destruct (Start_exhausted_state r w t Hh Hs (num_le_gt _ Hx)) as (H1 & H2 & H3).
  rewrite Hx in H1. fold th in H1, H2.
  split; [exact Hadd|]. split; [|split; [exact H1|split; [exact H2|]]].
  - rewrite Hadd. count_simpl.
    rewrite count_destroy_part by (intros e; apply destroy_effects_no_wait). done.
  - intros HA Hth. unfold lookup_timer. rewrite H3 by done. apply lookup_delete_eq.
Qed.

Lemma X10_Start_without_time_witness :
  let w := after_create (mkData "Z" (num 0) None None) (init true) in
  let t := mkTimer "Z" (num 0) (num 1) (num 0) true Stopped Live Live Live None in
  heap w !! 0 = Some t /\
  num_le (num 0) (num 0) = true /\
  lookup_timer "Z" w = Some 0 /\
  lookup_timer "Z" (Start 0 w) = None /\
  added w (Start 0 w) =
    [ SetStatus 0 Running; Spawn 0 0;
      SetStatus 0 Completed; Fire 0 ch_completed None; Fire 0 ch_statusChanged None;
      Fire 0 ch_onTick (Some (num 0));
      SetStatus 0 Stopped; DestroyEvent 0 ch_completed; DestroyEvent 0 ch_statusChanged;
      Delete "Z"; Printed (destroyed_message "Z");
      Fire 0 ch_statusChanged None ].
Proof.
  intros w t. split; [reflexivity|]. split; [reflexivity|]. split; [reflexivity|].
  destruct (X10_Start_without_time w 0 t)
    as (H1 & _ & _ & _ & H5); [reflexivity | cbn; discriminate | reflexivity |].
  split; [apply H5; reflexivity | exact H1].
Defined.

(** ** A negative tick *)

(** X11: a timer with a negative [Tick] and time left never completes, as
    long as its arithmetic is exact.  After [Start], through any number [k]
    of resumptions for which the subtractions [x - T] were exact, the timer
    is still [Running], the loop is waiting again, [RemainingTime] has grown
    to [x - k T], and neither [completed] nor a [Completed] status has
    occurred.  ([ux] and [uT] are the exact values of [x] and [T] in units
    of [2^-1074].) *)
Theorem X11_negative_tick_never_completes
    (w : World) (r : ref) (t : TimerInstance) (ux uT : Z) (k : nat) :
  heap w !! r = Some t ->
  Status t <> Running ->
  num_units (RemainingTime t) = Some ux ->
  num_units (Tick t) = Some uT ->
  (uT < 0)%Z ->
  (0 < ux)%Z ->
  let x := RemainingTime t in
  let T := Tick t in
  (forall i, i < k -> exact_sub (remaining x T i) T = true) ->
  let th := length (pool w) in
  let w' := wakes k th (Start r w) in
  (exists t', heap w' !! r = Some t' /\ Status t' = Running /\
     RemainingTime t' = remaining x T k /\
     num_units (RemainingTime t') = Some (ux - Z.of_nat k * uT)%Z /\
     (ux <= ux - Z.of_nat k * uT)%Z) /\
  pool w' !! th = Some (mkCo r InWait) /\
  count_fires r ch_completed (added w w') = 0 /\
  ~ In (SetStatus r Completed) (added w w') /\
  ticks_of r (added w w') = map (remaining x T) (seq 0 k).
Proof.
  intros Hh Hs Hux HuT HT0 Hx0 x T Hex th w'.
  pose proof (exact_remaining x T ux uT k Hux HuT Hex) as Hunits.
  assert (Hpos : forall i, i <= k -> num_gt (remaining x T i) (num 0) = true).
  { intros i Hi. destruct (num_units_sign _ _ (Hunits i Hi)) as [-> _].
    apply Z.ltb_lt. nia. }
  destruct (Start_spawns r w t Hh Hs (Hpos 0 ltac:(lia))) as (Hh1 & Hp1 & Htr1).
  fold th in Hh1, Hp1, Htr1.
  destruct (wakes_loop th r k (Start r w) _ Hp1 Hh1 eq_refl) as (H1 & H6 & H7).
  { intros i Hi. apply Hpos. lia. }
  fold w' in H1, H6, H7.
  cbn [RemainingTime Tick with_timerThread with_Status] in H1, H7. fold x T in H1, H7.
  assert (Hadd : added w w' =
    [SetStatus r Running; Spawn th r; Wait th T; Fire r ch_statusChanged None]
    ++ loop_effects th r T x k).
  { apply added_app. by rewrite H7, Htr1, <- app_assoc. }
  split.
  { eexists. split; [exact H1|]. split; [done|]. split; [done|].
    cbn [RemainingTime with_RemainingTime]. split; [by apply Hunits|nia]. }
  split; [done|]. rewrite Hadd. split; [|split].
  - count_simpl. fold (count_fires r ch_completed (loop_effects th r T x k)).
    by rewrite count_loop_effects_completed.
  - intros Hin. apply in_app_or in Hin as [Hin|Hin].
    + cbn in Hin. repeat (destruct Hin as [Hin|Hin]; [discriminate Hin|]). exact Hin.
    + by apply loop_effects_no_status in Hin.
  - rewrite ticks_of_app. cbn [ticks_of app]. apply ticks_of_loop_effects.
Qed.

Lemma X11_negative_tick_never_completes_witness :
  let w := after_create (mkData "N" (num 2) (Some (num (-1))) None) (init true) in
  let t := mkTimer "N" (num 2) (num (-1)) (num 2) true Stopped Live Live Live None in
  heap w !! 0 = Some t /\
  (forall i, i < 4 -> exact_sub (remaining (num 2) (num (-1)) i) (num (-1)) = true) /\
  ticks_of 0 (added w (wakes 4 0 (Start 0 w))) = [num 2; num 3; num 4; num 5] /\
  count_fires 0 ch_completed (added w (wakes 4 0 (Start 0 w))) = 0.
Proof.
  intros w t.
  assert (Hex : forall i, i < 4 ->
            exact_sub (remaining (num 2) (num (-1)) i) (num (-1)) = true).
  { intros i Hi. destruct i as [|[|[|[|i]]]]; [vm_compute; reflexivity..|lia]. }
  split; [reflexivity|]. split; [exact Hex|].
  destruct (X11_negative_tick_never_completes w 0 t (2 * 2 ^ 1074) (- 2 ^ 1074) 4)
    as (_ & _ & H3 & _ & H5);
    [ reflexivity | cbn; discriminate | vm_compute; reflexivity | vm_compute; reflexivity
    | lia | lia | exact Hex |].
  split; [exact H5 | exact H3].
Defined.

(** ** Pause and Stop twice *)

Lemma Pause_status r w t :
  heap w !! r = Some t ->
  Status t = Running ->
  exists t', heap (Pause r w) !! r = Some t' /\ Status t' = Paused /\
             RemainingTime t' = RemainingTime t.
Proof.
  intros Hh Hs. unfold Pause. rewrite Hh.
  rewrite bool_decide_eq_false_2 by (intros H; by apply H).
  set (w1 := fire r ch_statusChanged None _).
  assert (Hh1 : heap w1 !! r = Some (with_Status Paused t))
    by (subst w1; eval_world Hh Hh; done).
  clearbody w1.
  destruct (timerThread t) as [th|].
  - unfold setTimerThread. eexists. split.
    + apply lookup_modify_eq. rewrite heap_task_cancel. exact Hh1.
    + done.
  - eexists. split; [exact Hh1|done].
Qed.

(** X12: [Pause] and [Stop] are idempotent: a second call right after the
    first changes nothing and fires nothing, whatever state the timer was
    in. *)
Theorem X12_Pause_Stop_idempotent (w : World) (r : ref) :
  Pause r (Pause r w) = Pause r w /\ Stop r (Stop r w) = Stop r w.
Proof.
  split.
  - destruct (heap w !! r) as [t|] eqn:Hh.
    2: { by rewrite !Pause_unallocated by (by rewrite ?Pause_unallocated). }
    destruct (decide (Status t = Running)) as [Hs|Hs].
    + destruct (Pause_status r w t Hh Hs) as (t' & Ht' & HS' & _).
      unfold Pause at 1. rewrite Ht'.
      by rewrite bool_decide_eq_true_2 by (by rewrite HS').
    + assert (HP : Pause r w = w).
      { unfold Pause. rewrite Hh. by rewrite bool_decide_eq_true_2. }
      by rewrite !HP.
  - destruct (heap w !! r) as [t|] eqn:Hh.
    2: { by rewrite !Stop_unallocated by (by rewrite ?Stop_unallocated). }
    destruct (decide (Status t = Stopped)) as [Hs|Hs].
    + assert (HP : Stop r w = w).
      { unfold Stop. rewrite Hh. by rewrite bool_decide_eq_true_2. }
      by rewrite !HP.
    + pose proof (Stop_resets r w t Hh Hs) as Ht'.
      unfold Stop at 1. rewrite Ht'.
      by rewrite bool_decide_eq_true_2.
Qed.

(** ** Completed is never a state of rest *)

Lemma wake_not_running th r w t :
  pool w !! th = Some (mkCo r InWait) ->
  heap w !! r = Some t ->
  Status t <> Running ->
  heap (wake th w) !! r = Some (with_RemainingTime (num_sub (RemainingTime t) (Tick t)) t)
  /\ pool (wake th w) !! th = Some (mkCo r Finished)
  /\ added w (wake th w) = [Fire r ch_onTick (Some (RemainingTime t))].
Proof.
  intros Hp Hh Hs.
  destruct (wake_body th r w t Hp Hh) as (w1 & -> & Hh1 & Hp1 & Ht1 & _).
  rewrite bool_decide_eq_true_2 by done.
  rewrite (run_exit_skip th r w1 _ Hh1).
  2: { cbn. rewrite (bool_decide_eq_false_2 (Status t = Running)) by done.
       apply andb_false_r. }
  rewrite heap_setCoState. split; [done|]. split.
  - by apply (lookup_setCoState_eq th Finished w1 (mkCo r Active)).
  - apply added_app. by rewrite trace_setCoState.
Qed.

(** The status the timer a call aims at is left in. *)
Lemma step_status_at_rest call w r t :
  heap w !! r = Some t ->
  AutoDestroy t = true ->
  at_rest (Status t) = true ->
  aims_at w r call = true ->
  exists t', heap (step call w) !! r = Some t' /\ at_rest (Status t') = true.
Proof.
  intros Hh HA Hr Ha.
  destruct call as [d|r0|r0|r0|r0|r0|r0|th]; cbn in Ha; try discriminate Ha; cbn [step].
  - (* Start *)
    apply bool_decide_eq_true in Ha as ->.
    destruct (decide (Status t = Running)) as [Hs|Hs].
    { exists t. unfold Start. rewrite Hh. by rewrite bool_decide_eq_true_2. }
    destruct (num_gt (RemainingTime t) (num 0)) eqn:Hx.
    + destruct (Start_spawns r w t Hh Hs Hx) as (H1 & _). eexists. split; [exact H1|done].
    + destruct (Start_exhausted_state r w t Hh Hs Hx) as ((t' & H1 & _ & H2) & _).
      exists t'. split; [done|]. rewrite H2, HA. by destruct (num_le _ _).
  - (* Pause *)
    apply bool_decide_eq_true in Ha as ->.
    destruct (decide (Status t = Running)) as [Hs|Hs].
    + destruct (Pause_status r w t Hh Hs) as (t' & H1 & H2 & _).
      exists t'. split; [done|]. by rewrite H2.
    + exists t. unfold Pause. rewrite Hh. by rewrite bool_decide_eq_true_2.
  - (* Resume *)
    apply bool_decide_eq_true in Ha as ->.
    destruct (decide (Status t = Paused)) as [Hs|Hs].
    2: { exists t. unfold Resume. rewrite Hh. by rewrite bool_decide_eq_true_2. }
    rewrite (Resume_as_Start r w t Hh Hs).
    assert (Hs' : Status t <> Running) by (by rewrite Hs).
    destruct (num_gt (RemainingTime t) (num 0)) eqn:Hx.
    + destruct (Start_spawns r w t Hh Hs' Hx) as (H1 & _). eexists. split; [exact H1|done].
    + destruct (Start_exhausted_state r w t Hh Hs' Hx) as ((t' & H1 & _ & H2) & _).
      exists t'. split; [done|]. rewrite H2, HA. by destruct (num_le _ _).
  - (* Stop *)
    apply bool_decide_eq_true in Ha as ->.
    destruct (decide (Status t = Stopped)) as [Hs|Hs].
    + exists t. unfold Stop. rewrite Hh. by rewrite bool_decide_eq_true_2.
    + eexists. split; [by apply Stop_resets|done].
  - (* Destroy *)
    apply bool_decide_eq_true in Ha as ->.
    destruct (Destroy_spec r w t Hh) as (_ & _ & H & _). eexists. split; [exact H|done].
  - (* Wake *)
    destruct (pool w !! th) as [c|] eqn:Hp; [|discriminate Ha].
    apply bool_decide_eq_true in Ha.
    destruct (decide (co_state c = InWait)) as [Hc|Hc].
    2: { exists t. unfold wake. rewrite Hp. by destruct (co_state c). }
    assert (Hp' : pool w !! th = Some (mkCo r InWait)) by (rewrite Hp; destruct c; cbn in *; congruence).
    destruct (decide (Status t = Running)) as [Hs|Hs].
    + destruct (num_gt (num_sub (RemainingTime t) (Tick t)) (num 0)) eqn:Hx;
        [|destruct (num_le (num_sub (RemainingTime t) (Tick t)) (num 0)) eqn:Hy].
      * destruct (wake_continue th r w t Hp' Hh Hs Hx) as (H1 & _).
        eexists. split; [exact H1|]. cbn. by rewrite Hs.
      * destruct (wake_finish th r w t Hp' Hh Hs Hy) as (_ & (t' & H1 & H2 & _) & _).
        exists t'. split; [done|]. by rewrite H2, HA.
      * destruct (wake_stall th r w t Hp' Hh Hs Hx Hy) as (H1 & _).
        eexists. split; [exact H1|]. cbn. by rewrite Hs.
    + destruct (wake_not_running th r w t Hp' Hh Hs) as (H1 & _).
      eexists. split; [exact H1|]. done.
Qed.

Lemma all_at_rest_step call w : all_at_rest w -> all_at_rest (step call w).
Proof.
  intros Hw r t' Ht'.
  assert (HAD : forall r0 t0, heap w !! r0 = Some t0 -> AutoDestroy t0 = true)
    by (intros r0 t0 H0; by destruct (Hw r0 t0 H0)).
  split; [by apply (all_autoDestroy_step call w HAD r t')|].
  destruct (heap w !! r) as [t|] eqn:Hh.
  - destruct (Hw r t Hh) as [HA Hr].
    destruct (aims_at w r call) eqn:Ha.
    + destruct (step_status_at_rest call w r t Hh HA Hr Ha) as (t'' & H1 & H2). congruence.
    + rewrite (step_keeps_others w r t call Hh Ha) in Ht'. congruence.
  - (* allocated by this step *)
    apply lookup_ge_None in Hh.
    destruct (allocates call) eqn:Hc.
    2: { apply lookup_lt_Some in Ht'. rewrite same_length_step in Ht' by done. lia. }
    destruct call as [d|r0| | | | | | ]; try discriminate Hc; cbn [step] in Ht'.
    + unfold CreateTimer in Ht'. destruct (IsServer w); cbn in Ht'.
      * destruct (decide (r = length (heap w))) as [->|Hne].
        -- rewrite list_lookup_middle in Ht' by done. by injection Ht' as <-.
        -- apply lookup_lt_Some in Ht'. rewrite length_app in Ht'. cbn in Ht'. lia.
      * apply lookup_lt_Some in Ht'. lia.
    + unfold Copy in Ht'. destruct (heap w !! r0) as [t0|] eqn:Ht0.
      * cbn in Ht'. destruct (decide (r = length (heap w))) as [->|Hne].
        -- rewrite list_lookup_middle in Ht' by done. injection Ht' as <-. cbn.
           by destruct (Hw r0 t0 Ht0).
        -- apply lookup_lt_Some in Ht'. rewrite length_app in Ht'. cbn in Ht'. lia.
      * apply lookup_lt_Some in Ht'. lia.
Qed.

(** X13: between two calls no timer is ever [Completed] (or [Started]): in
    every state the process can reach, each timer is [Stopped], [Running]
    or [Paused].  A completion sets [Completed] only in passing: since
    [AutoDestroy] is always set, [Destroy] sets [Stopped] before the loop
    gives up control. *)
Theorem X13_never_Completed_at_rest
    (server : bool) (cs : list Call) (r : ref) (t : TimerInstance) :
  heap (steps cs (init server)) !! r = Some t ->
  Status t = Stopped \/ Status t = Running \/ Status t = Paused.
Proof.
  assert (H : forall w, all_at_rest w -> all_at_rest (steps cs w)).
  { induction cs as [|c cs IH]; intros w Hw; [done|].
    cbn [steps foldl]. apply IH. by apply all_at_rest_step. }
  intros Ht. destruct (H (init server)) with (r := r) (t := t) as [_ Hr]; [|done|].
  - intros r' t' Hl. cbn in Hl. by rewrite lookup_nil in Hl.
  - destruct (Status t); try discriminate Hr; tauto.
Qed.

Lemma X13_never_Completed_at_rest_witness :
  heap (steps [CallCreateTimer T1; CallStart 0; Wake 0; Wake 0; Wake 0] (init true)) !! 0
    = Some (mkTimer "T1" (num 3) (num 1) (num 0) true Stopped Destroyed Destroyed Live
                    (Some 0)) /\
  (Stopped = Stopped \/ Stopped = Running \/ Stopped = Paused).
Proof.
  split; [vm_compute; reflexivity|].
  apply (X13_never_Completed_at_rest true
           [CallCreateTimer T1; CallStart 0; Wake 0; Wake 0; Wake 0] 0
           (mkTimer "T1" (num 3) (num 1) (num 0) true Stopped Destroyed Destroyed Live
                    (Some 0))).
  vm_compute. reflexivity.
Defined.

(** ** A completed timer stays registered *)

Lemma Destroy_suspended r w t v :
  heap w !! r = Some t ->
  timerThread t = Some v ->
  Timers (Destroy r w).1 = Timers w /\ (Destroy r w).2 = Suspended
  /\ ~ In (Cancel v) (added w (Destroy r w).1).
Proof.
  intros Hh Hv. unfold Destroy. rewrite Hh, Hv. cbn [fst snd].
  split; [by wsimpl|]. split; [done|].
  erewrite added_app by (wsimpl; by rewrite <- !app_assoc).
  cbn. intros H. repeat (destruct H as [H|H]; [discriminate H|]). exact H.
Qed.

Lemma run_exit_yields th r w t v c :
  pool w !! th = Some c ->
  heap w !! r = Some t ->
  Status t = Running ->
  num_le (RemainingTime t) (num 0) = true ->
  AutoDestroy t = true ->
  timerThread t = Some v ->
  heap (run_exit th r w) !! r =
    Some (mkTimer (Name t) (Duration t) (Tick t) (RemainingTime t) true Stopped
                  Destroyed Destroyed (onTick t) (Some v))
  /\ Timers (run_exit th r w) = Timers w
  /\ pool (run_exit th r w) !! th = Some (mkCo (co_timer c) InYield).
Proof.
  intros Hp Hh Hs Hx HA Hv. unfold run_exit. rewrite Hh.
  rewrite Hx, bool_decide_eq_true_2 by done. cbn [andb]. rewrite HA.
  set (w' := fire r ch_onTick _ _).
  assert (Hh' : heap w' !! r = Some (with_Status Completed t))
    by (subst w'; eval_world Hh Hp; done).
  assert (Hp' : pool w' = pool w) by (subst w'; eval_world Hh Hp; done).
  assert (HT' : Timers w' = Timers w) by (subst w'; wsimpl; done).
  clearbody w'.
  destruct (Destroy_spec r w' _ Hh') as (_ & HDp & HDh & HDk).
  destruct (Destroy_suspended r w' _ v Hh' Hv) as (HDT & _ & _).
  cbn [timerThread with_Status] in HDk. rewrite Hv in HDk.
  destruct (Destroy r w') as [w'' k]. cbn [fst snd] in *. subst k.
  rewrite heap_setCoState, Timers_setCoState, HDh, HDT, HT'.
  cbn [Name Duration Tick RemainingTime AutoDestroy onTick timerThread with_Status].
  rewrite HA, Hv. split; [done|]. split; [done|].
  apply lookup_setCoState_eq. by rewrite HDp, Hp'.
Qed.

Lemma wake_finish_yields th r w t v :
  pool w !! th = Some (mkCo r InWait) ->
  heap w !! r = Some t ->
  Status t = Running ->
  num_le (num_sub (RemainingTime t) (Tick t)) (num 0) = true ->
  AutoDestroy t = true ->
  timerThread t = Some v ->
  heap (wake th w) !! r =
    Some (mkTimer (Name t) (Duration t) (Tick t) (num_sub (RemainingTime t) (Tick t)) true
                  Stopped Destroyed Destroyed (onTick t) (Some v))
  /\ Timers (wake th w) = Timers w
  /\ pool (wake th w) !! th = Some (mkCo r InYield).
Proof.
  intros Hp Hh Hs Hx HA Hv.
  destruct (wake_body th r w t Hp Hh) as (w1 & -> & Hh1 & Hp1 & _ & HT1).
  rewrite bool_decide_eq_false_2 by (rewrite Hs; tauto).
  unfold run_test. rewrite Hh1. cbn [RemainingTime Status Tick with_RemainingTime].
  rewrite (num_le_gt _ Hx). cbn [andb].
  destruct (run_exit_yields th r w1 _ v _ Hp1 Hh1 Hs Hx HA Hv) as (H1 & H2 & H3).
  rewrite H1, H2, H3, HT1. done.
Qed.

Lemma wake_continue_Timers th r w t :
  pool w !! th = Some (mkCo r InWait) ->
  heap w !! r = Some t ->
  Status t = Running ->
  num_gt (num_sub (RemainingTime t) (Tick t)) (num 0) = true ->
  Timers (wake th w) = Timers w.
Proof.
  intros Hp Hh Hs Hx.
  destruct (wake_body th r w t Hp Hh) as (w1 & -> & Hh1 & _ & _ & HT1).
  rewrite bool_decide_eq_false_2 by (rewrite Hs; tauto).
  unfold run_test. rewrite Hh1. cbn [RemainingTime Status Tick with_RemainingTime].
  rewrite Hx, bool_decide_eq_true_2 by done. cbn [andb].
  by rewrite Timers_setCoState.
Qed.

Lemma wakes_loop_Timers th r k : forall w t,
  pool w !! th = Some (mkCo r InWait) ->
  heap w !! r = Some t ->
  Status t = Running ->
  (forall i, 1 <= i <= k -> num_gt (remaining (RemainingTime t) (Tick t) i) (num 0) = true) ->
  Timers (wakes k th w) = Timers w.
Proof.
  induction k as [|k IH]; intros w t Hp Hh Hs Hx; [done|].
  assert (Hx1 : num_gt (num_sub (RemainingTime t) (Tick t)) (num 0) = true)
    by (apply (Hx 1); lia).
  destruct (wake_continue th r w t Hp Hh Hs Hx1) as (Hh' & Hp' & _).
  cbn [wakes]. rewrite (IH (wake th w) _ Hp' Hh' Hs).
  - by apply (wake_continue_Timers th r w t).
  - intros i Hi. apply (Hx (S i)). lia.
Qed.

Lemma Start_spawns_Timers r w t :
  heap w !! r = Some t ->
  Status t <> Running ->
  num_gt (RemainingTime t) (num 0) = true ->
  Timers (Start r w) = Timers w.
Proof.
  intros Hh Hs Hx.
  destruct (Start_body r w t Hh Hs) as (w1 & -> & Hh1 & _ & _ & _ & _ & HT1).
  unfold run_test. rewrite Hh1. cbn [RemainingTime Status with_Status].
  rewrite Hx, bool_decide_eq_true_2 by done. cbn [andb].
  unfold setTimerThread, fire. cbn [Timers emit with_trace].
  by rewrite Timers_modify, Timers_setCoState.
Qed.

(** X14: a timer at rest with [AutoDestroy] set and time left that is
    started and left to run ends up destroyed in part only.  After the last
    resumption it is [Stopped], [completed] and [statusChanged] are
    destroyed and [onTick] is not, the loop is suspended in
    [coroutine.yield], the timer still holds its handle, and the registry is
    exactly as before [Start]: a name that led to the timer still does.
    [N] is the number of subtractions that bring the remaining time to zero
    or below. *)
Theorem X14_completed_timer_stays_registered
    (w : World) (r : ref) (t : TimerInstance) (N : nat) :
  heap w !! r = Some t ->
  Status t <> Running ->
  AutoDestroy t = true ->
  num_gt (RemainingTime t) (num 0) = true ->
  runs_out (RemainingTime t) (Tick t) N = true ->
  let th := length (pool w) in
  let w' := wakes N th (Start r w) in
  heap w' !! r =
    Some (mkTimer (Name t) (Duration t) (Tick t) (remaining (RemainingTime t) (Tick t) N)
                  true Stopped Destroyed Destroyed (onTick t) (Some th)) /\
  Timers w' = Timers w /\
  pool w' !! th = Some (mkCo r InYield).
Proof.
  intros Hh Hs HA Hx Hrun th w'.
  destruct (runs_out_pos _ _ _ Hx Hrun) as [n ->].
  apply runs_out_spec in Hrun as [Hpos Hend].
  destruct (Start_spawns r w t Hh Hs Hx) as (Hh1 & Hp1 & _).
  pose proof (Start_spawns_Timers r w t Hh Hs Hx) as HT1.
  fold th in Hh1, Hp1.
  set (t1 := with_timerThread (Some th) (with_Status Running t)) in *.
  assert (Hposn : forall i, 1 <= i <= n ->
            num_gt (remaining (RemainingTime t1) (Tick t1) i) (num 0) = true).
  { intros i Hi. apply Hpos. lia. }
  destruct (wakes_loop th r n (Start r w) t1 Hp1 Hh1 eq_refl Hposn) as (H1 & H6 & _).
  pose proof (wakes_loop_Timers th r n (Start r w) t1 Hp1 Hh1 eq_refl Hposn) as HTn.
  subst w'. rewrite wakes_snoc. rewrite remaining_succ in Hend.
  destruct (wake_finish_yields th r _ _ th H6 H1 eq_refl Hend HA eq_refl) as (G1 & G2 & G3).
  split; [|split].
  - rewrite G1. by rewrite remaining_succ.
  - by rewrite G2, HTn.
  - done.
Qed.

Lemma X14_completed_timer_stays_registered_witness :
  heap world_T5 !! 0 = Some timer_T5 /\
  num_gt (num 5) (num 0) = true /\
  runs_out (num 5) (num 2) 3 = true /\
  heap (wakes 3 0 (Start 0 world_T5)) !! 0 =
    Some (mkTimer "T5" (num 5) (num 2) (remaining (num 5) (num 2) 3) true Stopped
                  Destroyed Destroyed Live (Some 0)) /\
  remaining (num 5) (num 2) 3 = num (-1) /\
  lookup_timer "T5" (wakes 3 0 (Start 0 world_T5)) = Some 0.
Proof.
  split; [reflexivity|]. split; [reflexivity|]. split; [vm_compute; reflexivity|].
  destruct (X14_completed_timer_stays_registered world_T5 0 timer_T5 3)
    as (H1 & H2 & _);
    [reflexivity | cbn; discriminate | reflexivity | reflexivity | vm_compute; reflexivity |].
  split; [exact H1|]. split; [vm_compute; reflexivity|]. unfold lookup_timer.
  replace (Timers (wakes 3 0 (Start 0 world_T5))) with (Timers world_T5)
    by (symmetry; exact H2).
  reflexivity.
Defined.

(** ** The default tick *)



(** ** Destroy on a running timer *)

(** X16: [Destroy] called on a running timer whose loop is waiting does not
    stop that loop.  The call sets [Stopped], destroys [completed] and
    [statusChanged], and then suspends its caller without cancelling
    anything or touching the registry.  At its next resumption the loop
    still fires [onTick] with the remaining time, takes one tick off and
    ends there, with no completion. *)
Theorem X16_Destroy_leaves_loop_running
    (w : World) (r : ref) (t : TimerInstance) (th : thread) :
  pool w !! th = Some (mkCo r InWait) ->
  heap w !! r = Some t ->
  Status t = Running ->
  timerThread t = Some th ->
  let w1 := (Destroy r w).1 in
  (Destroy r w).2 = Suspended /\
  Timers w1 = Timers w /\
  ~ In (Cancel th) (added w w1) /\
  pool w1 !! th = Some (mkCo r InWait) /\
  added w1 (wake th w1) = [Fire r ch_onTick (Some (RemainingTime t))] /\
  heap (wake th w1) !! r =
    Some (mkTimer (Name t) (Duration t) (Tick t) (num_sub (RemainingTime t) (Tick t))
                  (AutoDestroy t) Stopped Destroyed Destroyed (onTick t) (Some th)) /\
  has_ended th (wake th w1).
Proof.
  intros Hp Hh Hs Hth w1.
  destruct (Destroy_spec r w t Hh) as (_ & HDp & HDh & _).
  destruct (Destroy_suspended r w t th Hh Hth) as (HDT & HDk & HDc).
  fold w1 in HDp, HDh, HDT, HDc.
  assert (Hp1 : pool w1 !! th = Some (mkCo r InWait)) by (by rewrite HDp).
  destruct (wake_not_running th r w1 _ Hp1 HDh) as (G1 & G2 & G3); [done|].
  repeat split; try done.
  - rewrite G1. cbn. by rewrite Hth.
  - eexists. split; [exact G2|done].
Qed.

Lemma X16_Destroy_leaves_loop_running_witness :
  pool world_T1_started !! 0 = Some (mkCo 0 InWait) /\
  heap world_T1_started !! 0 =
    Some (mkTimer "T1" (num 3) (num 1) (num 3) true Running Live Live Live (Some 0)) /\
  added (Destroy 0 world_T1_started).1 (wake 0 (Destroy 0 world_T1_started).1) =
    [Fire 0 ch_onTick (Some (num 3))].
Proof.
  split; [reflexivity|]. split; [reflexivity|].
  destruct (X16_Destroy_leaves_loop_running world_T1_started 0
              (mkTimer "T1" (num 3) (num 1) (num 3) true Running Live Live Live (Some 0)) 0)
    as (_ & _ & _ & _ & H & _); [reflexivity | reflexivity | reflexivity | reflexivity |].
  exact H.
Defined.

(** ** One loop per timer *)

Lemma thread_of_same_pool v r0 w w' : pool w' = pool w -> thread_of v r0 w -> thread_of v r0 w'.
Proof. unfold thread_of. by intros ->. Qed.

Lemma thread_of_setCoState v r0 th s w : thread_of v r0 w -> thread_of v r0 (setCoState th s w).
Proof.
  intros (s0 & H). destruct (decide (th = v)) as [->|Hne].
  - exists s. by rewrite (lookup_setCoState_eq _ _ _ _ H).
  - exists s0. by rewrite lookup_setCoState_ne.
Qed.

Lemma thread_of_task_cancel v r0 th w : thread_of v r0 w -> thread_of v r0 (task_cancel th w).
Proof.
  intros H. unfold task_cancel.
  change (pool (emit (Cancel th) w)) with (pool w).
  assert (He : thread_of v r0 (emit (Cancel th) w)) by (by eapply thread_of_same_pool).
  destruct (pool w !! th) as [c|]; [|done].
  destruct (co_state c); try done; by apply thread_of_setCoState.
Qed.

Lemma thread_of_new_coroutine v r0 r w :
  thread_of v r0 w -> thread_of v r0 (with_pool (pool w ++ [mkCo r Active]) w).
Proof.
  intros (s & H). exists s. cbn. rewrite lookup_app_l; [done|]. by eapply lookup_lt_Some.
Qed.

Ltac thread_prims :=
  try done; try apply thread_of_task_cancel;
  try (intros; by apply thread_of_setCoState); try (intros; by apply thread_of_new_coroutine);
  try (intros; (eapply thread_of_same_pool; [|eassumption]); wsimpl; done).

Lemma thread_of_step v r0 c w : thread_of v r0 w -> thread_of v r0 (step c w).
Proof.
  intros Hc.
  destruct c as [d|r|r|r|r|r|r|th]; cbn [step].
  3-8: by_preservation (thread_of v r0) (fun _ : ref => True) (fun _ : thread => True);
       thread_prims.
  - unfold CreateTimer. destruct (IsServer w); cbn; done.
  - unfold Copy. destruct (heap w !! r) as [t|]; done.
Qed.

(** The pool after each method: at most one entry has changed. *)

Lemma pool_Destroy r w : pool (Destroy r w).1 = pool w.
Proof.
  destruct (heap w !! r) as [t|] eqn:Hh.
  - by destruct (Destroy_spec r w t Hh) as (_ & H & _).
  - by rewrite Destroy_unallocated.
Qed.

Lemma run_exit_pool_other th r w v :
  v <> th -> pool (run_exit th r w) !! v = pool w !! v.
Proof.
  intros Hne. unfold run_exit.
  destruct (heap w !! r) as [t|]; [|by rewrite lookup_setCoState_ne].
  destruct (_ && _); [|by rewrite lookup_setCoState_ne].
  set (w' := fire r ch_onTick _ _).
  assert (Hp' : pool w' = pool w) by (subst w'; wsimpl; done).
  clearbody w'.
  destruct (AutoDestroy t); [|by rewrite lookup_setCoState_ne, Hp'].
  pose proof (pool_Destroy r w') as HD.
  destruct (Destroy r w') as [w'' []]; cbn [fst] in HD;
    by rewrite lookup_setCoState_ne, HD, Hp'.
Qed.

Lemma run_test_pool_other th r w v :
  v <> th -> pool (run_test th r w) !! v = pool w !! v.
Proof.
  intros Hne. unfold run_test.
  destruct (heap w !! r) as [t|]; [|by rewrite lookup_setCoState_ne].
  destruct (_ && _); [by rewrite lookup_setCoState_ne|by apply run_exit_pool_other].
Qed.

Lemma wake_pool_other th w v :
  v <> th -> pool (wake th w) !! v = pool w !! v.
Proof.
  intros Hne. unfold wake. destruct (pool w !! th) as [c|]; [|done].
  destruct (co_state c); try done. unfold run_body.
  destruct (heap _ !! _) as [t|]; [|by rewrite !lookup_setCoState_ne].
  set (w1 := setRemainingTime _ _ _).
  assert (Hp1 : pool w1 !! v = pool w !! v).
  { subst w1. unfold setRemainingTime, fire. rewrite pool_modify. cbn.
    by rewrite lookup_setCoState_ne. }
  clearbody w1.
  destruct (bool_decide _);
    [rewrite run_exit_pool_other by done | rewrite run_test_pool_other by done]; done.
Qed.

Lemma Start_pool_other r w v :
  v < length (pool w) -> pool (Start r w) !! v = pool w !! v.
Proof.
  intros Hlt. unfold Start. destruct (heap w !! r) as [t|]; [|done].
  destruct (bool_decide _); [done|]. unfold task_spawn_run, run.
  assert (Hpool : pool (setStatus r Running w) = pool w) by apply pool_modify.
  rewrite Hpool.
  set (w1 := emit (Spawn _ _) _).
  assert (Hp1 : pool w1 !! v = pool w !! v).
  { subst w1. cbn [pool emit with_trace with_pool]. by rewrite lookup_app_l. }
  clearbody w1. unfold setTimerThread, fire. cbn [pool emit with_trace].
  rewrite pool_modify, run_test_pool_other by lia. done.
Qed.

Lemma length_pool_run_exit th r w : length (pool (run_exit th r w)) = length (pool w).
Proof.
  unfold run_exit.
  destruct (heap w !! r) as [t|]; [|by rewrite length_pool_setCoState].
  destruct (_ && _); [|by rewrite length_pool_setCoState].
  set (w' := fire r ch_onTick _ _).
  assert (Hp' : pool w' = pool w) by (subst w'; wsimpl; done).
  clearbody w'.
  destruct (AutoDestroy t); [|by rewrite length_pool_setCoState, Hp'].
  pose proof (pool_Destroy r w') as HD.
  destruct (Destroy r w') as [w'' []]; cbn [fst] in HD;
    by rewrite length_pool_setCoState, HD, Hp'.
Qed.

Lemma length_pool_run_test th r w : length (pool (run_test th r w)) = length (pool w).
Proof.
  unfold run_test.
  destruct (heap w !! r) as [t|]; [|by rewrite length_pool_setCoState].
  destruct (_ && _); [by rewrite length_pool_setCoState|apply length_pool_run_exit].
Qed.

Lemma Start_pool_length r w : length (pool (Start r w)) <= S (length (pool w)).
Proof.
  unfold Start. destruct (heap w !! r) as [t|]; [|lia].
  destruct (bool_decide _); [lia|]. unfold task_spawn_run, run.
  assert (Hpool : pool (setStatus r Running w) = pool w) by apply pool_modify.
  rewrite Hpool.
  set (w1 := emit (Spawn _ _) _).
  assert (Hp1 : length (pool w1) = S (length (pool w))).
  { subst w1. cbn [pool emit with_trace with_pool]. rewrite length_app. cbn. lia. }
  clearbody w1. unfold setTimerThread, fire. cbn [pool emit with_trace].
  rewrite pool_modify, length_pool_run_test. lia.
Qed.

Lemma task_cancel_pool x w v c :
  pool (task_cancel x w) !! v = Some c ->
  co_state c = InWait ->
  pool w !! v = Some c /\ v <> x.
Proof.
  unfold task_cancel. change (pool (emit (Cancel x) w)) with (pool w).
  intros H Hc. destruct (decide (v = x)) as [->|Hne].
  - exfalso. destruct (pool w !! x) as [c0|] eqn:Hx.
    + destruct (co_state c0) eqn:Hs0.
      all: try (cbn in H; rewrite Hx in H; injection H as <-; congruence).
      all: rewrite (lookup_setCoState_eq x Cancelled (emit (Cancel x) w) c0 Hx) in H;
           injection H as <-; cbn in Hc; discriminate Hc.
    + cbn in H. by rewrite Hx in H.
  - split; [|done]. destruct (pool w !! x) as [c0|]; [|done].
    destruct (co_state c0); try done; by rewrite lookup_setCoState_ne in H.
Qed.

Lemma Pause_handle r w t :
  heap w !! r = Some t ->
  Status t = Running ->
  exists t', heap (Pause r w) !! r = Some t' /\ timerThread t' = None.
Proof.
  intros Hh Hs. unfold Pause. rewrite Hh.
  rewrite bool_decide_eq_false_2 by (intros H; by apply H).
  set (w1 := fire r ch_statusChanged None _).
  assert (Hh1 : heap w1 !! r = Some (with_Status Paused t))
    by (subst w1; eval_world Hh Hh; done).
  clearbody w1.
  destruct (timerThread t) as [x|] eqn:Hx.
  - unfold setTimerThread. eexists. split.
    + apply lookup_modify_eq. rewrite heap_task_cancel. exact Hh1.
    + done.
  - eexists. split; [exact Hh1|done].
Qed.

Lemma Pause_pool_inv r w v c :
  pool (Pause r w) !! v = Some c ->
  co_state c = InWait ->
  pool w !! v = Some c /\
  (forall t, heap w !! r = Some t -> Status t = Running -> timerThread t <> Some v).
Proof.
  unfold Pause. destruct (heap w !! r) as [t|] eqn:Hh.
  2: { intros H _. split; [done|]. intros t' Ht'. discriminate Ht'. }
  case_bool_decide as Hs.
  { intros H _. split; [done|]. intros t' [= <-] Hs'. by destruct Hs. }
  set (w1 := fire r ch_statusChanged None _).
  assert (Hp1 : pool w1 = pool w) by (subst w1; wsimpl; done).
  clearbody w1.
  destruct (timerThread t) as [x|] eqn:Hx.
  - unfold setTimerThread. rewrite pool_modify. intros H Hc.
    destruct (task_cancel_pool x w1 v c H Hc) as [H1 H2].
    rewrite Hp1 in H1. split; [done|]. intros t' [= <-] _. congruence.
  - rewrite Hp1. intros H _. split; [done|]. intros t' [= <-] _. congruence.
Qed.

Lemma Stop_pool_inv r w v c :
  pool (Stop r w) !! v = Some c ->
  co_state c = InWait ->
  pool w !! v = Some c /\
  (forall t, heap w !! r = Some t -> Status t <> Stopped -> timerThread t <> Some v).
Proof.
  unfold Stop. destruct (heap w !! r) as [t|] eqn:Hh.
  2: { intros H _. split; [done|]. intros t' Ht'. discriminate Ht'. }
  case_bool_decide as Hs.
  { intros H _. split; [done|]. intros t' [= <-] Hs'. by destruct Hs'. }
  set (w1 := fire r ch_statusChanged None _).
  assert (Hp1 : pool w1 = pool w) by (subst w1; wsimpl; done).
  clearbody w1.
  destruct (timerThread t) as [x|] eqn:Hx.
  - unfold setTimerThread. rewrite pool_modify. intros H Hc.
    destruct (task_cancel_pool x w1 v c H Hc) as [H1 H2].
    rewrite Hp1 in H1. split; [done|]. intros t' [= <-] _. congruence.
  - rewrite Hp1. intros H _. split; [done|]. intros t' [= <-] _. congruence.
Qed.

Lemma run_exit_keeps_handle th r w t c :
  pool w !! th = Some c ->
  heap w !! r = Some t ->
  exists t', heap (run_exit th r w) !! r = Some t' /\ timerThread t' = timerThread t.
Proof.
  intros Hp Hh. unfold run_exit. rewrite Hh.
  destruct (_ && _); [|exists t; by rewrite heap_setCoState].
  set (w' := fire r ch_onTick _ _).
  assert (Hh' : heap w' !! r = Some (with_Status Completed t))
    by (subst w'; eval_world Hh Hp; done).
  clearbody w'.
  destruct (AutoDestroy t); [|eexists; rewrite heap_setCoState; split; [exact Hh'|done]].
  destruct (Destroy_spec r w' _ Hh') as (_ & _ & HDh & _).
  destruct (Destroy r w') as [w'' k]. cbn [fst] in HDh.
  destruct k; eexists; rewrite heap_setCoState; (split; [exact HDh|done]).
Qed.

Lemma wake_keeps_handle th r w t :
  pool w !! th = Some (mkCo r InWait) ->
  heap w !! r = Some t ->
  exists t', heap (wake th w) !! r = Some t' /\ timerThread t' = timerThread t.
Proof.
  intros Hp Hh. unfold wake. rewrite Hp. cbn [co_state co_timer].
  unfold run_body. rewrite heap_setCoState, Hh.
  set (w1 := setRemainingTime r _ _).
  assert (Hh1 : heap w1 !! r =
                Some (with_RemainingTime (num_sub (RemainingTime t) (Tick t)) t))
    by (subst w1; eval_world Hh Hp; done).
  assert (Hp1 : pool w1 !! th = Some (mkCo r Active))
    by (subst w1; eval_world Hh Hp; done).
  clearbody w1.
  destruct (bool_decide _).
  - by apply (run_exit_keeps_handle th r w1 _ _ Hp1 Hh1).
  - unfold run_test. rewrite Hh1.
    destruct (_ && _).
    + eexists. rewrite heap_setCoState. split; [exact Hh1|done].
    + by apply (run_exit_keeps_handle th r w1 _ _ Hp1 Hh1).
Qed.

Lemma handle_of_other_timer call w r0 t0 v :
  loops_owned w ->
  allocates call = false ->
  aims_at w r0 call = false ->
  heap (step call w) !! r0 = Some t0 ->
  timerThread t0 = Some v ->
  exists c, pool (step call w) !! v = Some c /\ co_timer c = r0.
Proof.
  intros [_ I2] Hal Ha Ht0 Hv.
  assert (Hlt : r0 < length (heap w)).
  { apply lookup_lt_Some in Ht0. by rewrite same_length_step in Ht0. }
  destruct (lookup_lt_is_Some_2 _ _ Hlt) as [tp Htp].
  rewrite (step_keeps_others w r0 tp call Htp Ha) in Ht0. injection Ht0 as <-.
  destruct (I2 r0 tp v Htp Hv) as (c & Hc & Hr).
  destruct (thread_of_step v r0 call w) as (s & Hs).
  { exists (co_state c). rewrite Hc. destruct c; cbn in *. by subst. }
  eexists. split; [exact Hs|done].
Qed.

Lemma waiting_loop_of_other_timer call w v c :
  loops_owned w ->
  pool w !! v = Some c ->
  co_state c = InWait ->
  aims_at w (co_timer c) call = false ->
  exists t, heap (step call w) !! co_timer c = Some t /\ Status t = Running /\
            timerThread t = Some v.
Proof.
  intros [I1 _] Hc Hs Ha.
  destruct (I1 v c Hc Hs) as (t & Ht & HR & Hv).
  exists t. split; [|done]. by apply step_keeps_others.
Qed.

Lemma loops_owned_Start r w : loops_owned w -> loops_owned (step (CallStart r) w).
Proof.
  intros Hw. cbn [step].
  destruct (heap w !! r) as [t|] eqn:Hh; [|by rewrite Start_unallocated].
  destruct (decide (Status t = Running)) as [Hs|Hs].
  { unfold Start. rewrite Hh. by rewrite bool_decide_eq_true_2. }
  pose proof (Start_pool_length r w) as Hlen.
  assert (Hnew : num_gt (RemainingTime t) (num 0) = true /\
                 heap (Start r w) !! r =
                   Some (with_timerThread (Some (length (pool w))) (with_Status Running t)) /\
                 pool (Start r w) !! length (pool w) = Some (mkCo r InWait)
              \/ (exists t', heap (Start r w) !! r = Some t' /\
                    timerThread t' = Some (length (pool w))) /\
                 (exists s, pool (Start r w) !! length (pool w) = Some (mkCo r s) /\
                    s <> InWait)).
  { destruct (num_gt (RemainingTime t) (num 0)) eqn:Hx.
    - left. destruct (Start_spawns r w t Hh Hs Hx) as (H1 & H2 & _). done.
    - right. destruct (Start_exhausted_state r w t Hh Hs Hx) as ((t' & H1 & H2 & _) & H3 & _).
      split; [by exists t'|done]. }
  split.
  - intros v c Hc HcS.
    destruct (decide (v < length (pool w))) as [Hlt|Hge].
    + rewrite Start_pool_other in Hc by done.
      destruct Hw as [I1 I2]. destruct (I1 v c Hc HcS) as (t0 & Ht0 & HR0 & Hv0).
      assert (Hne : r <> co_timer c) by (intros ->; congruence).
      apply (waiting_loop_of_other_timer (CallStart r) w v c); try done.
      cbn. by rewrite bool_decide_eq_false_2.
    + assert (v = length (pool w)) as -> by (apply lookup_lt_Some in Hc; lia).
      destruct Hnew as [(Hx & H1 & H2)|(_ & (s & H2 & Hs2))].
      * rewrite H2 in Hc. injection Hc as <-. cbn. eexists. split; [exact H1|done].
      * rewrite H2 in Hc. injection Hc as <-. cbn in HcS. congruence.
  - intros r0 t0 v Ht0 Hv.
    destruct (decide (r0 = r)) as [->|Hne].
    + destruct Hnew as [(Hx & H1 & H2)|((t' & H1 & H1') & (s & H2 & Hs2))].
      * rewrite H1 in Ht0. injection Ht0 as <-. cbn in Hv. injection Hv as <-.
        eexists. split; [exact H2|done].
      * rewrite H1 in Ht0. injection Ht0 as <-. rewrite H1' in Hv. injection Hv as <-.
        eexists. split; [exact H2|done].
    + apply (handle_of_other_timer (CallStart r) w r0 t0 v); try done.
      cbn. by rewrite bool_decide_eq_false_2.
Qed.

Lemma loops_owned_Resume r w : loops_owned w -> loops_owned (step (CallResume r) w).
Proof.
  intros Hw. cbn [step].
  destruct (heap w !! r) as [t|] eqn:Hh; [|by rewrite Resume_unallocated].
  destruct (decide (Status t = Paused)) as [Hs|Hs].
  - rewrite (Resume_as_Start r w t Hh Hs). by apply (loops_owned_Start r w).
  - unfold Resume. rewrite Hh. by rewrite bool_decide_eq_true_2.
Qed.

Lemma loops_owned_Pause r w : loops_owned w -> loops_owned (step (CallPause r) w).
Proof.
  intros Hw. cbn [step].
  destruct (heap w !! r) as [t|] eqn:Hh; [|by rewrite Pause_unallocated].
  destruct (decide (Status t = Running)) as [Hs|Hs].
  2: { unfold Pause. rewrite Hh. by rewrite bool_decide_eq_true_2. }
  split.
  - intros v c Hc HcS.
    destruct (Pause_pool_inv r w v c Hc HcS) as [Hpre Hx].
    destruct Hw as [I1 I2]. destruct (I1 v c Hpre HcS) as (t0 & Ht0 & HR0 & Hv0).
    assert (Hne : r <> co_timer c).
    { intros ->. rewrite Hh in Ht0. injection Ht0 as <-. by apply (Hx t). }
    apply (waiting_loop_of_other_timer (CallPause r) w v c); try done.
    cbn. by rewrite bool_decide_eq_false_2.
  - intros r0 t0 v Ht0 Hv.
    destruct (decide (r0 = r)) as [->|Hne].
    + destruct (Pause_handle r w t Hh Hs) as (t' & H1 & H2). congruence.
    + apply (handle_of_other_timer (CallPause r) w r0 t0 v); try done.
      cbn. by rewrite bool_decide_eq_false_2.
Qed.

Lemma loops_owned_Stop r w : loops_owned w -> loops_owned (step (CallStop r) w).
Proof.
  intros Hw. cbn [step].
  destruct (heap w !! r) as [t|] eqn:Hh; [|by rewrite Stop_unallocated].
  destruct (decide (Status t = Stopped)) as [Hs|Hs].
  { unfold Stop. rewrite Hh. by rewrite bool_decide_eq_true_2. }
  split.
  - intros v c Hc HcS.
    destruct (Stop_pool_inv r w v c Hc HcS) as [Hpre Hx].
    destruct Hw as [I1 I2]. destruct (I1 v c Hpre HcS) as (t0 & Ht0 & HR0 & Hv0).
    assert (Hne : r <> co_timer c).
    { intros ->. rewrite Hh in Ht0. injection Ht0 as <-. by apply (Hx t). }
    apply (waiting_loop_of_other_timer (CallStop r) w v c); try done.
    cbn. by rewrite bool_decide_eq_false_2.
  - intros r0 t0 v Ht0 Hv.
    destruct (decide (r0 = r)) as [->|Hne].
    + rewrite (Stop_resets r w t Hh Hs) in Ht0. injection Ht0 as <-. discriminate Hv.
    + apply (handle_of_other_timer (CallStop r) w r0 t0 v); try done.
      cbn. by rewrite bool_decide_eq_false_2.
Qed.

Lemma loops_owned_wake th w : loops_owned w -> loops_owned (step (Wake th) w).
Proof.
  intros Hw. cbn [step].
  destruct (pool w !! th) as [cth|] eqn:Hp; [|unfold wake; by rewrite Hp].
  destruct (decide (co_state cth = InWait)) as [Hc|Hc].
  2: { unfold wake. rewrite Hp. by destruct (co_state cth). }
  destruct cth as [r s]. cbn in Hc. subst s.
  pose proof Hw as [I1 I2].
  destruct (I1 th _ Hp eq_refl) as (t & Hh & Hs & Hv). cbn in Hh.
  split.
  - intros v c Hcv HcS.
    destruct (decide (v = th)) as [->|Hne].
    + destruct (num_gt (num_sub (RemainingTime t) (Tick t)) (num 0)) eqn:Hx;
        [|destruct (num_le (num_sub (RemainingTime t) (Tick t)) (num 0)) eqn:Hy].
      * destruct (wake_continue th r w t Hp Hh Hs Hx) as (H1 & H2 & _).
        rewrite H2 in Hcv. injection Hcv as <-. cbn. eexists. split; [exact H1|done].
      * destruct (wake_finish th r w t Hp Hh Hs Hy) as (_ & _ & (s & H2 & Hs2)).
        rewrite H2 in Hcv. injection Hcv as <-. cbn in HcS. congruence.
      * destruct (wake_stall th r w t Hp Hh Hs Hx Hy) as (_ & H2 & _).
        rewrite H2 in Hcv. injection Hcv as <-. cbn in HcS. congruence.
    + rewrite wake_pool_other in Hcv by done.
      destruct (I1 v c Hcv HcS) as (t0 & Ht0 & HR0 & Hv0).
      assert (Hner : r <> co_timer c).
      { intros ->. rewrite Hh in Ht0. injection Ht0 as <-. congruence. }
      apply (waiting_loop_of_other_timer (Wake th) w v c); try done.
      cbn. rewrite Hp. cbn. by rewrite bool_decide_eq_false_2.
  - intros r0 t0 v Ht0 Hv0.
    destruct (decide (r0 = r)) as [->|Hne].
    + destruct (wake_keeps_handle th r w t Hp Hh) as (t' & H1 & H2).
      rewrite H1 in Ht0. injection Ht0 as <-. rewrite H2, Hv in Hv0. injection Hv0 as <-.
      destruct (thread_of_step th r (Wake th) w) as (s & Hs').
      { by exists InWait. }
      eexists. split; [exact Hs'|done].
    + apply (handle_of_other_timer (Wake th) w r0 t0 v); try done.
      cbn. rewrite Hp. cbn. by rewrite bool_decide_eq_false_2.
Qed.

Lemma loops_owned_grow w (t : TimerInstance) w' :
  heap w' = heap w ++ [t] -> pool w' = pool w -> timerThread t = None ->
  loops_owned w -> loops_owned w'.
Proof.
  intros Hh Hp Hn [I1 I2]. split.
  - intros v c Hc Hs. rewrite Hp in Hc. destruct (I1 v c Hc Hs) as (t0 & Ht0 & H).
    exists t0. split; [|done]. rewrite Hh, lookup_app_l; [done|]. by eapply lookup_lt_Some.
  - intros r0 t0 v Ht0 Hv. rewrite Hp. rewrite Hh in Ht0.
    destruct (decide (r0 < length (heap w))) as [Hlt|Hge].
    + rewrite lookup_app_l in Ht0 by done. by apply (I2 r0 t0 v).
    + destruct (decide (r0 = length (heap w))) as [->|Hne].
      * rewrite list_lookup_middle in Ht0 by done. congruence.
      * apply lookup_lt_Some in Ht0. rewrite length_app in Ht0. cbn in Ht0. lia.
Qed.

Lemma loops_owned_step call w :
  is_destroy call = false -> loops_owned w -> loops_owned (step call w).
Proof.
  intros Hd Hw.
  destruct call as [d|r|r|r|r|r|r|th]; try discriminate Hd.
  - cbn [step]. unfold CreateTimer. destruct (IsServer w); cbn; [|done].
    by eapply loops_owned_grow; [| | |exact Hw].
  - cbn [step]. unfold Copy. destruct (heap w !! r) as [t|]; [|done].
    by eapply loops_owned_grow; [| | |exact Hw].
  - by apply loops_owned_Start.
  - by apply loops_owned_Pause.
  - by apply loops_owned_Resume.
  - by apply loops_owned_Stop.
  - by apply loops_owned_wake.
Qed.

(** X17: as long as [Destroy] is not called from outside, a timer never has
    two tick loops in flight.  In every state reached that way, each waiting
    loop belongs to a timer that is [Running] and holds the handle of that
    very loop; so two waiting loops of the same timer are one and the same,
    and a timer that is [Paused] or [Stopped] has no waiting loop at all. *)
Theorem X17_one_loop_per_timer (server : bool) (cs : list Call) :
  forallb (fun c => negb (is_destroy c)) cs = true ->
  let w := steps cs (init server) in
  (forall th c, pool w !! th = Some c -> co_state c = InWait ->
     exists t, heap w !! co_timer c = Some t /\ Status t = Running /\
               timerThread t = Some th) /\
  (forall th1 th2 c1 c2,
     pool w !! th1 = Some c1 -> co_state c1 = InWait ->
     pool w !! th2 = Some c2 -> co_state c2 = InWait ->
     co_timer c1 = co_timer c2 -> th1 = th2).
Proof.
  intros Hcs w.
  assert (Hw : loops_owned w).
  { subst w.
    assert (H : forall w0, loops_owned w0 -> loops_owned (steps cs w0)).
    { induction cs as [|c cs IH]; intros w0 Hw0; [done|].
      cbn in Hcs. apply andb_true_iff in Hcs as [Hc Hcs].
      cbn [steps foldl]. apply IH; [done|]. apply loops_owned_step; [|done].
      by destruct (is_destroy c). }
    apply H. split.
    - intros th c Hc. cbn in Hc. by rewrite lookup_nil in Hc.
    - intros r t v Ht. cbn in Ht. by rewrite lookup_nil in Ht. }
  destruct Hw as [I1 I2]. split; [exact I1|].
  intros th1 th2 c1 c2 H1 S1 H2 S2 Heq.
  destruct (I1 th1 c1 H1 S1) as (t1 & Ht1 & _ & Hv1).
  destruct (I1 th2 c2 H2 S2) as (t2 & Ht2 & _ & Hv2).
  rewrite Heq in Ht1. congruence.
Qed.

Lemma X17_one_loop_per_timer_witness :
  let cs := [CallCreateTimer T1; CallStart 0; Wake 0; CallPause 0; CallResume 0;
             CallStop 0; CallStart 0; Wake 2] in
  forallb (fun c => negb (is_destroy c)) cs = true /\
  pool (steps cs (init true)) !! 2 = Some (mkCo 0 InWait) /\
  exists t, heap (steps cs (init true)) !! 0 = Some t /\ Status t = Running /\
            timerThread t = Some 2.
Proof.
  intros cs. split; [reflexivity|]. split; [reflexivity|].
  destruct (X17_one_loop_per_timer true cs) as [H _]; [reflexivity|].
  apply (H 2 (mkCo 0 InWait)); reflexivity.
Defined.
